(** * InstantSpeech: session state machine, recording stage, pace and history

    A shallow embedding of the TypeScript sources

      - [App.tsx]              (src/unnamed/part_000)
      - [types.ts]             (src/unnamed/part_001)
      - [components/Stage.tsx] (src/unnamed/part_004, first document)
      - [services/historyService.ts] (src/unnamed/part_004, second document)
      - [services/geminiService.ts]
      - [components/Onboarding.tsx]
      - [components/SessionSetup.tsx] (src/unnamed/part_002)
      - [components/Analysis.tsx]
      - [components/VirtualCoach.tsx] (src/unnamed/part_003)

    React state cells ([useState]) become record fields threaded through
    handlers, refs ([useRef]) become fields of a store shared by every
    closure, and the values a closure captured at the render that created
    it are kept in a record of their own.  Promise rejections and thrown
    exceptions become sum types.

    JavaScript numbers are IEEE doubles.  The development works in exact
    rationals ([Q]) where a law is stated for every input and survives the
    rounding, and in binary64 ([PrimFloat]) where the value the code
    computes is at stake.

    An event sets cells, React commits a render, and the effects of that
    render run after it.  Where a property is about what is on screen the
    render between an event and its effects is a state of its own
    ([Stage.handle], [App.occur]). *)

From Stdlib Require Import ZArith QArith Qround Qminmax Lia List String Ascii DecimalString.
From Stdlib Require Import Floats.
From stdpp Require Import base list strings gmap.

Local Open Scope Z_scope.

(* ===================================================================== *)
(** ** The JavaScript prelude the sources rely on                         *)
(* ===================================================================== *)

Module JS.

(** [Math.max(a, b)] on finite numbers. *)
Definition Math_max (a b : Q) : Q := Qmax a b.

(** [Math.round(x)]: the integer nearest to [x], ties towards plus infinity. *)
Definition Math_round (x : Q) : Z := Qfloor (x + (1 # 2)).

(** [Math.floor(x)]. *)
Definition Math_floor (x : Q) : Z := Qfloor x.

(** A JavaScript string is a sequence of UTF-16 code units. *)
Abbreviation jsstring := (list N).

(** The code units of an ASCII literal. *)
Definition u16 (s : string) : jsstring :=
  List.map N_of_ascii (list_ascii_of_string s).

(** Truthiness of a string: every string but the empty one. *)
Definition truthy (s : jsstring) : bool :=
  match s with [] => false | _ :: _ => true end.

(** [String.prototype.toLowerCase] on the ASCII letters; other code units
    are left as they are (none of the needles searched for below can arise
    from the lower-casing of a letter outside ASCII). *)
Definition lower (c : N) : N :=
  if ((65 <=? c) && (c <=? 90))%N then (c + 32)%N else c.

Definition toLowerCase (s : jsstring) : jsstring := List.map lower s.

Fixpoint startsWith (needle s : jsstring) : bool :=
  match needle, s with
  | [], _ => true
  | _ :: _, [] => false
  | a :: needle', b :: s' => (a =? b)%N && startsWith needle' s'
  end.

(** [s.includes(needle)]. *)
Fixpoint includes (needle s : jsstring) : bool :=
  startsWith needle s ||
  match s with
  | [] => false
  | _ :: s' => includes needle s'
  end.

(** The class [\s] of regular expressions, which is also what [trim]
    strips: WhiteSpace and LineTerminator code points. *)
Definition isWhiteSpace (c : N) : bool :=
  match c with
  | 9 | 10 | 11 | 12 | 13 | 32 | 160 | 5760
  | 8232 | 8233 | 8239 | 8287 | 12288 | 65279 => true
  | _ => (8192 <=? c) && (c <=? 8202)
  end%N.

Fixpoint trimStart (s : jsstring) : jsstring :=
  match s with
  | [] => []
  | c :: s' => if isWhiteSpace c then trimStart s' else s
  end.

Fixpoint trimEnd (s : jsstring) : jsstring :=
  match s with
  | [] => []
  | c :: s' =>
      match trimEnd s' with
      | [] => if isWhiteSpace c then [] else [c]
      | r => c :: r
      end
  end.

(** [s.trim()]. *)
Definition trim (s : jsstring) : jsstring := trimEnd (trimStart s).

(** [s.split(/\s+/)].  The separator is a maximal run of white space;
    [in_sep] says that the scan is inside such a run, [cur] is the piece
    collected since the last separator.  A string that starts (ends) with
    white space yields an empty first (last) piece, and the empty string
    yields the single empty piece. *)
Fixpoint split_go (in_sep : bool) (cur s : jsstring) : list jsstring :=
  match s with
  | [] => [cur]
  | c :: s' =>
      if isWhiteSpace c then
        if in_sep then split_go true [] s'
        else cur :: split_go true [] s'
      else split_go false (cur ++ [c]) s'
  end.

Definition split_ws (s : jsstring) : list jsstring := split_go false [] s.

(** Whether a text ends in white space; [d] answers for the empty text. *)
Definition ends_blank (d : bool) (s : jsstring) : bool :=
  fold_left (fun _ c => isWhiteSpace c) s d.

(** The character class of code units U+4E00..U+9FA5, a-z, A-Z, 0-9. *)
Definition isCjkOrAlnum (c : N) : bool :=
  ((19968 <=? c) && (c <=? 40869) ||
   (97 <=? c) && (c <=? 122) ||
   (65 <=? c) && (c <=? 90) ||
   (48 <=? c) && (c <=? 57))%N.

(** Global replacement of every code unit outside that class by the
    empty string. *)
Definition stripNonContent (s : jsstring) : jsstring :=
  List.filter isCjkOrAlnum s.

(** [Math.min(a, b)] on finite numbers. *)
Definition Math_min (a b : Q) : Q := Qmin a b.

(** [Math.floor] and [Math.ceil] on a finite binary64 number, through its
    sign, mantissa and exponent. *)
Definition floor_binary64 (x : float) : Z :=
  match Prim2SF x with
  | S754_finite s m e =>
      let n := if s then Z.neg m else Z.pos m in
      if 0 <=? e then n * 2 ^ e else n / 2 ^ (- e)
  | _ => 0
  end.

Definition ceil_binary64 (x : float) : Z :=
  match Prim2SF x with
  | S754_finite s m e =>
      let n := if s then Z.neg m else Z.pos m in
      if 0 <=? e then n * 2 ^ e else - ((- n) / 2 ^ (- e))
  | _ => 0
  end.

(** A text made of white space only. *)
Definition blank (s : jsstring) : Prop :=
  Forall (fun c => isWhiteSpace c = true) s.

(** [s.endsWith(needle)]. *)
Definition endsWith (needle s : jsstring) : bool :=
  startsWith (rev needle) (rev s).

(** [s.replace(/^needle/, "")] and [s.replace(/needle$/, "")], for a needle
    without metacharacters. *)
Definition replaceAtStart (needle s : jsstring) : jsstring :=
  if startsWith needle s then drop (length needle) s else s.

Definition replaceAtEnd (needle s : jsstring) : jsstring :=
  if endsWith needle s then take (length s - length needle) s else s.

(** [s.split(sep)] for a separator of one code unit; [cur] is the piece
    collected since the last separator. *)
Fixpoint split_unit_go (sep : N) (cur s : jsstring) : list jsstring :=
  match s with
  | [] => [cur]
  | c :: s' =>
      if (c =? sep)%N then cur :: split_unit_go sep [] s'
      else split_unit_go sep (cur ++ [c]) s'
  end.

Definition split_unit (sep : N) (s : jsstring) : list jsstring :=
  split_unit_go sep [] s.

(** [Math.round] on a binary64 number, through its sign, mantissa and
    exponent: the integer nearest to it, ties towards plus infinity.
    ([Math.round] leaves an infinity and NaN as they are; they are no
    integers, and 0 stands for them here.) *)
Definition Math_round_binary64 (x : float) : Z :=
  match Prim2SF x with
  | S754_finite s m e =>
      let n := if s then Z.neg m else Z.pos m in
      if 0 <=? e then n * 2 ^ e
      else (2 * n + 2 ^ (- e)) / 2 ^ (- e + 1)
  | _ => 0
  end.

(** The binary64 number of a length or a count; it is that count itself,
    a JavaScript string having fewer than 2^53 code units. *)
Definition Number_of_count (n : Z) : float :=
  PrimFloat.of_uint63 (Uint63.of_Z n).

End JS.

Import JS.

(* ===================================================================== *)
(** ** types.ts                                                           *)
(* ===================================================================== *)

Inductive AppStep := ONBOARDING | SETUP | STAGE | ANALYSIS.

Inductive SessionMode := SPEECH | EXPRESS | COMEDY | DEBATE.

Inductive SpeechLevel := BEGINNER | ADVANCED | EXPERT.

Record UserPreferences := {
  topics : list jsstring;
  preferredMode : SessionMode
}.

Module SessionConfig.
Record t := {
  topic : jsstring;
  durationSeconds : Z;
  language : jsstring;
  mode : SessionMode;
  level : SpeechLevel;
  prepTimeSeconds : Z
}.
End SessionConfig.

Record SubScores := {
  logic : Z; delivery : Z; structure_score : Z; vocabulary : Z; emotion : Z
}.

Record Structure := {
  isPrepStructure : bool;
  point : jsstring; reason : jsstring; example : jsstring;
  pointRestated : jsstring; feedback : jsstring
}.

(** What is left of an analysis once the transcript and the pace are set
    apart: the fields that [analyzeSpeech] hands through untouched. *)
Record Assessment := {
  overallScore : Z;
  subScores : SubScores;
  fillerWordCount : Z;
  structure : Structure;
  sentiment : jsstring;
  speechFramework : list (jsstring * jsstring * jsstring);
  grammarAnalysis : list (jsstring * jsstring * jsstring);
  improvements : list (jsstring * jsstring * jsstring);
  strengths : list jsstring;
  weaknesses : list jsstring
}.

Module AnalysisResult.
Record t := {
  assessment : Assessment;
  transcript : option jsstring;
  wpm : Z
}.
End AnalysisResult.

(** A [Blob]: its bytes and its media type. *)
Record Blob := {
  bytes : list N;
  type : jsstring
}.

Module HistoryItem.
Record t := {
  id : jsstring;
  date : jsstring;
  topic : jsstring;
  mode : SessionMode;
  score : Z;
  wpm : Z;
  sentiment : jsstring;
  fullResult : AnalysisResult.t
}.
End HistoryItem.

(* ===================================================================== *)
(** ** services/geminiService.ts                                          *)
(* ===================================================================== *)

Module GeminiService.

(** The object [JSON.parse(jsonText)] yields, typed [any] in the source: a
    transcript and a pace of its own may or may not be there. *)
Record Payload := {
  p_assessment : Assessment;
  p_transcript : option jsstring;
  p_wpm : option Z
}.

(** How the remote call ends: the request (or the base64 conversion before
    it) rejects, the response carries no text, the text is not JSON, or it
    parses. *)
Inductive Response :=
| Rejected
| NoText
| Malformed
| Parsed (p : Payload).

Inductive AnalyzerError := RequestFailed | NoResponseFromAI | SyntaxError.

Definition isChinese (language : jsstring) : bool :=
  includes (u16 "cantonese") (toLowerCase language) ||
  includes (u16 "mandarin") (toLowerCase language) ||
  includes (u16 "chinese") (toLowerCase language) ||
  includes (u16 "japanese") (toLowerCase language).

Definition contentCount (language : jsstring) (transcript : option jsstring) : Z :=
  match transcript with
  | Some text =>
      if truthy text then
        if isChinese language then
          Z.of_nat (length (stripNonContent text))
        else
          Z.of_nat (length (split_ws (trim text)))
      else 0
  | None => 0
  end.

Definition safeDuration (durationSeconds : Q) : Q := Math_max durationSeconds 1%Q.

(** The pace over exact rationals: the law that the code's arithmetic
    follows up to the rounding of its two divisions.  What the code itself
    computes is [calculatedPace_binary64] below. *)
Definition calculatedPace (language : jsstring) (transcript : option jsstring)
    (durationSeconds : Q) : Z :=
  Math_round (inject_Z (contentCount language transcript)
              / (safeDuration durationSeconds / 60))%Q.

(** [analyzeSpeech], from the response on: the pace is computed locally and
    written over whatever [wpm] the payload carried. *)
Definition analyzeSpeech (response : Response) (durationSeconds : Q)
    (language : jsstring) : AnalyzerError + AnalysisResult.t :=
  match response with
  | Rejected => inl RequestFailed
  | NoText => inl NoResponseFromAI
  | Malformed => inl SyntaxError
  | Parsed p =>
      inr {| AnalysisResult.assessment := p_assessment p;
             AnalysisResult.transcript := p_transcript p;
             AnalysisResult.wpm :=
               calculatedPace language (p_transcript p) durationSeconds |}
  end.

(** The quotient that is rounded, in binary64, for closed inputs that are
    numbers. *)
Definition quotient_binary64 (count durationSeconds : float) : float :=
  let safe := if (durationSeconds <? 1)%float then 1%float else durationSeconds in
  (count / (safe / 60))%float.

(** [calculatedPace] as the code computes it.  The count and the duration
    are binary64 numbers; [safeDuration / 60] is rounded to the nearest
    such number, so is the quotient of the count by it, and [Math.round]
    is applied to what comes out. *)
Definition calculatedPace_binary64 (language : jsstring)
    (transcript : option jsstring) (durationSeconds : float) : Z :=
  Math_round_binary64
    (quotient_binary64 (Number_of_count (contentCount language transcript))
       durationSeconds).

(** [analyzeSpeech], from the response on, with that pace. *)
Definition analyzeSpeech_binary64 (response : Response) (durationSeconds : float)
    (language : jsstring) : AnalyzerError + AnalysisResult.t :=
  match response with
  | Rejected => inl RequestFailed
  | NoText => inl NoResponseFromAI
  | Malformed => inl SyntaxError
  | Parsed p =>
      inr {| AnalysisResult.assessment := p_assessment p;
             AnalysisResult.transcript := p_transcript p;
             AnalysisResult.wpm :=
               calculatedPace_binary64 language (p_transcript p) durationSeconds |}
  end.

(** How an awaited [generateContent] call ends: it rejects, or it resolves
    with a response whose [text] may be missing. *)
Inductive Reply :=
| CallRejected
| Replied (text : option jsstring).

(** The Markdown fence, and the fence that opens a JSON block. *)
Definition fence : jsstring := [96; 96; 96]%N.
Definition fence_json : jsstring := fence ++ u16 "json".

(** The lines under "Sanitize JSON" in [analyzeSpeech]. *)
Definition sanitizeJson (text : jsstring) : jsstring :=
  let jsonText := trim text in
  if startsWith fence_json jsonText then
    replaceAtEnd fence (replaceAtStart fence_json jsonText)
  else if startsWith fence jsonText then
    replaceAtEnd fence (replaceAtStart fence jsonText)
  else jsonText.

(** From the reply to the [Response] that [analyzeSpeech] goes on with;
    [JSON_parse] answers [None] where the parser throws. *)
Definition interpret (JSON_parse : jsstring -> option Payload) (reply : Reply)
    : Response :=
  match reply with
  | CallRejected => Rejected
  | Replied None => NoText
  | Replied (Some text) =>
      if truthy text then
        match JSON_parse (sanitizeJson text) with
        | Some p => Parsed p
        | None => Malformed
        end
      else NoText
  end.

(** The [isChinese] of [generateTopic], which chooses the language of the
    prompt and of the fallback topic; it has no test for Japanese. *)
Definition promptInChinese (language : jsstring) : bool :=
  includes (u16 "chinese") (toLowerCase language) ||
  includes (u16 "cantonese") (toLowerCase language) ||
  includes (u16 "mandarin") (toLowerCase language).

(** What [generateTopic] resolves with.  The interests, the mode and the
    level only shape the prompt that is sent. *)
Definition generateTopic (language : jsstring) (reply : Reply) : jsstring :=
  match reply with
  | CallRejected => u16 "What is the most important lesson you have learned?"
  | Replied text =>
      let fallback :=
        if promptInChinese language
        then [20998; 20139; 19968; 27425; 20320; 20811; 26381; 22256; 38627;
              30340; 32147; 27511; 12290]%N
        else u16 "Explain a recent challenge you overcame." in
      match text with
      | Some t => if truthy (trim t) then trim t else fallback
      | None => fallback
      end
  end.

(** [blobToBase64], from the data URL the reader produced: the piece after
    the first comma, or [undefined]. *)
Definition blobToBase64 (readerResult : jsstring) : option jsstring :=
  split_unit 44 readerResult !! 1%nat.

(** The mind map of a topic. *)
Record TopicOutline := { centralIdea : jsstring; points : list jsstring }.

(** How the request of [generateTopicOutline] ends: the call rejects, the
    response has no text, [JSON.parse] throws, or it yields the outline. *)
Inductive OutlineResponse :=
| OutlineRejected
| OutlineNoText
| OutlineMalformed
| OutlineParsed (o : TopicOutline).

(** What [generateTopicOutline] resolves with; the language only shapes
    the prompt that is sent. *)
Definition generateTopicOutline (topic : jsstring) (r : OutlineResponse)
    : TopicOutline :=
  match r with
  | OutlineParsed o => o
  | _ => {| centralIdea := topic;
            points := List.map u16 ["Key Point 1"; "Key Point 2"; "Key Point 3"]%string |}
  end.

End GeminiService.

(* ===================================================================== *)
(** ** services/historyService.ts                                         *)
(* ===================================================================== *)

Module HistoryService.

Definition STORAGE_KEY : jsstring := u16 "speakflow_history".

(** A text kept in [localStorage], told apart by what [JSON.parse] makes of
    it.  [Log l] is the text [JSON.stringify] writes for the array [l] of
    history items, and parses back to [l].  Texts that parse to a string
    or to an array of something else than history items are not covered. *)
Inductive text :=
| Blank                             (* the empty text, which is falsy *)
| Garbage                           (* no JSON at all: the parser throws *)
| NotIterable                       (* JSON for null, a number, a boolean, an object *)
| Log (l : list HistoryItem.t).

(** The browser's [localStorage]: [denied] when every access throws (storage
    blocked for the page), [exhausted] when [setItem] throws for want of
    quota. *)
Record Storage := {
  denied : bool;
  exhausted : bool;
  items : gmap jsstring text
}.

(** A thrown exception, or a value. *)
Inductive completion (A : Type) :=
| Throw
| Return (a : A).
Arguments Throw {A}.
Arguments Return {A} a.

#[export] Instance completion_ret : MRet completion := @Return.
#[export] Instance completion_bind : MBind completion :=
  fun A B f m => match m with Throw => Throw | Return a => f a end.

(** [try { body } catch (e) { handler }]. *)
Definition try_catch {A} (body handler : completion A) : completion A :=
  match body with
  | Throw => handler
  | Return a => Return a
  end.

(** What a value read from storage can be for the caller's purposes: an
    array of items, or something that cannot be spread into an array. *)
Inductive value :=
| Items (l : list HistoryItem.t)
| Opaque.

Definition getItem (st : Storage) (key : jsstring) : completion (option text) :=
  if denied st then Throw else Return (items st !! key).

Definition setItem (st : Storage) (key : jsstring) (t : text) : completion Storage :=
  if denied st || exhausted st then Throw
  else Return {| denied := denied st; exhausted := exhausted st;
                 items := <[key := t]> (items st) |}.

Definition JSON_parse (t : text) : completion value :=
  match t with
  | Blank | Garbage => Throw
  | NotIterable => Return Opaque
  | Log l => Return (Items l)
  end.

Definition JSON_stringify (l : list HistoryItem.t) : text := Log l.

Definition text_truthy (t : text) : bool :=
  match t with Blank => false | _ => true end.

(** The array literal that spreads [history] behind [item]. *)
Definition spread_after (item : HistoryItem.t) (history : value)
    : completion (list HistoryItem.t) :=
  match history with
  | Items l => Return (item :: l)
  | Opaque => Throw
  end.

(** [getHistory]: the value handed to the caller, or the exception that
    leaves the function. *)
Definition getHistory (st : Storage) : completion value :=
  try_catch
    (stored ← getItem st STORAGE_KEY;
     match stored with
     | Some t => if text_truthy t then JSON_parse t else Return (Items [])
     | None => Return (Items [])
     end)
    (Return (Items [])).

(** [saveHistoryItem]: the storage after the call, or the exception that
    leaves the function.  When the body throws, whatever it did before is
    kept; the only write is its last statement, so that is [st]. *)
Definition saveHistoryItem (item : HistoryItem.t) (st : Storage) : completion Storage :=
  try_catch
    (history ← getHistory st;
     all ← spread_after item history;
     let updated := take 20 all in
     setItem st STORAGE_KEY (JSON_stringify updated))
    (Return st).

(** The storage after a call, whichever way the call ended. *)
Definition after_save (item : HistoryItem.t) (st : Storage) : Storage :=
  match saveHistoryItem item st with
  | Return st' => st'
  | Throw => st
  end.

(** The storage can be read and written. *)
Definition usable (st : Storage) : Prop :=
  denied st = false /\ exhausted st = false.

(** One call of [saveHistoryItem] per item, in order. *)
Definition appendAll (items : list HistoryItem.t) (st : Storage) : Storage :=
  fold_left (fun st item => after_save item st) items st.

(** The log a caller of [getHistory] sees, when it is one. *)
Definition listed (st : Storage) : option (list HistoryItem.t) :=
  match getHistory st with
  | Return (Items l) => Some l
  | _ => None
  end.

End HistoryService.

(* ===================================================================== *)
(** ** components/Stage.tsx                                               *)
(* ===================================================================== *)

Module Stage.

Inductive trackKind := audio | video.
Inductive trackState := live | ended.

Record MediaStreamTrack := {
  kind : trackKind;
  readyState : trackState
}.

(** [track.stop()]. *)
Definition stop (t : MediaStreamTrack) : MediaStreamTrack :=
  {| kind := kind t; readyState := ended |}.

Inductive contextState := running | closed.
Inductive recorderState := inactive | recording.

(** The [useState] cells (the camera switch and the volume level, which no
    transition below reads, are left out). *)
Record State := {
  isPrep : bool;
  prepTimeLeft : Z;
  timeLeft : Z;
  isRecording : bool;
  isReady : bool
}.

(** The browser objects a stage instance creates.  There is at most one
    stream, one audio context, one recorder, and one animation frame
    request waiting at any time. *)
Record Browser := {
  stream : option (list MediaStreamTrack);
  audioContext : option contextState;
  recorder : option recorderState;
  pendingFrame : option positive;
  nextFrame : positive
}.

(** The [useRef] cells.  A cell that points to a browser object is modelled
    by whether it has been assigned; [animationFrameRef] holds a request
    id. *)
Record Refs := {
  mediaRecorderRef : bool;
  chunksRef : list Blob;
  streamRef : bool;
  startTimeRef : Z;
  audioContextRef : bool;
  analyserRef : bool;
  animationFrameRef : option positive
}.

(** What the closures built by the media set-up effect see.  The effect has
    an empty dependency list, so it runs once, after the first render, and
    [recorder.onstop], which is created in it, keeps reading the [config]
    and [timeLeft] bindings of that render however often the component
    renders again; what it reads through a ref ([startTimeRef],
    [chunksRef], [streamRef]) is current.  [mimeType] is the local of
    [setupStream]. *)
Record Closure := {
  seen_config : SessionConfig.t;
  seen_timeLeft : Z;
  mimeType : jsstring
}.

(** One mounted [Stage]: its props, cells, refs and browser objects;
    [isMounted] is the variable of that name in the set-up effect;
    [acquiring] holds until [getUserMedia] settles; [stopRequested] holds
    between [recorder.stop()] and the stop event; [finished] lists the
    calls of [onFinish], the latest first. *)
Record Instance := {
  config : SessionConfig.t;
  isTypeSupported : jsstring -> bool;
  state : State;
  refs : Refs;
  browser : Browser;
  isMounted : bool;
  acquiring : bool;
  stopRequested : bool;
  setup : Closure;
  finished : list (Blob * Q)
}.

(** *** Updates *)

Definition onState (f : State -> State) (i : Instance) : Instance :=
  {| config := config i; isTypeSupported := isTypeSupported i;
     state := f (state i); refs := refs i; browser := browser i;
     isMounted := isMounted i; acquiring := acquiring i;
     stopRequested := stopRequested i; setup := setup i;
     finished := finished i |}.

Definition onRefs (f : Refs -> Refs) (i : Instance) : Instance :=
  {| config := config i; isTypeSupported := isTypeSupported i;
     state := state i; refs := f (refs i); browser := browser i;
     isMounted := isMounted i; acquiring := acquiring i;
     stopRequested := stopRequested i; setup := setup i;
     finished := finished i |}.

Definition onBrowser (f : Browser -> Browser) (i : Instance) : Instance :=
  {| config := config i; isTypeSupported := isTypeSupported i;
     state := state i; refs := refs i; browser := f (browser i);
     isMounted := isMounted i; acquiring := acquiring i;
     stopRequested := stopRequested i; setup := setup i;
     finished := finished i |}.

Definition setIsMounted (v : bool) (i : Instance) : Instance :=
  {| config := config i; isTypeSupported := isTypeSupported i;
     state := state i; refs := refs i; browser := browser i;
     isMounted := v; acquiring := acquiring i;
     stopRequested := stopRequested i; setup := setup i;
     finished := finished i |}.

Definition setAcquiring (v : bool) (i : Instance) : Instance :=
  {| config := config i; isTypeSupported := isTypeSupported i;
     state := state i; refs := refs i; browser := browser i;
     isMounted := isMounted i; acquiring := v;
     stopRequested := stopRequested i; setup := setup i;
     finished := finished i |}.

Definition setStopRequested (v : bool) (i : Instance) : Instance :=
  {| config := config i; isTypeSupported := isTypeSupported i;
     state := state i; refs := refs i; browser := browser i;
     isMounted := isMounted i; acquiring := acquiring i;
     stopRequested := v; setup := setup i;
     finished := finished i |}.

Definition setMimeType (v : jsstring) (i : Instance) : Instance :=
  {| config := config i; isTypeSupported := isTypeSupported i;
     state := state i; refs := refs i; browser := browser i;
     isMounted := isMounted i; acquiring := acquiring i;
     stopRequested := stopRequested i;
     setup := {| seen_config := seen_config (setup i);
                 seen_timeLeft := seen_timeLeft (setup i);
                 mimeType := v |};
     finished := finished i |}.

Definition onFinish (blob : Blob) (duration : Q) (i : Instance) : Instance :=
  {| config := config i; isTypeSupported := isTypeSupported i;
     state := state i; refs := refs i; browser := browser i;
     isMounted := isMounted i; acquiring := acquiring i;
     stopRequested := stopRequested i; setup := setup i;
     finished := (blob, duration) :: finished i |}.

Definition setIsPrep (v : bool) (s : State) : State :=
  {| isPrep := v; prepTimeLeft := prepTimeLeft s; timeLeft := timeLeft s;
     isRecording := isRecording s; isReady := isReady s |}.

Definition setPrepTimeLeft (f : Z -> Z) (s : State) : State :=
  {| isPrep := isPrep s; prepTimeLeft := f (prepTimeLeft s); timeLeft := timeLeft s;
     isRecording := isRecording s; isReady := isReady s |}.

Definition setTimeLeft (f : Z -> Z) (s : State) : State :=
  {| isPrep := isPrep s; prepTimeLeft := prepTimeLeft s; timeLeft := f (timeLeft s);
     isRecording := isRecording s; isReady := isReady s |}.

Definition setIsRecording (v : bool) (s : State) : State :=
  {| isPrep := isPrep s; prepTimeLeft := prepTimeLeft s; timeLeft := timeLeft s;
     isRecording := v; isReady := isReady s |}.

Definition setIsReady (v : bool) (s : State) : State :=
  {| isPrep := isPrep s; prepTimeLeft := prepTimeLeft s; timeLeft := timeLeft s;
     isRecording := isRecording s; isReady := v |}.

Definition setStream (v : option (list MediaStreamTrack)) (b : Browser) : Browser :=
  {| stream := v; audioContext := audioContext b; recorder := recorder b;
     pendingFrame := pendingFrame b; nextFrame := nextFrame b |}.

Definition setAudioContext (v : option contextState) (b : Browser) : Browser :=
  {| stream := stream b; audioContext := v; recorder := recorder b;
     pendingFrame := pendingFrame b; nextFrame := nextFrame b |}.

Definition setRecorder (v : option recorderState) (b : Browser) : Browser :=
  {| stream := stream b; audioContext := audioContext b; recorder := v;
     pendingFrame := pendingFrame b; nextFrame := nextFrame b |}.

Definition setPendingFrame (v : option positive) (b : Browser) : Browser :=
  {| stream := stream b; audioContext := audioContext b; recorder := recorder b;
     pendingFrame := v; nextFrame := nextFrame b |}.

Definition bumpNextFrame (b : Browser) : Browser :=
  {| stream := stream b; audioContext := audioContext b; recorder := recorder b;
     pendingFrame := pendingFrame b; nextFrame := Pos.succ (nextFrame b) |}.

Definition setMediaRecorderRef (v : bool) (r : Refs) : Refs :=
  {| mediaRecorderRef := v; chunksRef := chunksRef r; streamRef := streamRef r;
     startTimeRef := startTimeRef r; audioContextRef := audioContextRef r;
     analyserRef := analyserRef r; animationFrameRef := animationFrameRef r |}.

Definition setChunksRef (f : list Blob -> list Blob) (r : Refs) : Refs :=
  {| mediaRecorderRef := mediaRecorderRef r; chunksRef := f (chunksRef r);
     streamRef := streamRef r;
     startTimeRef := startTimeRef r; audioContextRef := audioContextRef r;
     analyserRef := analyserRef r; animationFrameRef := animationFrameRef r |}.

Definition setStreamRef (v : bool) (r : Refs) : Refs :=
  {| mediaRecorderRef := mediaRecorderRef r; chunksRef := chunksRef r; streamRef := v;
     startTimeRef := startTimeRef r; audioContextRef := audioContextRef r;
     analyserRef := analyserRef r; animationFrameRef := animationFrameRef r |}.

Definition setStartTimeRef (v : Z) (r : Refs) : Refs :=
  {| mediaRecorderRef := mediaRecorderRef r; chunksRef := chunksRef r;
     streamRef := streamRef r;
     startTimeRef := v; audioContextRef := audioContextRef r;
     analyserRef := analyserRef r; animationFrameRef := animationFrameRef r |}.

Definition setAudioContextRef (v : bool) (r : Refs) : Refs :=
  {| mediaRecorderRef := mediaRecorderRef r; chunksRef := chunksRef r;
     streamRef := streamRef r;
     startTimeRef := startTimeRef r; audioContextRef := v;
     analyserRef := analyserRef r; animationFrameRef := animationFrameRef r |}.

Definition setAnalyserRef (v : bool) (r : Refs) : Refs :=
  {| mediaRecorderRef := mediaRecorderRef r; chunksRef := chunksRef r;
     streamRef := streamRef r;
     startTimeRef := startTimeRef r; audioContextRef := audioContextRef r;
     analyserRef := v; animationFrameRef := animationFrameRef r |}.

Definition setAnimationFrameRef (v : option positive) (r : Refs) : Refs :=
  {| mediaRecorderRef := mediaRecorderRef r; chunksRef := chunksRef r;
     streamRef := streamRef r;
     startTimeRef := startTimeRef r; audioContextRef := audioContextRef r;
     analyserRef := analyserRef r; animationFrameRef := v |}.

(** *** Mounting and the effects that follow a render *)

(** The state of the first render and the set-up effect it starts:
    [getUserMedia] is on its way, and the closures of the effect see this
    render's [config] and [timeLeft]. *)
Definition mount (cfg : SessionConfig.t) (supported : jsstring -> bool) : Instance :=
  {| config := cfg;
     isTypeSupported := supported;
     state := {| isPrep := 0 <? SessionConfig.prepTimeSeconds cfg;
                 prepTimeLeft := SessionConfig.prepTimeSeconds cfg;
                 timeLeft := SessionConfig.durationSeconds cfg;
                 isRecording := false;
                 isReady := false |};
     refs := {| mediaRecorderRef := false; chunksRef := []; streamRef := false;
                startTimeRef := 0; audioContextRef := false; analyserRef := false;
                animationFrameRef := None |};
     browser := {| stream := None; audioContext := None; recorder := None;
                   pendingFrame := None; nextFrame := 1%positive |};
     isMounted := true;
     acquiring := true;
     stopRequested := false;
     setup := {| seen_config := cfg;
                 seen_timeLeft := SessionConfig.durationSeconds cfg;
                 mimeType := [] |};
     finished := [] |}.

Fixpoint probe (supported : jsstring -> bool) (types : list jsstring) : jsstring :=
  match types with
  | [] => []
  | t :: types' =>
      if negb (truthy t) || supported t then t else probe supported types'
  end.

Definition getSupportedMimeType (supported : jsstring -> bool) : jsstring :=
  probe supported
    [u16 "audio/webm;codecs=opus"; u16 "audio/webm"; u16 "audio/mp4";
     u16 "audio/ogg;codecs=opus"; []].

(** [stream.getTracks().forEach(track => track.stop())]. *)
Definition stopTracks (i : Instance) : Instance :=
  onBrowser (fun b => setStream (option_map (List.map stop) (stream b)) b) i.

(** [updateVolume]: sample, then ask for the next animation frame and keep
    its id in [animationFrameRef]. *)
Definition updateVolume (i : Instance) : Instance :=
  if analyserRef (refs i) then
    let id := nextFrame (browser i) in
    onRefs (setAnimationFrameRef (Some id))
      (onBrowser (fun b => bumpNextFrame (setPendingFrame (Some id) b)) i)
  else i.

Definition stopRecording (i : Instance) : Instance :=
  match mediaRecorderRef (refs i), recorder (browser i) with
  | true, Some recording =>
      onState (setIsRecording false)
        (setStopRequested true
           (onBrowser (setRecorder (Some inactive)) i))
  | _, _ => i
  end.

(** The prep-timer effect, in the branch that ends the preparation. *)
Definition prepEffect (i : Instance) : Instance :=
  if isPrep (state i) && (prepTimeLeft (state i) =? 0)
  then onState (setIsPrep false) i else i.

(** The auto-stop effect. *)
Definition autoStopEffect (i : Instance) : Instance :=
  if negb (isPrep (state i)) && (timeLeft (state i) =? 0) && isRecording (state i)
  then stopRecording i else i.

Definition effects (i : Instance) : Instance := autoStopEffect (prepEffect i).

(** *** Handlers *)

Definition skipPrep (i : Instance) : Instance := onState (setIsPrep false) i.

Definition addTime (i : Instance) : Instance :=
  onState (setTimeLeft (fun prev => prev + 15)) i.

(** [startRecording]; [started] tells whether [recorder.start(1000)]
    returned rather than threw. *)
Definition startRecording (now : Z) (started : bool) (i : Instance) : Instance :=
  match mediaRecorderRef (refs i), recorder (browser i) with
  | true, Some inactive =>
      let i := onRefs (fun r => setStartTimeRef now (setChunksRef (fun _ => []) r)) i in
      if started then
        onState (setIsRecording true) (onBrowser (setRecorder (Some recording)) i)
      else i
  | _, _ => i
  end.

(** [recorder.ondataavailable]. *)
Definition ondataavailable (data : Blob) (i : Instance) : Instance :=
  match bytes data with
  | [] => i
  | _ :: _ => onRefs (setChunksRef (fun chunks => chunks ++ [data])) i
  end.

(** [recorder.onstop], run when the clock reads [now]. *)
Definition onstop (now : Z) (i : Instance) : Instance :=
  let c := setup i in
  let blob := {| bytes := List.concat (List.map bytes (chunksRef (refs i)));
                 type := if truthy (mimeType c) then mimeType c
                         else u16 "audio/webm" |} in
  let duration := (inject_Z (now - startTimeRef (refs i)) / 1000)%Q in
  let finalDuration :=
    if Qlt_le_dec 0 duration then duration
    else inject_Z (SessionConfig.durationSeconds (seen_config c) - seen_timeLeft c) in
  let i := if streamRef (refs i) then stopTracks i else i in
  onFinish blob finalDuration i.

(** How the body of [setupStream] goes on once the stream is there. *)
Inductive setupOutcome :=
| AudioContextThrows
| MediaRecorderThrows
| SetupCompletes.

Definition buildAudioGraph (i : Instance) : Instance :=
  updateVolume
    (onRefs (fun r => setAnalyserRef true (setAudioContextRef true r))
       (onBrowser (setAudioContext (Some running)) i)).

(** [setupStream] after [getUserMedia] has resolved with [tracks]. *)
Definition setupStream_resume (tracks : list MediaStreamTrack) (o : setupOutcome)
    (i : Instance) : Instance :=
  let i := onBrowser (setStream (Some tracks)) i in
  if negb (isMounted i) then stopTracks i
  else
    let i := onRefs (setStreamRef true) i in
    match o with
    | AudioContextThrows => i
    | MediaRecorderThrows =>
        setMimeType (getSupportedMimeType (isTypeSupported i)) (buildAudioGraph i)
    | SetupCompletes =>
        onState (setIsReady true)
          (onRefs (setMediaRecorderRef true)
             (onBrowser (setRecorder (Some inactive))
                (setMimeType (getSupportedMimeType (isTypeSupported i))
                   (buildAudioGraph i))))
    end.

(** [cancelAnimationFrame(id)]: the request with that id, if it is still
    waiting, is dropped. *)
Definition cancelAnimationFrame (id : positive) (b : Browser) : Browser :=
  if bool_decide (pendingFrame b = Some id) then setPendingFrame None b else b.

(** The clean-up the set-up effect returns. *)
Definition cleanup (i : Instance) : Instance :=
  let i := setIsMounted false i in
  let i := if streamRef (refs i) then stopTracks i else i in
  let i := if audioContextRef (refs i)
           then onBrowser (setAudioContext (Some closed)) i else i in
  match animationFrameRef (refs i) with
  | Some id => onBrowser (cancelAnimationFrame id) i
  | None => i
  end.

(** *** Events *)

Inductive event :=
| StreamGranted (kinds : list trackKind) (o : setupOutcome)
| StreamRefused
| AnimationFrame
| PrepTick
| RecordingTick
| ClickSkipPrep
| ClickStart (now : Z) (started : bool)
| DataAvailable (data : Blob)
| ClickStop
| RecorderStopped (now : Z)
| ClickAddTime
| Unmount.

(** The main stage is on screen: mounted and not in the prep overlay. *)
Definition onMainStage (i : Instance) : bool :=
  isMounted i && negb (isPrep (state i)).

(** One event.  An event that cannot occur in the state at hand (a click on
    a button that is not rendered or is disabled, a timer that is not set,
    a promise already settled) leaves it as it is. *)
Definition step (i : Instance) (e : event) : Instance :=
  match e with
  | StreamGranted kinds o =>
      if acquiring i then
        setupStream_resume
          (List.map (fun k => {| kind := k; readyState := live |}) kinds) o
          (setAcquiring false i)
      else i
  | StreamRefused =>
      if acquiring i then setAcquiring false i else i
  | AnimationFrame =>
      match pendingFrame (browser i) with
      | Some _ => updateVolume (onBrowser (setPendingFrame None) i)
      | None => i
      end
  | PrepTick =>
      if isMounted i && isPrep (state i) && (0 <? prepTimeLeft (state i))
      then effects (onState (setPrepTimeLeft (fun prev => prev - 1)) i)
      else i
  | RecordingTick =>
      if onMainStage i && isRecording (state i) && (0 <? timeLeft (state i))
      then effects (onState (setTimeLeft (fun prev => Z.max 0 (prev - 1))) i)
      else i
  | ClickSkipPrep =>
      if isMounted i && isPrep (state i) then effects (skipPrep i) else i
  | ClickStart now started =>
      if onMainStage i && negb (isRecording (state i)) && isReady (state i)
      then effects (startRecording now started i)
      else i
  | DataAvailable data =>
      match recorder (browser i) with
      | Some recording => ondataavailable data i
      | _ => if stopRequested i then ondataavailable data i else i
      end
  | ClickStop =>
      if onMainStage i && isRecording (state i) then effects (stopRecording i) else i
  | RecorderStopped now =>
      if stopRequested i then onstop now (setStopRequested false i) else i
  | ClickAddTime =>
      if onMainStage i && isRecording (state i) then effects (addTime i) else i
  | Unmount =>
      if isMounted i then cleanup i else i
  end.

Definition run (i : Instance) (es : list event) : Instance := fold_left step es i.

(** *** Renders *)

(** What an event does by itself, before any effect has run.  React
    commits a render with these values and runs the effects of that render
    after it; what the effects set is committed by a further render, the
    one [step] gives. *)
Definition handle (i : Instance) (e : event) : Instance :=
  match e with
  | PrepTick =>
      if isMounted i && isPrep (state i) && (0 <? prepTimeLeft (state i))
      then onState (setPrepTimeLeft (fun prev => prev - 1)) i
      else i
  | RecordingTick =>
      if onMainStage i && isRecording (state i) && (0 <? timeLeft (state i))
      then onState (setTimeLeft (fun prev => Z.max 0 (prev - 1))) i
      else i
  | ClickSkipPrep =>
      if isMounted i && isPrep (state i) then skipPrep i else i
  | ClickStart now started =>
      if onMainStage i && negb (isRecording (state i)) && isReady (state i)
      then startRecording now started i
      else i
  | ClickStop =>
      if onMainStage i && isRecording (state i) then stopRecording i else i
  | ClickAddTime =>
      if onMainStage i && isRecording (state i) then addTime i else i
  | _ => step i e
  end.

(** The renders one event commits, in their order. *)
Definition frames (i : Instance) (e : event) : list Instance :=
  [handle i e; step i e].

(** *** Observations *)

(** No hardware track is live. *)
Definition tracksStopped (i : Instance) : Prop :=
  match stream (browser i) with
  | Some tracks => Forall (fun t => readyState t = ended) tracks
  | None => True
  end.

Definition contextClosed (i : Instance) : Prop :=
  audioContext (browser i) <> Some running.

Definition loopCancelled (i : Instance) : Prop :=
  pendingFrame (browser i) = None.

(** The duration handed to [onFinish] by the latest call. *)
Definition delivered (i : Instance) : option Q :=
  match finished i with
  | (_, d) :: _ => Some d
  | [] => None
  end.

(** Every media resource of the instance has been let go. *)
Definition released (i : Instance) : Prop :=
  tracksStopped i /\ contextClosed i /\ loopCancelled i.

(** What holds of every instance a run can reach: the closures of the
    set-up effect still see the first render; nothing exists while
    [getUserMedia] is pending; each browser object that is alive is
    pointed to by the ref the clean-up reads; and an instance that has been
    unmounted holds no resource. *)
Record wired (i : Instance) : Prop := {
  closure_config : seen_config (setup i) = config i;
  closure_timeLeft :
    seen_timeLeft (setup i) = SessionConfig.durationSeconds (config i);
  nothing_before_grant :
    acquiring i = true ->
    stream (browser i) = None /\ audioContext (browser i) = None /\
    pendingFrame (browser i) = None /\ mediaRecorderRef (refs i) = false /\
    stopRequested i = false /\ streamRef (refs i) = false /\
    audioContextRef (refs i) = false /\ animationFrameRef (refs i) = None;
  stream_referenced :
    isMounted i = true -> stream (browser i) <> None -> streamRef (refs i) = true;
  context_referenced :
    audioContext (browser i) = Some running -> audioContextRef (refs i) = true;
  frame_referenced :
    forall id, pendingFrame (browser i) = Some id ->
               animationFrameRef (refs i) = Some id;
  recorder_has_stream :
    mediaRecorderRef (refs i) = true -> streamRef (refs i) = true;
  stop_has_recorder :
    stopRequested i = true -> mediaRecorderRef (refs i) = true;
  released_once_unmounted :
    isMounted i = false -> released i
}.

(** [n] presses of the add-time button. *)
Definition extend (n : nat) (i : Instance) : Instance :=
  Nat.iter n (fun i => step i ClickAddTime) i.

(** *** The recording discipline *)

(** What holds of every instance a run can reach, besides [wired]: the
    preparation overlay and the recorder exclude each other, the
    [isRecording] cell follows the recorder's state, and the recorder was
    built with the type [getSupportedMimeType] chose. *)
Record disciplined (i : Instance) : Prop := {
  prep_pending :
    isPrep (state i) = true -> 0 < prepTimeLeft (state i);
  prep_freezes :
    isPrep (state i) = true ->
    timeLeft (state i) = SessionConfig.durationSeconds (config i) /\
    isRecording (state i) = false;
  recording_runs :
    isRecording (state i) = true ->
    recorder (browser i) = Some recording /\ timeLeft (state i) <> 0;
  recorder_shown :
    recorder (browser i) = Some recording -> isRecording (state i) = true;
  recorder_referenced :
    recorder (browser i) <> None <-> mediaRecorderRef (refs i) = true;
  recorder_type :
    mediaRecorderRef (refs i) = true ->
    mimeType (setup i) = getSupportedMimeType (isTypeSupported i);
  ready_has_recorder :
    isReady (state i) = true -> mediaRecorderRef (refs i) = true;
  prep_quiet :
    isPrep (state i) = true -> stopRequested i = false /\ finished i = []
}.

(** A press of the start button after which [recorder.start] returns, and a
    press of the add-time button. *)
Definition isStart (e : event) : bool :=
  match e with ClickStart _ true => true | _ => false end.

Definition isAddTime (e : event) : bool :=
  match e with ClickAddTime => true | _ => false end.

(** The recordings that are under way or whose stop event is still to
    come. *)
Definition inFlight (i : Instance) : nat :=
  (if stopRequested i then 1 else 0) +
  (match recorder (browser i) with Some recording => 1 | _ => 0 end).

(** The container types [getSupportedMimeType] asks for, in its order. *)
Definition audioTypes : list jsstring :=
  [u16 "audio/webm;codecs=opus"; u16 "audio/webm"; u16 "audio/mp4";
   u16 "audio/ogg;codecs=opus"].

(** The instance with [chunksRef.current] replaced. *)
Definition withChunks (c : list Blob) (i : Instance) : Instance :=
  onRefs (setChunksRef (fun _ => c)) i.

(** [e.data.size > 0]. *)
Definition hasData (d : Blob) : bool :=
  match bytes d with [] => false | _ :: _ => true end.

(** The blob [recorder.onstop] builds. *)
Definition recordedBlob (i : Instance) : Blob :=
  {| bytes := List.concat (List.map bytes (chunksRef (refs i)));
     type := if truthy (mimeType (setup i)) then mimeType (setup i)
             else u16 "audio/webm" |}.

(** The recorder takes data: it records, or it has been stopped and its
    stop event is still to come. *)
Definition accepting (i : Instance) : Prop :=
  isMounted i = true /\ isPrep (state i) = false /\
  mediaRecorderRef (refs i) = true /\
  (recorder (browser i) = Some recording /\ isRecording (state i) = true \/
   stopRequested i = true /\ isRecording (state i) = false).

(** Every recording handed to [onFinish] has one of the container types
    and a duration that is not negative. *)
Definition handedOver (i : Instance) : Prop :=
  Forall (fun bd : Blob * Q => type (fst bd) ∈ audioTypes /\ (0 <= snd bd)%Q)
         (finished i).

(** *** The volume meter *)

(** The level [updateVolume] computes from the analyser's byte data. *)
Definition volumeLevel (dataArray : list Z) : Q :=
  let sum := fold_left Z.add dataArray 0 in
  let average := (inject_Z sum / inject_Z (Z.of_nat (length dataArray)))%Q in
  Math_min 100 (average * (5 # 2)).

(** The scale and the opacity of the ring drawn around the microphone. *)
Definition ringScale (volume : Q) : Q := (1 + volume / 200)%Q.

Definition ringOpacity (volume : Q) : Q := ((1 # 2) + volume / 200)%Q.

End Stage.

(* ===================================================================== *)
(** ** App.tsx                                                            *)
(* ===================================================================== *)

Module App.

Import HistoryService GeminiService.

(** Speech tips library. *)
Definition SPEECH_TIPS : list jsstring := List.map u16 [
  "Pause for 2-3 seconds before answering to show thoughtfulness.";
  "Use the PREP method: Point, Reason, Example, Point.";
  "Maintain eye contact with the camera to simulate audience connection.";
  "Vary your vocal tone to keep the audience engaged.";
  "Avoid filler words like 'um' and 'ah' by pausing instead.";
  "Start with a hook: a story, a statistic, or a question.";
  "End with a call to action or a memorable closing statement.";
  "Use hand gestures naturally to emphasize key points.";
  "Speak slightly slower than your normal conversation speed.";
  "Structure your speech with a clear beginning, middle, and end.";
  "Use 'Rule of Three' for lists (e.g., 'Life, Liberty, and Pursuit of Happiness').";
  "Smile when appropriate; it changes the tone of your voice.";
  "Anchor your body; avoid swaying or pacing aimlessly.";
  "Use analogies to explain complex concepts.";
  "Address the audience directly using 'you'.";
  "If you stumble, just pause, smile, and continue.";
  "Use silence as a tool to let important points sink in.";
  "Articulate your words clearly, especially consonants.";
  "Check your lighting; ensure your face is clearly visible.";
  "Breath from your diaphragm to project confidence.";
  "Don't memorize; internalize the key points instead.";
  "Visualize a successful speech before you start.";
  "Use a 'Past, Present, Future' structure for storytelling.";
  "Turn nervous energy into enthusiasm.";
  "Keep your sentences relatively short and punchy.";
  "Ask rhetorical questions to engage the audience's mind.";
  "Use contrast (e.g., 'Not only X, but also Y').";
  "Acknowledge the counter-argument to build credibility.";
  "Record yourself often to identify subconscious habits.";
  "Be yourself; authenticity resonates more than perfection."
]%string.

(** The [useState] cells of [App]. *)
Record State := {
  step : AppStep;
  userPrefs : UserPreferences;
  sessionConfig : SessionConfig.t;
  analysisResult : option AnalysisResult.t;
  currentAudioBlob : option Blob;
  recordedDuration : Q;
  isAnalyzing : bool;
  progress : Q;
  activeTips : list jsstring;
  currentTipIndex : nat
}.

Definition initial : State := {|
  step := ONBOARDING;
  userPrefs := {| topics := []; preferredMode := SPEECH |};
  sessionConfig := {|
    SessionConfig.topic := [];
    SessionConfig.durationSeconds := 60;
    SessionConfig.language := u16 "English";
    SessionConfig.mode := SPEECH;
    SessionConfig.level := BEGINNER;
    SessionConfig.prepTimeSeconds := 0 |};
  analysisResult := None;
  currentAudioBlob := None;
  recordedDuration := 0%Q;
  isAnalyzing := false;
  progress := 0%Q;
  activeTips := [];
  currentTipIndex := 0
|}.

(** The setters [useState] hands out. *)
Definition setStep (v : AppStep) (s : State) : State :=
  {| step := v; userPrefs := userPrefs s; sessionConfig := sessionConfig s;
     analysisResult := analysisResult s; currentAudioBlob := currentAudioBlob s;
     recordedDuration := recordedDuration s; isAnalyzing := isAnalyzing s;
     progress := progress s; activeTips := activeTips s;
     currentTipIndex := currentTipIndex s |}.

Definition setUserPrefs (v : UserPreferences) (s : State) : State :=
  {| step := step s; userPrefs := v; sessionConfig := sessionConfig s;
     analysisResult := analysisResult s; currentAudioBlob := currentAudioBlob s;
     recordedDuration := recordedDuration s; isAnalyzing := isAnalyzing s;
     progress := progress s; activeTips := activeTips s;
     currentTipIndex := currentTipIndex s |}.

Definition setSessionConfig (v : SessionConfig.t) (s : State) : State :=
  {| step := step s; userPrefs := userPrefs s; sessionConfig := v;
     analysisResult := analysisResult s; currentAudioBlob := currentAudioBlob s;
     recordedDuration := recordedDuration s; isAnalyzing := isAnalyzing s;
     progress := progress s; activeTips := activeTips s;
     currentTipIndex := currentTipIndex s |}.

Definition setAnalysisResult (v : option AnalysisResult.t) (s : State) : State :=
  {| step := step s; userPrefs := userPrefs s; sessionConfig := sessionConfig s;
     analysisResult := v; currentAudioBlob := currentAudioBlob s;
     recordedDuration := recordedDuration s; isAnalyzing := isAnalyzing s;
     progress := progress s; activeTips := activeTips s;
     currentTipIndex := currentTipIndex s |}.

Definition setCurrentAudioBlob (v : option Blob) (s : State) : State :=
  {| step := step s; userPrefs := userPrefs s; sessionConfig := sessionConfig s;
     analysisResult := analysisResult s; currentAudioBlob := v;
     recordedDuration := recordedDuration s; isAnalyzing := isAnalyzing s;
     progress := progress s; activeTips := activeTips s;
     currentTipIndex := currentTipIndex s |}.

Definition setRecordedDuration (v : Q) (s : State) : State :=
  {| step := step s; userPrefs := userPrefs s; sessionConfig := sessionConfig s;
     analysisResult := analysisResult s; currentAudioBlob := currentAudioBlob s;
     recordedDuration := v; isAnalyzing := isAnalyzing s;
     progress := progress s; activeTips := activeTips s;
     currentTipIndex := currentTipIndex s |}.

Definition setIsAnalyzing (v : bool) (s : State) : State :=
  {| step := step s; userPrefs := userPrefs s; sessionConfig := sessionConfig s;
     analysisResult := analysisResult s; currentAudioBlob := currentAudioBlob s;
     recordedDuration := recordedDuration s; isAnalyzing := v;
     progress := progress s; activeTips := activeTips s;
     currentTipIndex := currentTipIndex s |}.

Definition setProgress (f : Q -> Q) (s : State) : State :=
  {| step := step s; userPrefs := userPrefs s; sessionConfig := sessionConfig s;
     analysisResult := analysisResult s; currentAudioBlob := currentAudioBlob s;
     recordedDuration := recordedDuration s; isAnalyzing := isAnalyzing s;
     progress := f (progress s); activeTips := activeTips s;
     currentTipIndex := currentTipIndex s |}.

Definition setActiveTips (v : list jsstring) (s : State) : State :=
  {| step := step s; userPrefs := userPrefs s; sessionConfig := sessionConfig s;
     analysisResult := analysisResult s; currentAudioBlob := currentAudioBlob s;
     recordedDuration := recordedDuration s; isAnalyzing := isAnalyzing s;
     progress := progress s; activeTips := v;
     currentTipIndex := currentTipIndex s |}.

Definition setCurrentTipIndex (f : nat -> nat) (s : State) : State :=
  {| step := step s; userPrefs := userPrefs s; sessionConfig := sessionConfig s;
     analysisResult := analysisResult s; currentAudioBlob := currentAudioBlob s;
     recordedDuration := recordedDuration s; isAnalyzing := isAnalyzing s;
     progress := progress s; activeTips := activeTips s;
     currentTipIndex := f (currentTipIndex s) |}.

(** *** Transitions *)

Definition handleOnboardingComplete (prefs : UserPreferences) (s : State) : State :=
  let prev := sessionConfig s in
  setStep SETUP
    (setSessionConfig
       {| SessionConfig.topic := SessionConfig.topic prev;
          SessionConfig.durationSeconds := SessionConfig.durationSeconds prev;
          SessionConfig.language := SessionConfig.language prev;
          SessionConfig.mode := preferredMode prefs;
          SessionConfig.level := SessionConfig.level prev;
          SessionConfig.prepTimeSeconds := SessionConfig.prepTimeSeconds prev |}
       (setUserPrefs prefs s)).

Definition handleBackToOnboarding (s : State) : State := setStep ONBOARDING s.

Definition handleBackToSetup (s : State) : State := setStep SETUP s.

Definition handleSessionStart (config : SessionConfig.t) (s : State) : State :=
  setStep STAGE (setSessionConfig config s).

(** *** Tips shown while the analysis runs *)

(** What [[...SPEECH_TIPS].sort(() => 0.5 - Math.random())] may return:
    [sort] rearranges the elements of the copy, and with a comparator that
    answers at random the order reached is the engine's business. *)
Definition shuffle_of (corpus shuffled : list jsstring) : Prop :=
  corpus ≡ₚ shuffled.

(** The effect that loads the tips, run when [isAnalyzing] changes. *)
Definition loadTips (shuffled : list jsstring) (s : State) : State :=
  if isAnalyzing s then
    setCurrentTipIndex (fun _ => 0%nat) (setActiveTips (take 5 shuffled) s)
  else s.

(** One firing of the 5000 ms interval, which exists while [isAnalyzing]
    holds and there are active tips. *)
Definition rotateTip (s : State) : State :=
  if isAnalyzing s && (0 <? length (activeTips s))%nat then
    setCurrentTipIndex (fun prev => ((prev + 1) mod length (activeTips s))%nat) s
  else s.

(** The tip rendered at full opacity in the carousel. *)
Definition shownTip (s : State) : option jsstring :=
  activeTips s !! currentTipIndex s.

(** *** Simulated progress *)

Definition totalTime : Q := 45000%Q.
Definition tick : Q := 100%Q.

(** The updater the 100 ms interval applies to [progress]. *)
Definition advance (prev : Q) : Q :=
  (if Qle_bool 99 prev then 99 else prev + 100 / (totalTime / tick))%Q.

(** The effect on [isAnalyzing]: reset, then one [advance] per firing. *)
Definition startProgress (s : State) : State :=
  if isAnalyzing s then setProgress (fun _ => 0%Q) s else s.

Definition progressTick (s : State) : State :=
  if isAnalyzing s then setProgress advance s else s.

(** The same updater on binary64 numbers. *)
Definition advance_binary64 (prev : float) : float :=
  if (99 <=? prev)%float then 99%float
  else (prev + 100 / (45000 / 100))%float.

(** *** The analysis call *)

(** The application together with the browser storage it writes to. *)
Record World := {
  app : State;
  storage : Storage
}.

(** [Date.now().toString()]. *)
Definition Date_now_toString (now : Z) : jsstring :=
  u16 (DecimalString.NilZero.string_of_int (Z.to_int now)).

(** [handleSessionFinish] up to its [await]. *)
Definition handleSessionFinish_call (audioBlob : Blob) (duration : Q) (s : State) : State :=
  setRecordedDuration duration
    (setCurrentAudioBlob (Some audioBlob)
       (setIsAnalyzing true s)).

(** [handleSessionFinish] from the moment [analyzeSpeech] settles.
    [config] is the [sessionConfig] the handler closed over, [now] the
    clock and [iso] the ISO rendering of the date at that moment. *)
Definition handleSessionFinish_resume (config : SessionConfig.t)
    (outcome : AnalyzerError + AnalysisResult.t) (now : Z) (iso : jsstring)
    (w : World) : World :=
  match outcome with
  | inr result =>
      let historyItem := {|
        HistoryItem.id := Date_now_toString now;
        HistoryItem.date := iso;
        HistoryItem.topic := SessionConfig.topic config;
        HistoryItem.mode := SessionConfig.mode config;
        HistoryItem.score := overallScore (AnalysisResult.assessment result);
        HistoryItem.wpm := AnalysisResult.wpm result;
        HistoryItem.sentiment := sentiment (AnalysisResult.assessment result);
        HistoryItem.fullResult := result |} in
      {| app := setStep ANALYSIS
                  (setIsAnalyzing false
                     (setAnalysisResult (Some result) (app w)));
         storage := after_save historyItem (storage w) |}
  | inl e =>
      {| app := setStep SETUP (setIsAnalyzing false (app w));
         storage := storage w |}
  end.

(** A whole run of [handleSessionFinish], with nothing in between. *)
Definition handleSessionFinish (audioBlob : Blob) (duration : Q)
    (response : Response) (now : Z) (iso : jsstring) (w : World) : World :=
  let config := sessionConfig (app w) in
  handleSessionFinish_resume config
    (analyzeSpeech response duration (SessionConfig.language config))
    now iso
    {| app := handleSessionFinish_call audioBlob duration (app w);
       storage := storage w |}.

Definition handleLoadHistory (item : HistoryItem.t) (s : State) : State :=
  setStep ANALYSIS
    (setRecordedDuration 0%Q
       (setCurrentAudioBlob None
          (setAnalysisResult (Some (HistoryItem.fullResult item))
             (setSessionConfig
                {| SessionConfig.topic := HistoryItem.topic item;
                   SessionConfig.mode := HistoryItem.mode item;
                   SessionConfig.durationSeconds := 0;
                   SessionConfig.language := u16 "English";
                   SessionConfig.level := BEGINNER;
                   SessionConfig.prepTimeSeconds := 0 |}
                s)))).

Definition handleRestart (s : State) : State :=
  setStep SETUP
    (setRecordedDuration 0%Q
       (setCurrentAudioBlob None
          (setAnalysisResult None s))).

(** What the user or the environment can do to the application, each on
    the view that offers it: a recording is handed over by the stage view,
    the history list and the start button are on the setup view, the
    restart button is on the analysis view.  A run of [handleSessionFinish]
    is taken as one step. *)
Inductive event :=
| OnboardingComplete (prefs : UserPreferences)
| BackToOnboarding
| SessionStart (config : SessionConfig.t)
| BackToSetup
| SessionFinish (audioBlob : Blob) (duration : Q) (response : Response)
                (now : Z) (iso : jsstring)
| LoadHistory (item : HistoryItem.t)
| Restart.

Definition react (w : World) (e : event) : World :=
  let s := app w in
  let on (f : State -> State) := {| app := f s; storage := storage w |} in
  match e, step s with
  | OnboardingComplete prefs, ONBOARDING => on (handleOnboardingComplete prefs)
  | BackToOnboarding, SETUP => on handleBackToOnboarding
  | SessionStart config, SETUP => on (handleSessionStart config)
  | LoadHistory item, SETUP => on (handleLoadHistory item)
  | BackToSetup, STAGE => on handleBackToSetup
  | SessionFinish audioBlob duration response now iso, STAGE =>
      handleSessionFinish audioBlob duration response now iso w
  | Restart, ANALYSIS => on handleRestart
  | _, _ => w
  end.

Definition run (w : World) (es : list event) : World := fold_left react es w.

Definition boot (st : Storage) : World := {| app := initial; storage := st |}.

(** The application [n] firings of the progress interval after a recording
    was handed over: the call sets [isAnalyzing], the effect resets the
    progress, the interval advances it. *)
Definition analyzing (audioBlob : Blob) (duration : Q) (s : State) (n : nat) : State :=
  Nat.iter n progressTick
    (startProgress (handleSessionFinish_call audioBlob duration s)).

(** Outside the analysis view no result is attached. *)
Definition resultOnlyInAnalysis (w : World) : Prop :=
  step (app w) <> ANALYSIS -> analysisResult (app w) = None.

(** *** What is rendered *)

(** The view [App] puts on screen; [NothingShown] when none of the four
    conditions of the render holds. *)
Inductive View :=
| OnboardingView
| SetupView
| StageView (overlay : bool)
| AnalysisView (result : AnalysisResult.t) (audioBlob : option Blob)
               (recordedDuration : Q) (topic language : jsstring)
               (mode : SessionMode)
| NothingShown.

Definition view (s : State) : View :=
  match step s with
  | ONBOARDING => OnboardingView
  | SETUP => SetupView
  | STAGE => StageView (isAnalyzing s)
  | ANALYSIS =>
      match analysisResult s with
      | Some result =>
          AnalysisView result (currentAudioBlob s) (recordedDuration s)
            (SessionConfig.topic (sessionConfig s))
            (SessionConfig.language (sessionConfig s))
            (SessionConfig.mode (sessionConfig s))
      | None => NothingShown
      end
  end.

(** *** The numbers under the progress bar, in binary64 *)

(** The progress after [n] firings of the interval. *)
Definition progress_binary64 (n : nat) : float :=
  Nat.iter n advance_binary64 0%float.

(** [Math.floor(progress)]. *)
Definition shownPercent_binary64 (progress : float) : Z :=
  floor_binary64 progress.

(** [Math.max(0, Math.ceil(45 - (progress / 100 * 45)))]. *)
Definition estimatedRemaining_binary64 (progress : float) : Z :=
  Z.max 0 (ceil_binary64 (45 - progress / 100 * 45)%float).

(** The bounds on the two numbers at the firings [n] and [n + 1], as a
    test that can be run. *)
Definition overlay_ok (n : nat) : bool :=
  let p := progress_binary64 n in
  let p' := progress_binary64 (S n) in
  (0 <=? shownPercent_binary64 p) &&
  (shownPercent_binary64 p <=? shownPercent_binary64 p') &&
  (shownPercent_binary64 p' <=? 99) &&
  (1 <=? estimatedRemaining_binary64 p') &&
  (estimatedRemaining_binary64 p' <=? estimatedRemaining_binary64 p) &&
  (estimatedRemaining_binary64 p <=? 45) &&
  ((n <? 440)%nat || (estimatedRemaining_binary64 p =? 1)).

(** *** The application between its renders *)

(** A call of [analyzeSpeech] that has not settled: the [sessionConfig]
    and the duration that [handleSessionFinish] closed over. *)
Record Call := {
  asked_config : SessionConfig.t;
  asked_duration : Q
}.

(** The application as it runs: its cells and the storage, the calls of
    [analyzeSpeech] that are awaited, and whether the effects on
    [isAnalyzing] have still to run for the render that is on screen. *)
Record Live := {
  world : World;
  awaited : list Call;
  effectsDue : bool
}.

Definition live (st : Storage) : Live :=
  {| world := boot st; awaited := []; effectsDue := false |}.

(** What happens to the running application.  [handleSessionFinish] is
    taken apart at its [await]: the stage, which stays mounted under the
    overlay, hands a recording over, and the call settles later, after any
    number of other occurrences, a further recording handed over among
    them.  The render committed when [isAnalyzing] becomes true is on
    screen before its effects run; the intervals exist once they have.
    [react] above is the case in which a call settles before anything else
    happens. *)
Inductive occurrence :=
| Handed (audioBlob : Blob) (duration : Q)
| EffectsRun (shuffled : list jsstring)
| TipInterval
| ProgressInterval
| Settled (k : nat) (response : Response) (now : Z) (iso : jsstring)
| Does (e : event).

Definition onApp (f : State -> State) (x : Live) : Live :=
  {| world := {| app := f (app (world x)); storage := storage (world x) |};
     awaited := awaited x; effectsDue := effectsDue x |}.

Definition occur (x : Live) (o : occurrence) : Live :=
  let s := app (world x) in
  match o with
  | Handed audioBlob duration =>
      match step s with
      | STAGE =>
          {| world := {| app := handleSessionFinish_call audioBlob duration s;
                         storage := storage (world x) |};
             awaited := awaited x ++ [ {| asked_config := sessionConfig s;
                                          asked_duration := duration |} ];
             effectsDue := effectsDue x || negb (isAnalyzing s) |}
      | _ => x
      end
  | EffectsRun shuffled =>
      if effectsDue x then
        {| world := {| app := loadTips shuffled (startProgress s);
                       storage := storage (world x) |};
           awaited := awaited x; effectsDue := false |}
      else x
  | TipInterval => if effectsDue x then x else onApp rotateTip x
  | ProgressInterval => if effectsDue x then x else onApp progressTick x
  | Settled k response now iso =>
      match awaited x !! k with
      | Some c =>
          {| world :=
               handleSessionFinish_resume (asked_config c)
                 (analyzeSpeech response (asked_duration c)
                    (SessionConfig.language (asked_config c)))
                 now iso (world x);
             awaited := delete k (awaited x);
             effectsDue := effectsDue x |}
      | None => x
      end
  | Does (SessionFinish _ _ _ _ _) => x
  | Does e =>
      {| world := react (world x) e; awaited := awaited x;
         effectsDue := effectsDue x |}
  end.

Definition happen (x : Live) (os : list occurrence) : Live := fold_left occur os x.

(** The overlay of the stage view is on screen. *)
Definition overlayShown (s : State) : bool :=
  match step s with STAGE => isAnalyzing s | _ => false end.

(** The analysis view is only selected with a result to show. *)
Definition presentable (x : Live) : Prop :=
  step (app (world x)) = ANALYSIS -> analysisResult (app (world x)) <> None.

End App.

(* ===================================================================== *)
(** ** components/Onboarding.tsx                                         *)
(* ===================================================================== *)

Module Onboarding.

Definition INTERESTS : list jsstring := List.map u16 [
  "Technology"; "Philosophy"; "Education"; "Society";
  "Workplace"; "Relationships"; "Politics"; "World News";
  "Debate"; "Abstract"; "Humor"
]%string.

(** The [useState] cells of [Onboarding]. *)
Record State := {
  selectedInterests : list jsstring;
  selectedMode : SessionMode
}.

Definition initial : State :=
  {| selectedInterests := []; selectedMode := SPEECH |}.

Definition toggleInterest (interest : jsstring) (s : State) : State :=
  if bool_decide (interest ∈ selectedInterests s) then
    {| selectedInterests := filter (fun i => i <> interest) (selectedInterests s);
       selectedMode := selectedMode s |}
  else
    {| selectedInterests := selectedInterests s ++ [interest];
       selectedMode := selectedMode s |}.

Definition setSelectedMode (m : SessionMode) (s : State) : State :=
  {| selectedInterests := selectedInterests s; selectedMode := m |}.

(** What [handleNext] hands to [onComplete]. *)
Definition handleNext (s : State) : UserPreferences :=
  {| topics := if (0 <? length (selectedInterests s))%nat
               then selectedInterests s else [u16 "General"];
     preferredMode := selectedMode s |}.

(** A click on an interest chip or on a mode card. *)
Inductive event :=
| ClickInterest (interest : jsstring)
| ClickMode (m : SessionMode).

Definition step (s : State) (e : event) : State :=
  match e with
  | ClickInterest interest => toggleInterest interest s
  | ClickMode m => setSelectedMode m s
  end.

Definition run (s : State) (es : list event) : State := fold_left step es s.

(** How often a chip was clicked. *)
Definition clicks (interest : jsstring) (es : list event) : nat :=
  length (List.filter (fun e => match e with
                                | ClickInterest i => bool_decide (i = interest)
                                | ClickMode _ => false
                                end) es).

(** The mode card clicked last, if any. *)
Definition lastMode (es : list event) : option SessionMode :=
  fold_left (fun acc e => match e with ClickMode m => Some m | _ => acc end) es None.

End Onboarding.

(* ===================================================================== *)
(** ** components/SessionSetup.tsx                                       *)
(* ===================================================================== *)

Module SessionSetup.
Import GeminiService.

Definition COMEDY_THEMES : list jsstring := List.map u16 [
  "Parenting"; "Workplace"; "Dating/Marriage"; "Technology";
  "Traffic/Travel"; "Aging"; "Social Media"; "Friendship"; "Food/Diet"
]%string.

(** The values of the language, duration and preparation-time controls. *)
Definition LANGUAGES : list jsstring := List.map u16 [
  "English"; "Cantonese"; "Mandarin"; "Spanish"; "French"; "Japanese"
]%string.

Definition DURATIONS : list Z := [60; 120; 180; 300].

Definition PREP_TIMES : list Z := [0; 60; 180; 300; 600].

(** The [useState] cells that decide what [handleStart] hands over and
    what the tips overlay shows; the calls of [generateTopic] that have
    not settled yet, each with the language it was made with, and those of
    [generateTopicOutline], each with the topic it was made for. *)
Record State := {
  setupStep : Z;
  topic : jsstring;
  customTopic : jsstring;
  isCustomTopic : bool;
  loading : bool;
  duration : Z;
  prepTime : Z;
  language : jsstring;
  level : SpeechLevel;
  comedyTheme : jsstring;
  pending : list jsstring;
  outline : option TopicOutline;
  loadingOutline : bool;
  showMindmap : bool;
  pendingOutlines : list jsstring
}.

Definition initial : State := {|
  setupStep := 1;
  topic := u16 "Loading topic...";
  customTopic := [];
  isCustomTopic := false;
  loading := false;
  duration := 120;
  prepTime := 0;
  language := u16 "English";
  level := BEGINNER;
  comedyTheme := u16 "Parenting";
  pending := [];
  outline := None;
  loadingOutline := false;
  showMindmap := false;
  pendingOutlines := []
|}.

(** [fetchTopic] up to its [await]. *)
Definition fetchTopic (s : State) : State :=
  if isCustomTopic s then s
  else {| setupStep := setupStep s; topic := topic s; customTopic := customTopic s;
          isCustomTopic := isCustomTopic s; loading := true;
          duration := duration s; prepTime := prepTime s; language := language s;
          level := level s; comedyTheme := comedyTheme s;
          pending := pending s ++ [language s];
          outline := None; loadingOutline := loadingOutline s;
          showMindmap := showMindmap s; pendingOutlines := pendingOutlines s |}.

(** The effect on [setupStep] and on the identity of [fetchTopic]. *)
Definition topicEffect (s : State) : State :=
  if setupStep s =? 2 then fetchTopic s else s.

(** [fetchTopic] from the moment the call number [k] settles. *)
Definition fetchTopic_resume (k : nat) (reply : Reply) (s : State) : State :=
  match pending s !! k with
  | Some asked =>
      {| setupStep := setupStep s; topic := generateTopic asked reply;
         customTopic := customTopic s; isCustomTopic := isCustomTopic s;
         loading := false;
         duration := duration s; prepTime := prepTime s; language := language s;
         level := level s; comedyTheme := comedyTheme s;
         pending := delete k (pending s);
         outline := outline s; loadingOutline := loadingOutline s;
         showMindmap := showMindmap s; pendingOutlines := pendingOutlines s |}
  | None => s
  end.

Definition setSetupStep (v : Z) (s : State) : State :=
  {| setupStep := v; topic := topic s; customTopic := customTopic s;
     isCustomTopic := isCustomTopic s; loading := loading s;
     duration := duration s; prepTime := prepTime s; language := language s;
     level := level s; comedyTheme := comedyTheme s; pending := pending s;
     outline := outline s; loadingOutline := loadingOutline s;
     showMindmap := showMindmap s; pendingOutlines := pendingOutlines s |}.

Definition setCustomTopic (v : jsstring) (s : State) : State :=
  {| setupStep := setupStep s; topic := topic s; customTopic := v;
     isCustomTopic := isCustomTopic s; loading := loading s;
     duration := duration s; prepTime := prepTime s; language := language s;
     level := level s; comedyTheme := comedyTheme s; pending := pending s;
     outline := outline s; loadingOutline := loadingOutline s;
     showMindmap := showMindmap s; pendingOutlines := pendingOutlines s |}.

Definition setIsCustomTopic (v : bool) (s : State) : State :=
  {| setupStep := setupStep s; topic := topic s; customTopic := customTopic s;
     isCustomTopic := v; loading := loading s;
     duration := duration s; prepTime := prepTime s; language := language s;
     level := level s; comedyTheme := comedyTheme s; pending := pending s;
     outline := outline s; loadingOutline := loadingOutline s;
     showMindmap := showMindmap s; pendingOutlines := pendingOutlines s |}.

Definition setDuration (v : Z) (s : State) : State :=
  {| setupStep := setupStep s; topic := topic s; customTopic := customTopic s;
     isCustomTopic := isCustomTopic s; loading := loading s;
     duration := v; prepTime := prepTime s; language := language s;
     level := level s; comedyTheme := comedyTheme s; pending := pending s;
     outline := outline s; loadingOutline := loadingOutline s;
     showMindmap := showMindmap s; pendingOutlines := pendingOutlines s |}.

Definition setPrepTime (v : Z) (s : State) : State :=
  {| setupStep := setupStep s; topic := topic s; customTopic := customTopic s;
     isCustomTopic := isCustomTopic s; loading := loading s;
     duration := duration s; prepTime := v; language := language s;
     level := level s; comedyTheme := comedyTheme s; pending := pending s;
     outline := outline s; loadingOutline := loadingOutline s;
     showMindmap := showMindmap s; pendingOutlines := pendingOutlines s |}.

Definition setLanguage (v : jsstring) (s : State) : State :=
  {| setupStep := setupStep s; topic := topic s; customTopic := customTopic s;
     isCustomTopic := isCustomTopic s; loading := loading s;
     duration := duration s; prepTime := prepTime s; language := v;
     level := level s; comedyTheme := comedyTheme s; pending := pending s;
     outline := outline s; loadingOutline := loadingOutline s;
     showMindmap := showMindmap s; pendingOutlines := pendingOutlines s |}.

Definition setLevel (v : SpeechLevel) (s : State) : State :=
  {| setupStep := setupStep s; topic := topic s; customTopic := customTopic s;
     isCustomTopic := isCustomTopic s; loading := loading s;
     duration := duration s; prepTime := prepTime s; language := language s;
     level := v; comedyTheme := comedyTheme s; pending := pending s;
     outline := outline s; loadingOutline := loadingOutline s;
     showMindmap := showMindmap s; pendingOutlines := pendingOutlines s |}.

Definition setComedyTheme (v : jsstring) (s : State) : State :=
  {| setupStep := setupStep s; topic := topic s; customTopic := customTopic s;
     isCustomTopic := isCustomTopic s; loading := loading s;
     duration := duration s; prepTime := prepTime s; language := language s;
     level := level s; comedyTheme := v; pending := pending s;
     outline := outline s; loadingOutline := loadingOutline s;
     showMindmap := showMindmap s; pendingOutlines := pendingOutlines s |}.

Definition setShowMindmap (v : bool) (s : State) : State :=
  {| setupStep := setupStep s; topic := topic s; customTopic := customTopic s;
     isCustomTopic := isCustomTopic s; loading := loading s;
     duration := duration s; prepTime := prepTime s; language := language s;
     level := level s; comedyTheme := comedyTheme s; pending := pending s;
     outline := outline s; loadingOutline := loadingOutline s;
     showMindmap := v; pendingOutlines := pendingOutlines s |}.

(** The topic the tips are asked for. *)
Definition currentTopic (s : State) : jsstring :=
  if isCustomTopic s then customTopic s else topic s.

(** [handleRegenerateTips] up to its [await]. *)
Definition handleRegenerateTips (s : State) : State :=
  if negb (truthy (currentTopic s)) then s
  else
    {| setupStep := setupStep s; topic := topic s; customTopic := customTopic s;
       isCustomTopic := isCustomTopic s; loading := loading s;
       duration := duration s; prepTime := prepTime s; language := language s;
       level := level s; comedyTheme := comedyTheme s; pending := pending s;
       outline := outline s; loadingOutline := true;
       showMindmap := showMindmap s;
       pendingOutlines := pendingOutlines s ++ [currentTopic s] |}.

(** [handleGenerateMindmap] up to its [await]: an outline that is there
    is shown again without a request. *)
Definition handleGenerateMindmap (s : State) : State :=
  if negb (truthy (currentTopic s)) then s
  else
    match outline s with
    | Some _ => setShowMindmap true s
    | None => handleRegenerateTips (setShowMindmap true s)
    end.

(** Either handler from the moment the call number [k] settles;
    [generateTopicOutline] never rejects. *)
Definition tips_resume (k : nat) (r : OutlineResponse) (s : State) : State :=
  match pendingOutlines s !! k with
  | Some asked =>
      {| setupStep := setupStep s; topic := topic s; customTopic := customTopic s;
         isCustomTopic := isCustomTopic s; loading := loading s;
         duration := duration s; prepTime := prepTime s; language := language s;
         level := level s; comedyTheme := comedyTheme s; pending := pending s;
         outline := Some (generateTopicOutline asked r);
         loadingOutline := false;
         showMindmap := showMindmap s;
         pendingOutlines := delete k (pendingOutlines s) |}
  | None => s
  end.

(** What the tips overlay shows, when it is up. *)
Inductive Tips := TipsLoading | TipsOf (o : TopicOutline) | TipsFailed.

Definition tips (s : State) : option Tips :=
  if (setupStep s =? 2) && showMindmap s then
    Some (if loadingOutline s then TipsLoading
          else match outline s with
               | Some o => TipsOf o
               | None => TipsFailed
               end)
  else None.

(** The mode is read from the props: [prefs.preferredMode || SPEECH],
    where every member of the enum is a non-empty string. *)
Definition mode (prefs : UserPreferences) : SessionMode := preferredMode prefs.

(** What [handleStart] hands to [onStart]. *)
Definition handleStart (prefs : UserPreferences) (s : State) : SessionConfig.t :=
  {| SessionConfig.topic := if isCustomTopic s then customTopic s else topic s;
     SessionConfig.durationSeconds := duration s;
     SessionConfig.language := language s;
     SessionConfig.mode := mode prefs;
     SessionConfig.level := level s;
     SessionConfig.prepTimeSeconds := prepTime s |}.

(** The start button is on the second step and is not disabled. *)
Definition canStart (s : State) : bool :=
  (setupStep s =? 2) &&
  negb (loading s || (isCustomTopic s && negb (truthy (trim (customTopic s))))).

(** What the user and the network can do. *)
Inductive event :=
| SelectLevel (l : SpeechLevel)
| SelectLanguage (l : jsstring)
| NextStep
| BackToConfig
| SelectDuration (sec : Z)
| SelectPrepTime (sec : Z)
| ChooseGenerated
| ChooseCustom
| TypeCustomTopic (text : jsstring)
| SelectComedyTheme (theme : jsstring)
| ClickNewTopic
| TopicArrives (k : nat) (reply : Reply)
| ClickTips
| ClickRegenerate
| CloseTips
| TipsArrive (k : nat) (r : OutlineResponse).

Definition modeIsComedy (prefs : UserPreferences) : bool :=
  match mode prefs with COMEDY => true | _ => false end.

(** One event; an event whose control is not on screen, or that sets a
    cell to the value it has, changes nothing.  A change of [language],
    [level], [isCustomTopic] or [comedyTheme] gives [fetchTopic] a new
    identity, so the effect runs again. *)
Definition step (prefs : UserPreferences) (s : State) (e : event) : State :=
  match e with
  | SelectLevel l =>
      if setupStep s =? 1 then topicEffect (setLevel l s) else s
  | SelectLanguage l =>
      if (setupStep s =? 1) && bool_decide (l ∈ LANGUAGES)
      then topicEffect (setLanguage l s) else s
  | NextStep =>
      if setupStep s =? 1 then topicEffect (setSetupStep 2 s) else s
  | BackToConfig =>
      if setupStep s =? 2 then topicEffect (setSetupStep 1 s) else s
  | SelectDuration sec =>
      if (setupStep s =? 2) && bool_decide (sec ∈ DURATIONS)
      then setDuration sec s else s
  | SelectPrepTime sec =>
      if (setupStep s =? 2) && bool_decide (sec ∈ PREP_TIMES)
      then setPrepTime sec s else s
  | ChooseGenerated =>
      if (setupStep s =? 2) && isCustomTopic s
      then topicEffect (setIsCustomTopic false s) else s
  | ChooseCustom =>
      if (setupStep s =? 2) && negb (isCustomTopic s)
      then topicEffect (setIsCustomTopic true s) else s
  | TypeCustomTopic text =>
      if (setupStep s =? 2) && isCustomTopic s then setCustomTopic text s else s
  | SelectComedyTheme theme =>
      if (setupStep s =? 2) && negb (isCustomTopic s) && modeIsComedy prefs
         && bool_decide (theme ∈ COMEDY_THEMES)
         && negb (bool_decide (theme = comedyTheme s))
      then topicEffect (setComedyTheme theme s) else s
  | ClickNewTopic =>
      if (setupStep s =? 2) && negb (isCustomTopic s) && negb (modeIsComedy prefs)
         && negb (loading s)
      then fetchTopic s else s
  | TopicArrives k reply => fetchTopic_resume k reply s
  | ClickTips =>
      if (setupStep s =? 2)
         && negb (loading s || (isCustomTopic s && negb (truthy (customTopic s))))
      then handleGenerateMindmap s else s
  | ClickRegenerate =>
      if (setupStep s =? 2) && showMindmap s && negb (loadingOutline s)
      then handleRegenerateTips s else s
  | CloseTips =>
      if (setupStep s =? 2) && showMindmap s then setShowMindmap false s else s
  | TipsArrive k r => tips_resume k r s
  end.

Definition run (prefs : UserPreferences) (s : State) (es : list event) : State :=
  fold_left (step prefs) es s.

(** A click on the start button. *)
Definition start (prefs : UserPreferences) (s : State) : option SessionConfig.t :=
  if canStart s then Some (handleStart prefs s) else None.

(** What holds of every state of the set-up view. *)
Record settled (s : State) : Prop := {
  step_known : setupStep s = 1 \/ setupStep s = 2;
  topic_generated :
    setupStep s = 2 -> isCustomTopic s = false -> loading s = false ->
    exists asked reply, topic s = generateTopic asked reply;
  topic_solid : trim (topic s) <> [];
  duration_offered : duration s ∈ DURATIONS;
  prepTime_offered : prepTime s ∈ PREP_TIMES;
  language_offered : language s ∈ LANGUAGES
}.

(** What the tips of a topic of the user's own rest on. *)
Record cached (o : TopicOutline) (s : State) : Prop := {
  own_topic : isCustomTopic s = true;
  outline_there : outline s = Some o;
  outline_quiet : loadingOutline s = false;
  none_awaited : pendingOutlines s = []
}.

End SessionSetup.

(* ===================================================================== *)
(** ** components/Analysis.tsx                                           *)
(* ===================================================================== *)

Module Analysis.

Definition isChinese (language : jsstring) : bool :=
  includes (u16 "chinese") (toLowerCase language) ||
  includes (u16 "cantonese") (toLowerCase language) ||
  includes (u16 "mandarin") (toLowerCase language) ||
  includes (u16 "japanese") (toLowerCase language).

(** The unit put next to the pace. *)
Definition paceUnit (language : jsstring) : jsstring :=
  if isChinese language then u16 "CPM" else u16 "WPM".

(** The player is rendered when there is a recording to play. *)
Definition playerShown (audioBlob : option Blob) : bool :=
  match audioBlob with Some _ => true | None => false end.

(** The cells of [CustomAudioPlayer] that [toggleSpeed] touches, and the
    playback rate of the audio element, when [audioRef] points to one. *)
Record Player := {
  speed : Q;
  playbackRate : option Q
}.

Definition speeds : list Q := [1; 5 # 4; 3 # 2; 2]%Q.

(** [speeds.indexOf(speed)]. *)
Fixpoint indexOf (l : list Q) (x : Q) : Z :=
  match l with
  | [] => -1
  | y :: l' =>
      if Qeq_bool y x then 0
      else match indexOf l' x with
           | -1 => -1
           | i => i + 1
           end
  end.

Definition toggleSpeed (p : Player) : Player :=
  let nextIdx := Z.rem (indexOf speeds (speed p) + 1) (Z.of_nat (length speeds)) in
  let nextSpeed := nth (Z.to_nat nextIdx) speeds 0%Q in
  {| speed := nextSpeed;
     playbackRate := option_map (fun _ => nextSpeed) (playbackRate p) |}.

(** The player as it is mounted, with its audio element. *)
Definition mounted : Player := {| speed := 1; playbackRate := Some 1%Q |}.

End Analysis.

(* ===================================================================== *)
(** ** components/VirtualCoach.tsx                                       *)
(* ===================================================================== *)

Module VirtualCoach.
Import GeminiService.

(** The language tag given to the speech recogniser. *)
Definition langTag (language : jsstring) : jsstring :=
  let l := toLowerCase language in
  if includes (u16 "cantonese") l then u16 "yue-Hant-HK"
  else if includes (u16 "mandarin") l || includes (u16 "chinese") l then u16 "zh-CN"
  else if includes (u16 "spanish") l then u16 "es-ES"
  else if includes (u16 "french") l then u16 "fr-FR"
  else if includes (u16 "japanese") l then u16 "ja-JP"
  else u16 "en-US".

(** The conversation with the coach. *)
Inductive Role := user | model.

Record Message := { role : Role; text : jsstring }.

(** The two places that call [sendMessage]: the greeting of the mount
    effect and [handleSend]. *)
Inductive Call := Greeting | Send.

(** The [useState] cells of the conversation, and the calls of
    [sendMessage] that have not settled yet. *)
Record State := {
  messages : list Message;
  input : jsstring;
  isLoading : bool;
  awaited : list Call
}.

Definition suggestions : list jsstring := List.map u16 [
  "How can I improve my introduction?";
  "Give me an example of a better conclusion.";
  "Explain the framework you suggested.";
  "Was my tone appropriate?"
]%string.

(** [a || b] on strings. *)
Definition orElse (a : option jsstring) (b : jsstring) : jsstring :=
  match a with
  | Some t => if truthy t then t else b
  | None => b
  end.

(** The component after its effects have run: [startConversation] has
    set [isLoading] and awaits the greeting. *)
Definition mounted : State :=
  {| messages := []; input := []; isLoading := true; awaited := [Greeting] |}.

Definition setInput (v : jsstring) (s : State) : State :=
  {| messages := messages s; input := v; isLoading := isLoading s;
     awaited := awaited s |}.

(** [handleSend] up to its [await]. *)
Definition handleSend (manualText : option jsstring) (s : State) : State :=
  let textToSend := orElse manualText (input s) in
  if negb (truthy (trim textToSend)) || isLoading s then s
  else {| messages := messages s ++ [ {| role := user; text := textToSend |} ];
          input := [];
          isLoading := true;
          awaited := awaited s ++ [Send] |}.

(** [startConversation] and [handleSend] from the moment the call
    number [k] settles. *)
Definition resume (k : nat) (reply : Reply) (s : State) : State :=
  match awaited s !! k with
  | Some Greeting =>
      {| messages :=
           match reply with
           | Replied t =>
               [ {| role := model;
                    text := orElse t (u16 "Hello! Ready to review your speech?") |} ]
           | CallRejected => messages s
           end;
         input := input s;
         isLoading := false;
         awaited := delete k (awaited s) |}
  | Some Send =>
      {| messages :=
           messages s ++
           [ {| role := model;
                text := match reply with
                        | Replied t => orElse t (u16 "I see.")
                        | CallRejected =>
                            u16 "Sorry, I lost my train of thought. Can you say that again?"
                        end |} ];
         input := input s;
         isLoading := false;
         awaited := delete k (awaited s) |}
  | None => s
  end.

(** What the user, the speech recogniser and the network can do. *)
Inductive event :=
| TypeInput (value : jsstring)
| Recognised (transcript : jsstring)
| PressEnter
| ClickSend
| ClickSuggestion (i : nat)
| Settles (k : nat) (reply : Reply).

(** One event.  The send button is disabled while [isLoading] or while the
    input is blank; the suggestions are on screen while there are fewer
    than three messages. *)
Definition step (s : State) (e : event) : State :=
  match e with
  | TypeInput value => setInput value s
  | Recognised transcript => setInput transcript s
  | PressEnter => handleSend None s
  | ClickSend =>
      if isLoading s || negb (truthy (trim (input s))) then s
      else handleSend None s
  | ClickSuggestion i =>
      if (length (messages s) <? 3)%nat then
        match suggestions !! i with
        | Some text => handleSend (Some text) s
        | None => s
        end
      else s
  | Settles k reply => resume k reply s
  end.

Definition run (s : State) (es : list event) : State := fold_left step es s.

(** No two neighbours have the same role. *)
Fixpoint alternate (l : list Message) : Prop :=
  match l with
  | a :: (b :: _) as rest => role a <> role b /\ alternate rest
  | _ => True
  end.

(** What holds of every state of the conversation. *)
Record conversing (s : State) : Prop := {
  one_call : (length (awaited s) <= 1)%nat;
  loading_shown : isLoading s = true <-> awaited s <> [];
  greeting_first : awaited s = [Greeting] -> messages s = [];
  turns : alternate (messages s);
  waiting_turn :
    awaited s = [Send] <-> exists m, last (messages s) = Some m /\ role m = user;
  user_solid : forall m, m ∈ messages s -> role m = user -> trim (text m) <> [];
  model_solid : forall m, m ∈ messages s -> role m = model -> text m <> []
}.

End VirtualCoach.

(* ===================================================================== *)
(** ** The specification's own vocabulary                                 *)
(* ===================================================================== *)

Module Spec.

(** Number of white-space separated tokens of a text: the positions where a
    non-blank code unit follows the start of the text or a blank. *)
Fixpoint count_tokens (after_blank : bool) (s : jsstring) : nat :=
  match s with
  | [] => 0
  | c :: s' =>
      if isWhiteSpace c then count_tokens true s'
      else (if after_blank then 1 else 0) + count_tokens false s'
  end%nat.

Definition word_count (s : jsstring) : nat := count_tokens true s.

(** The content count of a transcript: its words for a Latin-script
    language, its code units that survive the stripping for a language
    tagged as Chinese or Japanese. *)
Definition content_count (eastAsian : bool) (text : jsstring) : Z :=
  if eastAsian then Z.of_nat (length (stripNonContent text))
  else Z.of_nat (word_count text).

(** The pace formula as the specification words it: content count over
    [durationSeconds / 60], rounded. *)
Definition raw_pace (count : Z) (durationSeconds : Q) : Z :=
  Math_round (inject_Z count / (durationSeconds / 60))%Q.

(** The same formula evaluated in binary64. *)
Definition raw_pace_binary64 (count : Z) (durationSeconds : float) : Z :=
  Math_round_binary64 (Number_of_count count / (durationSeconds / 60))%float.

(** The backing-storage conditions the specification names for the history
    store: the key is absent, the stored text does not parse, access to the
    storage throws. *)
Inductive degraded (st : HistoryService.Storage) : Prop :=
| key_absent :
    HistoryService.denied st = false ->
    HistoryService.items st !! HistoryService.STORAGE_KEY = None ->
    degraded st
| unparsable :
    HistoryService.denied st = false ->
    HistoryService.items st !! HistoryService.STORAGE_KEY = Some HistoryService.Garbage ->
    degraded st
| access_throws :
    HistoryService.denied st = true ->
    degraded st.

End Spec.

(* ===================================================================== *)
(** ** Sample data                                                        *)
(* ===================================================================== *)

Module Samples.

Definition noScores : SubScores :=
  {| logic := 0; delivery := 0; structure_score := 0; vocabulary := 0; emotion := 0 |}.

Definition noStructure : Structure :=
  {| isPrepStructure := false; point := []; reason := []; example := [];
     pointRestated := []; feedback := [] |}.

Definition assessed (score : Z) : Assessment :=
  {| overallScore := score; subScores := noScores; fillerWordCount := 0;
     structure := noStructure; sentiment := u16 "calm";
     speechFramework := []; grammarAnalysis := []; improvements := [];
     strengths := []; weaknesses := [] |}.

Definition fox : jsstring := u16 "the quick brown fox jumps".

(** A payload whose transcript is [text] and whose own pace is [remote]. *)
Definition payload (text : jsstring) (remote : option Z) : GeminiService.Payload :=
  {| GeminiService.p_assessment := assessed 70;
     GeminiService.p_transcript := Some text;
     GeminiService.p_wpm := remote |}.

(** The text made of [n] times the letter a followed by a space. *)
Fixpoint words (n : nat) : jsstring :=
  match n with
  | O => []
  | S n' => 97%N :: 32%N :: words n'
  end.

(** Twenty times U+4E2D, with a full-width comma and a space in between. *)
Definition twentyHan : jsstring :=
  repeat 20013%N 10 ++ [65292%N; 32%N] ++ repeat 20013%N 10.

Definition item (n : Z) : HistoryItem.t :=
  {| HistoryItem.id := App.Date_now_toString n;
     HistoryItem.date := u16 "2024-05-01T10:00:00.000Z";
     HistoryItem.topic := u16 "Leadership in crisis";
     HistoryItem.mode := SPEECH;
     HistoryItem.score := 70;
     HistoryItem.wpm := n;
     HistoryItem.sentiment := u16 "calm";
     HistoryItem.fullResult :=
       {| AnalysisResult.assessment := assessed 70;
          AnalysisResult.transcript := Some fox;
          AnalysisResult.wpm := n |} |}.

Definition emptyStorage : HistoryService.Storage :=
  {| HistoryService.denied := false; HistoryService.exhausted := false;
     HistoryService.items := ∅ |}.

Definition blockedStorage : HistoryService.Storage :=
  {| HistoryService.denied := true; HistoryService.exhausted := false;
     HistoryService.items := ∅ |}.

Definition minuteTalk : SessionConfig.t :=
  {| SessionConfig.topic := u16 "Leadership in crisis";
     SessionConfig.durationSeconds := 60;
     SessionConfig.language := u16 "English";
     SessionConfig.mode := SPEECH;
     SessionConfig.level := BEGINNER;
     SessionConfig.prepTimeSeconds := 0 |}.

Definition take1 : Blob := {| bytes := [26; 69; 223; 163]%N; type := u16 "audio/webm" |}.

Definition webmOnly (t : jsstring) : bool :=
  bool_decide (t = u16 "audio/webm").

Definition speaker : UserPreferences :=
  {| topics := [u16 "General"]; preferredMode := SPEECH |}.

(** Onboarding, a session set up, and a recording of twelve seconds handed
    over for analysis. *)
Definition oneSession (response : GeminiService.Response) : list App.event :=
  [App.OnboardingComplete speaker; App.SessionStart minuteTalk;
   App.SessionFinish take1 12 response 1714557600000
     (u16 "2024-05-01T10:00:00.000Z")].

(** The ways [analyzeSpeech] fails. *)
Definition failures : list GeminiService.Response :=
  [GeminiService.Rejected; GeminiService.NoText; GeminiService.Malformed].

(** Camera and microphone granted, recording started at clock 1000 and
    stopped by the button. *)
Definition oneTake : list Stage.event :=
  [Stage.StreamGranted [Stage.audio; Stage.video] Stage.SetupCompletes;
   Stage.ClickStart 1000 true; Stage.ClickStop].

(** The same with ten ticks of the recording countdown before the stop. *)
Definition tenSeconds : list Stage.event :=
  [Stage.StreamGranted [Stage.audio; Stage.video] Stage.SetupCompletes;
   Stage.ClickStart 1000 true]
  ++ repeat Stage.RecordingTick 10 ++ [Stage.ClickStop].

(** A stage that is recording. *)
Definition onAir : Stage.Instance :=
  Stage.run (Stage.mount minuteTalk webmOnly)
    [Stage.StreamGranted [Stage.audio; Stage.video] Stage.SetupCompletes;
     Stage.ClickStart 1000 true].

(** A session with a minute of preparation before a minute of speech. *)
Definition rehearsed : SessionConfig.t :=
  {| SessionConfig.topic := u16 "Leadership in crisis";
     SessionConfig.durationSeconds := 60;
     SessionConfig.language := u16 "English";
     SessionConfig.mode := SPEECH;
     SessionConfig.level := BEGINNER;
     SessionConfig.prepTimeSeconds := 60 |}.

(** The stream is there and the recorder is built. *)
Definition granted : list Stage.event :=
  [Stage.StreamGranted [Stage.audio; Stage.video] Stage.SetupCompletes].

(** Two pieces of recorded audio, and an empty one. *)
Definition chunk1 : Blob := {| bytes := [26; 69]%N; type := u16 "audio/webm" |}.
Definition chunk2 : Blob := {| bytes := [223; 163]%N; type := u16 "audio/webm" |}.
Definition noData : Blob := {| bytes := []; type := u16 "audio/webm" |}.

(** A reply that wraps its JSON in a Markdown fence, between line feeds. *)
Definition fencedReply : jsstring :=
  [10%N] ++ GeminiService.fence_json ++ u16 "{}" ++ GeminiService.fence ++ [10%N].

(** A storage whose history entry is the JSON text [null]. *)
Definition nullStorage : HistoryService.Storage :=
  {| HistoryService.denied := false; HistoryService.exhausted := false;
     HistoryService.items :=
       {[ HistoryService.STORAGE_KEY := HistoryService.NotIterable ]} |}.

(** The application on the stage view, a session of one minute set up. *)
Definition onStage : App.World :=
  App.run (App.boot emptyStorage)
    [App.OnboardingComplete speaker; App.SessionStart minuteTalk].

(** Clicks on the onboarding view: Technology on, Debate mode, Humor on,
    Technology off again. *)
Definition chosen : list Onboarding.event :=
  [Onboarding.ClickInterest (u16 "Technology"); Onboarding.ClickMode DEBATE;
   Onboarding.ClickInterest (u16 "Humor");
   Onboarding.ClickInterest (u16 "Technology")].

(** On the set-up view: on to the second step, and the topic arrives. *)
Definition topicReady : list SessionSetup.event :=
  [SessionSetup.NextStep;
   SessionSetup.TopicArrives 0
     (GeminiService.Replied (Some (u16 " Describe your first day at work. ")))].

(** On the set-up view: tips for the generated topic, closed again, and
    on to a topic of the user's own. *)
Definition tipsTaken : list SessionSetup.event :=
  topicReady ++
  [SessionSetup.ClickTips;
   SessionSetup.TipsArrive 0 GeminiService.OutlineNoText;
   SessionSetup.CloseTips;
   SessionSetup.ChooseCustom].

(** The user types a topic and asks for tips. *)
Definition ownTopic : list SessionSetup.event :=
  [SessionSetup.TypeCustomTopic (u16 "My garden"); SessionSetup.ClickTips].

(** A first analysis that shows the first five tips of the corpus and has
    gone on to the third of them when it fails; then a second session on
    the stage. *)
Definition firstAnalysis : list App.occurrence :=
  [App.Does (App.OnboardingComplete speaker);
   App.Does (App.SessionStart minuteTalk);
   App.Handed take1 12; App.EffectsRun App.SPEECH_TIPS;
   App.TipInterval; App.TipInterval;
   App.Settled 0 GeminiService.Rejected 1714557600000
     (u16 "2024-05-01T10:00:00.000Z");
   App.Does (App.SessionStart minuteTalk)].

(** Two takes handed over from one stage; the analysis of the first
    succeeds, that of the second fails after it. *)
Definition overlap : list App.occurrence :=
  [App.Does (App.OnboardingComplete speaker);
   App.Does (App.SessionStart minuteTalk);
   App.Handed take1 12; App.EffectsRun App.SPEECH_TIPS; App.Handed take1 3;
   App.Settled 0 (GeminiService.Parsed (payload fox None)) 1714557600000
     (u16 "2024-05-01T10:00:00.000Z");
   App.Settled 0 GeminiService.Rejected 1714557603000
     (u16 "2024-05-01T10:00:03.000Z")].

End Samples.

(* ===================================================================== *)
(** * Proofs                                                              *)
(* ===================================================================== *)

(** ** Strings *)

Lemma split_go_length (b : bool) (cur s : jsstring) :
  length (split_go b cur s) =
  (Spec.count_tokens b s + (if b then 0 else 1) + (if ends_blank b s then 1 else 0))%nat.
Proof.
  revert b cur. induction s as [|c s IH]; intros b cur; simpl.
  - unfold ends_blank; simpl. destruct b; reflexivity.
  - unfold ends_blank in *; simpl. destruct (isWhiteSpace c) eqn:Hc.
    + destruct b; simpl; rewrite IH; lia.
    + rewrite IH. destruct b; lia.
Qed.

Lemma trimStart_tokens (s : jsstring) :
  Spec.count_tokens true (trimStart s) = Spec.count_tokens true s.
Proof.
  induction s as [|c s IH]; simpl; [reflexivity|].
  destruct (isWhiteSpace c) eqn:Hc; simpl; [exact IH | now rewrite Hc].
Qed.

Lemma trimStart_head (s : jsstring) (c : N) (r : jsstring) :
  trimStart s = c :: r -> isWhiteSpace c = false.
Proof.
  induction s as [|a s IH]; simpl; [discriminate|].
  destruct (isWhiteSpace a) eqn:Ha; [exact IH | congruence].
Qed.

Lemma trimEnd_tokens (b : bool) (s : jsstring) :
  Spec.count_tokens b (trimEnd s) = Spec.count_tokens b s.
Proof.
  revert b. induction s as [|c s IH]; intros b; simpl; [reflexivity|].
  destruct (trimEnd s) as [|a r] eqn:Hr.
  - destruct (isWhiteSpace c) eqn:Hc; simpl.
    + now rewrite <- IH.
    + rewrite Hc, <- IH. reflexivity.
  - simpl. destruct (isWhiteSpace c); now rewrite <- IH.
Qed.

Lemma trimEnd_ends (d : bool) (s : jsstring) :
  ends_blank d (trimEnd s) = match trimEnd s with [] => d | _ => false end.
Proof.
  revert d. induction s as [|c s IH]; intros d; simpl; [reflexivity|].
  destruct (trimEnd s) as [|a r] eqn:Hr.
  - destruct (isWhiteSpace c) eqn:Hc; unfold ends_blank; simpl; [reflexivity | exact Hc].
  - unfold ends_blank in *. simpl in *. exact (IH d).
Qed.

Lemma trimEnd_cons (c : N) (s : jsstring) :
  isWhiteSpace c = false -> exists r, trimEnd (c :: s) = c :: r.
Proof.
  intros Hc. simpl. destruct (trimEnd s); rewrite ?Hc; eauto.
Qed.

(** On a text with at least one word, trimming and splitting at white space
    yields as many pieces as there are words. *)
Lemma split_trim_counts_words (s : jsstring) :
  (0 < Spec.word_count s)%nat ->
  length (split_ws (trim s)) = Spec.word_count s.
Proof.
  unfold Spec.word_count, split_ws, trim. intros Hpos.
  rewrite <- trimStart_tokens in Hpos |- *.
  destruct (trimStart s) as [|c r] eqn:Hs; [simpl in Hpos; lia|].
  pose proof (trimStart_head _ _ _ Hs) as Hc.
  rewrite <- (trimEnd_tokens true (c :: r)).
  rewrite split_go_length, trimEnd_ends.
  destruct (trimEnd_cons c r Hc) as [r' Hr']. rewrite Hr'.
  simpl. rewrite Hc. lia.
Qed.

(** A text of white space only is truthy, trims to the empty string, and
    splits into one (empty) piece. *)
Lemma split_trim_blank (s : jsstring) :
  Spec.word_count s = 0%nat -> length (split_ws (trim s)) = 1%nat.
Proof.
  unfold Spec.word_count, split_ws, trim. intros Hz.
  rewrite <- trimStart_tokens in Hz.
  destruct (trimStart s) as [|c r] eqn:Hs; [reflexivity|].
  pose proof (trimStart_head _ _ _ Hs) as Hc.
  simpl in Hz. rewrite Hc in Hz. discriminate.
Qed.

(** The pieces of a split keep the empty ends, as in JavaScript. *)
Example split_keeps_empty_ends :
  split_ws (u16 " a  b ") = [[]; u16 "a"; u16 "b"; []] /\
  split_ws [] = [[]] /\
  trim (u16 "  the quick  fox ") = u16 "the quick  fox".
Proof. repeat split; reflexivity. Qed.

(** The languages the setup view offers, and which of them count as
    Chinese or Japanese. *)
Example east_asian_languages :
  List.map (fun l => GeminiService.isChinese (u16 l))
    ["English"; "Cantonese"; "Mandarin"; "Spanish"; "French"; "Japanese"]%string
  = [false; true; true; false; false; true].
Proof. reflexivity. Qed.

(** ** Rounding *)

Lemma Math_round_integer (z : Z) : Math_round (inject_Z z) = z.
Proof.
  unfold Math_round, Qfloor, Qplus, inject_Z. simpl.
  rewrite Z.mul_1_r.
  symmetry. apply (Z.div_unique_pos _ _ _ 1); lia.
Qed.

Lemma Math_round_comp (x y : Q) : x == y -> Math_round x = Math_round y.
Proof.
  intros H. unfold Math_round. apply Qfloor_comp. now rewrite H.
Qed.

Lemma safeDuration_long (d : Q) : (1 <= d)%Q -> GeminiService.safeDuration d == d.
Proof. intros H. unfold GeminiService.safeDuration, Math_max. now apply Q.max_l. Qed.

Lemma safeDuration_short (d : Q) : (d <= 1)%Q -> GeminiService.safeDuration d == 1.
Proof. intros H. unfold GeminiService.safeDuration, Math_max. now apply Q.max_r. Qed.


Lemma pace_when_short (language : jsstring) (transcript : option jsstring) (d : Q) :
  (d <= 1)%Q ->
  GeminiService.calculatedPace language transcript d
  = 60 * GeminiService.contentCount language transcript.
Proof.
  intros H. unfold GeminiService.calculatedPace.
  rewrite <- (Math_round_integer (60 * _)).
  apply Math_round_comp.
  rewrite (safeDuration_short d H), inject_Z_mult. field.
Qed.

Lemma pace_when_long (language : jsstring) (transcript : option jsstring) (d : Q) :
  (1 <= d)%Q ->
  GeminiService.calculatedPace language transcript d
  = Spec.raw_pace (GeminiService.contentCount language transcript) d.
Proof.
  intros H. unfold GeminiService.calculatedPace, Spec.raw_pace.
  apply Math_round_comp. now rewrite (safeDuration_long d H).
Qed.

(** The count the code takes is the specification's content count, as soon
    as a Latin-script transcript is empty or has a word in it. *)
Lemma contentCount_spec (language text : jsstring) :
  (GeminiService.isChinese language = false ->
   text = [] \/ (0 < Spec.word_count text)%nat) ->
  GeminiService.contentCount language (Some text)
  = Spec.content_count (GeminiService.isChinese language) text.
Proof.
  intros Hw. unfold GeminiService.contentCount, Spec.content_count.
  destruct (GeminiService.isChinese language) eqn:Hl.
  - destruct text; reflexivity.
  - destruct text as [|c r]; [reflexivity|].
    destruct (Hw eq_refl) as [Hw'|Hw']; [discriminate|].
    simpl truthy. cbv iota. now rewrite split_trim_counts_words.
Qed.



(** The order of binary64 numbers: a number that is at least another one
    is not below it. *)
Lemma SFcompare_swap (x y : spec_float) (c : comparison) :
  SFcompare x y = Some c -> SFcompare y x = Some (CompOpp c).
Proof.
  destruct x as [sx|sx| |sx mx ex], y as [sy|sy| |sy my ey]; simpl;
    try discriminate; intros [= <-]; try reflexivity;
    try (destruct sx; reflexivity); try (destruct sy; reflexivity);
    try (destruct sx, sy; reflexivity).
  assert (PosDef.Pos.compare_cont Eq my mx
          = CompOpp (PosDef.Pos.compare_cont Eq mx my)) as K.
  { change (Pos.compare_cont Eq my mx = CompOpp (Pos.compare_cont Eq mx my)).
    rewrite (Pos.compare_cont_antisym mx my Eq). reflexivity. }
  destruct sx, sy; try reflexivity.
  - rewrite (Z.compare_antisym ex ey). destruct (ex ?= ey); simpl; try reflexivity.
    now rewrite K.
  - rewrite (Z.compare_antisym ex ey). destruct (ex ?= ey); simpl; try reflexivity.
    now rewrite K.
Qed.

Lemma not_below_of_at_least (x y : float) :
  (x <=? y)%float = true -> (y <? x)%float = false.
Proof.
  rewrite leb_spec, ltb_spec. unfold SFleb, SFltb.
  destruct (SFcompare (Prim2SF x) (Prim2SF y)) as [c|] eqn:E; [|discriminate].
  rewrite (SFcompare_swap _ _ _ E). destruct c; simpl; congruence.
Qed.

(** ** The pace written into the analysis result *)

Section Pace.

Import GeminiService Samples.

(** C3, as the specification words it, fails: for a recording of half a
    second the code writes 300 for the five words of the sample, where the
    count over [durationSeconds / 60] rounds to 600, in exact arithmetic
    and in binary64 alike. *)
Lemma raw_formula_fails_below_one_second :
  exists r,
    analyzeSpeech_binary64 (Parsed (payload fox None)) 0.5 (u16 "English") = inr r /\
    isChinese (u16 "English") = false /\
    Spec.word_count fox = 5%nat /\
    AnalysisResult.wpm r = 300 /\
    Spec.raw_pace (Z.of_nat (Spec.word_count fox)) (1 # 2) = 600 /\
    Spec.raw_pace_binary64 (Z.of_nat (Spec.word_count fox)) 0.5 = 600 /\
    AnalysisResult.wpm r <> Spec.raw_pace (Z.of_nat (Spec.word_count fox)) (1 # 2) /\
    AnalysisResult.wpm r <> Spec.raw_pace_binary64 (Z.of_nat (Spec.word_count fox)) 0.5.
Proof.
  eexists. split; [reflexivity|].
  repeat split; try (vm_compute; reflexivity); vm_compute; discriminate.
Qed.

(** C3 (amended).  Whatever pace the payload carried, the [wpm] of the
    result, for a duration that is a number, is [Math.round] of the
    content count over [max(durationSeconds, 1) / 60] as the code evaluates
    it: in binary64, each of the two divisions rounded to the nearest
    number.  The content
    count is the number of white-space separated words for a Latin-script
    language (on a transcript that is empty or has a word in it) and the
    number of code units in U+4E00..U+9FA5, a-z, A-Z, 0-9 for a language
    whose name contains cantonese, mandarin, chinese or japanese.
    From one second on this is the same evaluation of the count over
    [durationSeconds / 60].  The sample of five words at 10 s gives 30, and
    any transcript with 20 content code units at 60 s under such a language
    gives 20.  The rounding of the divisions shows where the exact quotient
    is a tie: 23 words in 184 s give 7, where 7.5 rounds to 8. *)
Theorem analyzeSpeech_recomputes_pace :
  (forall (p : Payload) (language text : jsstring) (d : float),
      is_nan d = false ->
      p_transcript p = Some text ->
      (isChinese language = false -> text = [] \/ (0 < Spec.word_count text)%nat) ->
      exists r,
        analyzeSpeech_binary64 (Parsed p) d language = inr r /\
        AnalysisResult.wpm r
        = Math_round_binary64
            (Number_of_count (Spec.content_count (isChinese language) text)
             / ((if d <? 1 then 1 else d) / 60))%float /\
        ((1 <=? d)%float = true ->
         AnalysisResult.wpm r
         = Spec.raw_pace_binary64 (Spec.content_count (isChinese language) text) d)) /\
  (forall remote : option Z,
      exists r,
        analyzeSpeech_binary64 (Parsed (payload fox remote)) 10 (u16 "English") = inr r /\
        AnalysisResult.wpm r = 30) /\
  (forall (remote : option Z) (language text : jsstring),
      isChinese language = true ->
      length (stripNonContent text) = 20%nat ->
      exists r,
        analyzeSpeech_binary64 (Parsed (payload text remote)) 60 language = inr r /\
        AnalysisResult.wpm r = 20) /\
  (forall remote : option Z,
      exists r,
        analyzeSpeech_binary64 (Parsed (payload (words 23) remote)) 184 (u16 "English")
        = inr r /\
        AnalysisResult.wpm r = 7 /\
        Spec.raw_pace (Spec.content_count false (words 23)) 184 = 8).
Proof.
  split; [|split; [|split]].
  - intros p language text d _ Ht Hw. eexists. split; [reflexivity|].
    cbn [analyzeSpeech_binary64 AnalysisResult.wpm]. rewrite Ht.
    unfold calculatedPace_binary64, quotient_binary64.
    rewrite contentCount_spec by exact Hw. split; [reflexivity|].
    intros Hd. rewrite (not_below_of_at_least _ _ Hd). reflexivity.
  - intros remote. eexists. split; [reflexivity|]. vm_compute. reflexivity.
  - intros remote language text Hl Hn. eexists. split; [reflexivity|].
    cbn [analyzeSpeech_binary64 AnalysisResult.wpm payload p_transcript].
    unfold calculatedPace_binary64.
    rewrite contentCount_spec by (intros E; congruence).
    rewrite Hl. unfold Spec.content_count. rewrite Hn. vm_compute. reflexivity.
  - intros remote. eexists. split; [reflexivity|].
    split; vm_compute; reflexivity.
Qed.

Lemma analyzeSpeech_recomputes_pace_witness :
  (is_nan 10 = false /\
   p_transcript (payload fox (Some 999)) = Some fox /\
   (isChinese (u16 "English") = false ->
    fox = [] \/ (0 < Spec.word_count fox)%nat) /\
   (1 <=? 10)%float = true) /\
  exists r,
    analyzeSpeech_binary64 (Parsed (payload fox (Some 999))) 10 (u16 "English") = inr r /\
    AnalysisResult.wpm r
    = Spec.raw_pace_binary64 (Spec.content_count (isChinese (u16 "English")) fox) 10.
Proof.
  assert (isChinese (u16 "English") = false ->
          fox = [] \/ (0 < Spec.word_count fox)%nat) as Hw
    by (intros _; right; vm_compute; lia).
  assert ((1 <=? 10)%float = true) as Hd by (vm_compute; reflexivity).
  assert (is_nan 10 = false) as Hn by (vm_compute; reflexivity).
  split; [split; [exact Hn|split; [reflexivity|split; [exact Hw|exact Hd]]]|].
  destruct (proj1 analyzeSpeech_recomputes_pace (payload fox (Some 999))
              (u16 "English") fox 10%float Hn eq_refl Hw) as (r & Hr & _ & Hraw).
  exists r. split; [exact Hr | exact (Hraw Hd)].
Defined.

(** In binary64 arithmetic the quotients of the two samples are the
    integers 30 and 20 themselves, which rounding leaves alone. *)
Example sample_quotients_binary64 :
  quotient_binary64 5 10 = 30%float /\ quotient_binary64 20 60 = 20%float.
Proof. split; vm_compute; reflexivity. Qed.

(** The twenty ideographs of the sample, with punctuation between them,
    read under a language tagged as Chinese. *)
Example twentyHan_pace :
  length (stripNonContent twentyHan) = 20%nat /\
  calculatedPace (u16 "Mandarin Chinese") (Some twentyHan) 60 = 20.
Proof. split; reflexivity. Qed.








End Pace.

(** ** The history store *)

Section History.

Import HistoryService Samples.

Lemma getHistory_returns (st : Storage) : getHistory st <> Throw.
Proof.
  unfold getHistory, try_catch.
  destruct (_ ≫= _); discriminate.
Qed.

Lemma saveHistoryItem_returns (item : HistoryItem.t) (st : Storage) :
  saveHistoryItem item st <> Throw.
Proof.
  unfold saveHistoryItem, try_catch.
  destruct (_ ≫= _); discriminate.
Qed.

Lemma listed_degraded (st : Storage) : Spec.degraded st -> listed st = Some [].
Proof.
  unfold listed, getHistory, getItem.
  intros [Hd Hk|Hd Hk|Hd]; rewrite Hd; simpl; [rewrite Hk ..|]; reflexivity.
Qed.

Lemma after_save_listed (item : HistoryItem.t) (st : Storage) (log : list HistoryItem.t) :
  usable st -> listed st = Some log ->
  usable (after_save item st) /\
  listed (after_save item st) = Some (take 20 (item :: log)).
Proof.
  intros [Hd He] Hl. unfold after_save, saveHistoryItem.
  unfold listed in Hl. destruct (getHistory st) as [|[l|]] eqn:Hg; try discriminate.
  injection Hl as ->. simpl. unfold setItem. rewrite Hd, He. simpl.
  split; [split; reflexivity|].
  unfold listed, getHistory, getItem. simpl.
  rewrite lookup_insert_eq. reflexivity.
Qed.

Lemma after_save_blocked (item : HistoryItem.t) (st : Storage) :
  denied st = true \/ exhausted st = true -> after_save item st = st.
Proof.
  intros H. unfold after_save, saveHistoryItem, setItem.
  destruct (getHistory st) as [|[l|]]; simpl; try reflexivity.
  destruct H as [-> | ->]; simpl; rewrite ?orb_true_r; reflexivity.
Qed.

Lemma take_app_take {A} (n : nat) (l k : list A) :
  take n (l ++ take n k) = take n (l ++ k).
Proof.
  rewrite !take_app, take_take. f_equal. f_equal. lia.
Qed.

Lemma appendAll_listed (xs : list HistoryItem.t) :
  forall (st : Storage) (log : list HistoryItem.t),
    usable st -> listed st = Some log -> xs <> [] ->
    usable (appendAll xs st) /\
    listed (appendAll xs st) = Some (take 20 (rev xs ++ log)).
Proof.
  induction xs as [|x xs IH]; intros st log Hu Hl Hne; [congruence|].
  destruct (after_save_listed x st log Hu Hl) as [Hu' Hl'].
  destruct xs as [|y ys]; [exact (conj Hu' Hl')|].
  destruct (IH _ _ Hu' Hl') as [Hu2 Hl2]; [discriminate|].
  split; [exact Hu2|].
  change (appendAll (x :: y :: ys) st) with (appendAll (y :: ys) (after_save x st)).
  rewrite Hl2, take_app_take. f_equal. f_equal.
  simpl. rewrite <- !app_assoc. reflexivity.
Qed.

(** C4.  On a storage that can be read and written, whatever log it
    starts with, one call of [saveHistoryItem] leaves the new item in front
    of the old log, cut to 20 entries; and 25 calls in a row leave exactly
    the 20 items appended last, the latest first. *)
Theorem append_keeps_latest_20 (st : Storage) (log : list HistoryItem.t) :
  usable st ->
  listed st = Some log ->
  (forall item, listed (after_save item st) = Some (take 20 (item :: log))) /\
  (forall xs, length xs = 25%nat ->
     listed (appendAll xs st) = Some (take 20 (rev xs)) /\
     length (take 20 (rev xs)) = 20%nat).
Proof.
  intros Hu Hl. split.
  - intros item. apply after_save_listed; assumption.
  - intros xs Hlen. split.
    + destruct (appendAll_listed xs st log Hu Hl) as [_ ->].
      * intros ->. discriminate.
      * rewrite take_app_le by (rewrite length_rev; lia). reflexivity.
    + rewrite length_take, length_rev. lia.
Qed.

Lemma append_keeps_latest_20_witness :
  (usable emptyStorage /\ listed emptyStorage = Some []) /\
  (forall item, listed (after_save item emptyStorage) = Some (take 20 [item])) /\
  (forall xs, length xs = 25%nat ->
     listed (appendAll xs emptyStorage) = Some (take 20 (rev xs)) /\
     length (take 20 (rev xs)) = 20%nat).
Proof.
  split.
  - split; [split; reflexivity | reflexivity].
  - apply (append_keeps_latest_20 emptyStorage []); [split; reflexivity | reflexivity].
Defined.

(** Twenty-five numbered items appended to an empty storage: items 25 down
    to 6 remain. *)
Example append_25_numbered :
  listed (appendAll (List.map item (List.map Z.of_nat (seq 1 25))) emptyStorage)
  = Some (List.map item
            [25; 24; 23; 22; 21; 20; 19; 18; 17; 16; 15; 14; 13; 12; 11; 10; 9; 8; 7; 6]).
Proof. vm_compute. reflexivity. Qed.

(** C9, as the specification words it, fails: with the key absent, a call
    of [saveHistoryItem] is no silent no-op, it writes the one-item log. *)
Lemma append_on_absent_key_writes :
  Spec.degraded emptyStorage /\
  after_save (item 1) emptyStorage <> emptyStorage /\
  listed (after_save (item 1) emptyStorage) = Some [item 1].
Proof.
  split; [apply Spec.key_absent; reflexivity|]. split.
  - intros E. apply (f_equal listed) in E. vm_compute in E. discriminate.
  - vm_compute. reflexivity.
Qed.

(** C9 (amended).  When the key is absent, the stored text does not parse,
    or access to the storage throws, [getHistory] returns the empty list,
    and no exception leaves [getHistory] or [saveHistoryItem].  A call of
    [saveHistoryItem] leaves the storage as it was when the storage cannot
    be written, and otherwise stores the log made of the new item alone. *)
Theorem history_degrades_on_bad_storage (st : Storage) (item : HistoryItem.t) :
  Spec.degraded st ->
  listed st = Some [] /\
  getHistory st <> Throw /\
  saveHistoryItem item st <> Throw /\
  (denied st = true \/ exhausted st = true -> after_save item st = st) /\
  (usable st -> listed (after_save item st) = Some [item]).
Proof.
  intros Hdeg. pose proof (listed_degraded st Hdeg) as Hl.
  split; [exact Hl|]. split; [apply getHistory_returns|].
  split; [apply saveHistoryItem_returns|]. split.
  - apply after_save_blocked.
  - intros Hu. now destruct (after_save_listed item st [] Hu Hl).
Qed.

Lemma history_degrades_on_bad_storage_witness :
  Spec.degraded blockedStorage /\
  listed blockedStorage = Some [] /\
  getHistory blockedStorage <> Throw /\
  saveHistoryItem (item 1) blockedStorage <> Throw /\
  (denied blockedStorage = true \/ exhausted blockedStorage = true ->
   after_save (item 1) blockedStorage = blockedStorage) /\
  (usable blockedStorage -> listed (after_save (item 1) blockedStorage) = Some [item 1]).
Proof.
  split.
  - apply Spec.access_throws. reflexivity.
  - apply (history_degrades_on_bad_storage blockedStorage (item 1)).
    apply Spec.access_throws. reflexivity.
Defined.

End History.

(** ** Tips shown during the analysis *)

Section Tips.

Import App Samples.

Lemma SPEECH_TIPS_length : length SPEECH_TIPS = 30%nat.
Proof. reflexivity. Qed.

Lemma SPEECH_TIPS_NoDup : NoDup SPEECH_TIPS.
Proof. apply (bool_decide_unpack _). vm_compute. exact I. Qed.

Lemma NoDup_take {A} (n : nat) (l : list A) : NoDup l -> NoDup (take n l).
Proof.
  intros H. rewrite <- (take_drop n l) in H.
  now apply NoDup_app in H as [H _].
Qed.

Lemma rotateTip_five (s : State) :
  isAnalyzing s = true ->
  length (activeTips s) = 5%nat ->
  rotateTip s = setCurrentTipIndex (fun prev => ((prev + 1) mod 5)%nat) s.
Proof.
  intros Ha Hl. unfold rotateTip. rewrite Ha, Hl. reflexivity.
Qed.

Lemma rotateTip_iter (s : State) (n : nat) :
  isAnalyzing s = true ->
  length (activeTips s) = 5%nat ->
  currentTipIndex s = 0%nat ->
  let sn := Nat.iter n rotateTip s in
  isAnalyzing sn = true /\
  activeTips sn = activeTips s /\
  currentTipIndex sn = (n mod 5)%nat.
Proof.
  intros Ha Hl Hi. induction n as [|n IH].
  - simpl. auto.
  - destruct IH as (Ha' & Ht' & Hi').
    change (Nat.iter (S n) rotateTip s) with (rotateTip (Nat.iter n rotateTip s)).
    rewrite rotateTip_five by congruence.
    unfold setCurrentTipIndex; cbn [isAnalyzing activeTips currentTipIndex].
    repeat split; try assumption.
    rewrite Hi'. replace (S n) with (n + 1)%nat by lia.
    apply Nat.Div0.add_mod_idemp_l.
Qed.

(** Once the effect that loads the tips has run, whatever order the random
    sort leaves the 30 tips in, the active tips are 5 pairwise distinct
    tips of the corpus and the index is 0; each firing of the rotation
    interval moves the index from [i] to [(i + 1) mod 5] and leaves the
    active tips alone, so after [n] firings the index is [n mod 5] and the
    tip on screen is one of the five. *)
Lemma tips_are_five_of_the_corpus
    (s : State) (shuffled : list jsstring) (n : nat) :
  isAnalyzing s = true ->
  shuffle_of SPEECH_TIPS shuffled ->
  let s0 := loadTips shuffled s in
  let sn := Nat.iter n rotateTip s0 in
  length SPEECH_TIPS = 30%nat /\
  length (activeTips s0) = 5%nat /\
  NoDup (activeTips s0) /\
  activeTips s0 ⊆ SPEECH_TIPS /\
  currentTipIndex s0 = 0%nat /\
  activeTips sn = activeTips s0 /\
  currentTipIndex sn = (n mod 5)%nat /\
  currentTipIndex (rotateTip sn) = ((currentTipIndex sn + 1) mod 5)%nat /\
  exists tip, shownTip sn = Some tip /\ tip ∈ activeTips s0.
Proof.
  intros Ha Hp s0 sn. unfold shuffle_of in Hp.
  assert (activeTips s0 = take 5 shuffled /\ currentTipIndex s0 = 0%nat
          /\ isAnalyzing s0 = true) as (Ht & Hi & Ha0).
  { subst s0. unfold loadTips. rewrite Ha. auto. }
  assert (length (activeTips s0) = 5%nat) as Hl.
  { rewrite Ht, length_take, <- (Permutation_length Hp). reflexivity. }
  destruct (rotateTip_iter s0 n Ha0 Hl Hi) as (Han & Htn & Hin).
  fold sn in Han, Htn, Hin.
  split; [reflexivity|]. split; [exact Hl|].
  split; [|split; [|split; [exact Hi|]]].
  - rewrite Ht. apply NoDup_take. rewrite <- Hp. apply SPEECH_TIPS_NoDup.
  - rewrite Ht. intros x Hx. rewrite Hp. now apply (subseteq_take 5 shuffled).
  - split; [exact Htn|]. split; [exact Hin|]. split.
    + rewrite rotateTip_five by congruence. reflexivity.
    + unfold shownTip. rewrite Htn, Hin.
      destruct (lookup_lt_is_Some_2 (activeTips s0) (n mod 5)) as [tip Htip].
      { rewrite Hl. apply Nat.mod_upper_bound. lia. }
      exists tip. split; [exact Htip|]. apply list_elem_of_lookup. eauto.
Qed.

(** The render that [handleSessionFinish] causes is committed before the
    effect that loads the tips runs: the overlay comes up with the tips
    and the index the cells hold from the analysis before. *)
Lemma Handed_shows_the_old_tip (x : Live) (audioBlob : Blob) (duration : Q) :
  step (app (world x)) = STAGE ->
  isAnalyzing (app (world x)) = false ->
  let y := occur x (Handed audioBlob duration) in
  overlayShown (app (world y)) = true /\
  effectsDue y = true /\
  shownTip (app (world y)) = shownTip (app (world x)) /\
  forall shuffled,
    activeTips (app (world (occur y (EffectsRun shuffled)))) = take 5 shuffled /\
    currentTipIndex (app (world (occur y (EffectsRun shuffled)))) = 0%nat.
Proof.
  intros Hs Ha. simpl. rewrite Hs, Ha. simpl.
  unfold overlayShown. simpl. rewrite Hs.
  split; [reflexivity|]. split; [apply orb_true_r|]. split; [reflexivity|].
  intros shuffled. rewrite orb_true_r. simpl. auto.
Qed.

(** C5 at its failing input.  A first analysis shows the first five tips
    of the corpus and has gone on to the third when it ends; nothing
    clears [activeTips] or [currentTipIndex].  When the second recording
    is handed over the overlay is rendered with that third tip, and the
    effect that runs after this render selects five tips it is not among
    (here the last five of the corpus, in reverse): a tip outside the
    selection of the analysis session has been on screen. *)
Theorem stale_tip_opens_the_second_analysis :
  let x := happen (live emptyStorage) (firstAnalysis ++ [Handed take1 12]) in
  let y := occur x (EffectsRun (rev SPEECH_TIPS)) in
  shuffle_of SPEECH_TIPS SPEECH_TIPS /\
  shuffle_of SPEECH_TIPS (rev SPEECH_TIPS) /\
  overlayShown (app (world x)) = true /\
  shownTip (app (world x))
  = Some (u16 "Maintain eye contact with the camera to simulate audience connection.") /\
  activeTips (app (world y)) = take 5 (rev SPEECH_TIPS) /\
  currentTipIndex (app (world y)) = 0%nat /\
  (exists tip, shownTip (app (world x)) = Some tip /\
               tip ∈ SPEECH_TIPS /\ tip ∉ activeTips (app (world y))).
Proof.
  cbn zeta.
  split; [reflexivity|]. split; [apply Permutation_rev|].
  split; [vm_compute; reflexivity|]. split; [vm_compute; reflexivity|].
  split; [vm_compute; reflexivity|]. split; [vm_compute; reflexivity|].
  eexists. split; [vm_compute; reflexivity|]. split.
  - apply (bool_decide_unpack _). vm_compute. exact I.
  - apply (bool_decide_unpack _). vm_compute. exact I.
Qed.

End Tips.

(** ** Simulated progress *)

Section Progress.

Import App Samples.

Lemma advance_below (prev : Q) :
  (prev < 99)%Q -> advance prev == prev + (2 # 9).
Proof.
  intros H. unfold advance.
  destruct (Qle_bool 99 prev) eqn:E.
  - apply Qle_bool_iff in E. exfalso. exact (Qlt_not_le _ _ H E).
  - unfold totalTime, tick. apply Qplus_comp; reflexivity.
Qed.

Lemma advance_hold (prev : Q) : (99 <= prev)%Q -> advance prev = 99%Q.
Proof.
  intros H. unfold advance. apply Qle_bool_iff in H. now rewrite H.
Qed.

(** The first 446 firings each add 2/9. *)
Lemma advance_linear (n : nat) :
  (n <= 446)%nat ->
  Nat.iter n advance 0%Q == inject_Z (Z.of_nat n) * (2 # 9).
Proof.
  induction n as [|n IH]; intros Hn.
  - reflexivity.
  - rewrite Nat.iter_succ.
    assert (Nat.iter n advance 0%Q < 99)%Q as Hlt.
    { rewrite IH by lia. unfold Qlt, Qmult, inject_Z. simpl. lia. }
    rewrite advance_below by exact Hlt. rewrite IH by lia.
    rewrite Nat2Z.inj_succ, <- Z.add_1_r, inject_Z_plus. ring.
Qed.

Lemma analyzing_progress (b : Blob) (d : Q) (s : State) (n : nat) :
  isAnalyzing (analyzing b d s n) = true /\
  progress (analyzing b d s n) = Nat.iter n advance 0%Q.
Proof.
  unfold analyzing. induction n as [|n [IHa IHp]].
  - split; reflexivity.
  - rewrite !Nat.iter_succ.
    unfold progressTick at 1 3. rewrite IHa. simpl. rewrite IHp. auto.
Qed.

Lemma analyzing_succ (b : Blob) (d : Q) (s : State) (n : nat) :
  progress (analyzing b d s (S n)) = advance (progress (analyzing b d s n)).
Proof.
  destruct (analyzing_progress b d s n) as [Ha _].
  unfold analyzing in *. rewrite Nat.iter_succ.
  unfold progressTick at 1. rewrite Ha. reflexivity.
Qed.

Lemma analyzing_linear (b : Blob) (d : Q) (s : State) (n : nat) :
  (n <= 446)%nat ->
  progress (analyzing b d s n) == inject_Z (Z.of_nat n) * (2 # 9).
Proof.
  intros Hn. destruct (analyzing_progress b d s n) as [_ ->].
  now apply advance_linear.
Qed.

Lemma analyzing_held (b : Blob) (d : Q) (s : State) (n : nat) :
  (447 <= n)%nat -> progress (analyzing b d s n) = 99%Q.
Proof.
  induction 1 as [|n Hn IH].
  - rewrite analyzing_succ. apply advance_hold.
    rewrite analyzing_linear by lia. discriminate.
  - rewrite analyzing_succ, IH. reflexivity.
Qed.

(** The same updater on binary64 numbers goes the same way. *)
Lemma progress_overshoots_99_binary64 :
  (Nat.iter 445 advance_binary64 0 <? 99)%float = true /\
  (99 <? Nat.iter 446 advance_binary64 0)%float = true /\
  Nat.iter 447 advance_binary64 0%float = 99%float.
Proof. repeat split; vm_compute; reflexivity. Qed.

(** C2 at its failing input.  While [isAnalyzing] is set the 446th firing
    of the 100 ms interval takes the progress from 890/9 to 892/9, which is
    above 99, and the 447th takes it back down to 99: the value exceeds 99,
    and it decreases. *)
Theorem progress_overshoots_99 (b : Blob) (d : Q) (s : State) :
  isAnalyzing (analyzing b d s 446) = true /\
  isAnalyzing (analyzing b d s 447) = true /\
  progress (analyzing b d s 445) == 890 # 9 /\
  progress (analyzing b d s 446) == 892 # 9 /\
  (99 < progress (analyzing b d s 446))%Q /\
  progress (analyzing b d s 447) = 99%Q /\
  (progress (analyzing b d s 447) < progress (analyzing b d s 446))%Q /\
  (99 <? Nat.iter 446 advance_binary64 0)%float = true /\
  Nat.iter 447 advance_binary64 0%float = 99%float.
Proof.
  assert (progress (analyzing b d s 446) == 892 # 9) as H446.
  { rewrite analyzing_linear by lia. reflexivity. }
  assert (progress (analyzing b d s 447) = 99%Q) as H447.
  { apply analyzing_held. lia. }
  split; [apply analyzing_progress|]. split; [apply analyzing_progress|].
  split; [rewrite analyzing_linear by lia; reflexivity|].
  split; [exact H446|].
  split; [rewrite H446; reflexivity|]. split; [exact H447|].
  split; [rewrite H447, H446; reflexivity|].
  exact (proj2 progress_overshoots_99_binary64).
Qed.

End Progress.

(** ** The analysis call and the session state *)

Section Session.

Import App Samples GeminiService.

Lemma handleSessionFinish_failure
    (audioBlob : Blob) (duration : Q) (response : Response) (now : Z)
    (iso : jsstring) (w : World) (e : AnalyzerError) :
  analyzeSpeech response duration (SessionConfig.language (sessionConfig (app w))) = inl e ->
  let w' := handleSessionFinish audioBlob duration response now iso w in
  step (app w') = SETUP /\
  isAnalyzing (app w') = false /\
  analysisResult (app w') = analysisResult (app w) /\
  currentAudioBlob (app w') = Some audioBlob /\
  recordedDuration (app w') = duration /\
  storage w' = storage w.
Proof.
  intros He. unfold handleSessionFinish. rewrite He. simpl. auto 10.
Qed.

Lemma react_resultOnlyInAnalysis (w : World) (e : event) :
  resultOnlyInAnalysis w -> resultOnlyInAnalysis (react w e).
Proof.
  unfold resultOnlyInAnalysis, react. intros H.
  destruct e, (step (app w)) eqn:Hs; simpl; try exact H;
    try (intros _; apply H; congruence); try congruence.
  unfold handleSessionFinish.
  destruct (analyzeSpeech _ _ _); simpl; [|congruence].
  intros _. apply H. congruence.
Qed.

(** On every view but the analysis view no result is attached, whatever
    the user did before. *)
Lemma run_resultOnlyInAnalysis (es : list event) :
  forall w, resultOnlyInAnalysis w -> resultOnlyInAnalysis (run w es).
Proof.
  induction es as [|e es IH]; intros w H; [exact H|].
  apply IH, react_resultOnlyInAnalysis, H.
Qed.

(** The analysis view is entered either from the history, with no
    recording, or with the recording just handed over: a recording left in
    [currentAudioBlob] by an earlier failure is never the one shown. *)
Lemma blob_on_entering_analysis (w : World) (e : event) :
  step (app w) <> ANALYSIS ->
  step (app (react w e)) = ANALYSIS ->
  match e with
  | LoadHistory _ => currentAudioBlob (app (react w e)) = None
  | SessionFinish audioBlob _ _ _ _ =>
      currentAudioBlob (app (react w e)) = Some audioBlob
  | _ => False
  end.
Proof.
  unfold react. intros Hn.
  destruct e, (step (app w)) eqn:Hs; simpl; try congruence; try reflexivity.
  unfold handleSessionFinish.
  destruct (analyzeSpeech _ _ _); simpl; [discriminate | reflexivity].
Qed.

(** C1 at its failing input.  After onboarding and a session start, a
    recording whose analysis fails (the request rejects, the response has
    no text, or the text is not JSON) leaves the application on the setup
    view with no result attached, and with the recording still in
    [currentAudioBlob]; the restart handler, which also leads to the setup
    view, clears that cell. *)
Theorem failed_analysis_keeps_blob :
  Forall (fun response =>
            let w := run (boot emptyStorage) (oneSession response) in
            step (app w) = SETUP /\
            isAnalyzing (app w) = false /\
            analysisResult (app w) = None /\
            currentAudioBlob (app w) = Some take1 /\
            currentAudioBlob (app w) <> None /\
            storage w = emptyStorage)
         failures /\
  (forall s, currentAudioBlob (handleRestart s) = None).
Proof.
  split; [|reflexivity].
  repeat constructor; discriminate.
Qed.

End Session.

(** ** The recording stage *)

Section StageProofs.

Import Stage Samples.

Ltac open_instance i :=
  destruct i as [cfg sup [ip pt tl ir rd] [mr ch sr st ar an af] [s ac rc pf nf]
                 m aq sq [sc stl mt] fin];
  simpl in *.

Lemma Forall_stopped (l : list MediaStreamTrack) :
  Forall (fun t => readyState t = ended) (List.map stop l).
Proof. induction l; simpl; constructor; auto. Qed.

Ltac by_wiring :=
  first [ congruence
        | apply Forall_stopped
        | match goal with
          | H : _ |- _ => apply H; solve [reflexivity | assumption | congruence]
          end ].

Ltac close_wired :=
  solve [ constructor;
          unfold released, tracksStopped, contextClosed, loopCancelled in *;
          simpl in *; intros; subst;
          first [ discriminate | congruence | intuition (try by_wiring) ] ].

Lemma mount_wired (cfg : SessionConfig.t) (sup : jsstring -> bool) :
  wired (mount cfg sup).
Proof.
  constructor; simpl; try reflexivity; try discriminate; auto 10.
Qed.

Lemma wired_onState (f : State -> State) (i : Instance) :
  wired i -> wired (onState f i).
Proof. intros [H1 H2 H3 H4 H5 H6 H7 H8 H9]. open_instance i. close_wired. Qed.

Lemma wired_stopRecording (i : Instance) : wired i -> wired (stopRecording i).
Proof.
  intros [H1 H2 H3 H4 H5 H6 H7 H8 H9]. open_instance i.
  unfold stopRecording; simpl.
  destruct mr; [|close_wired]. destruct rc as [[|]|]; close_wired.
Qed.

Lemma wired_effects (i : Instance) : wired i -> wired (effects i).
Proof.
  intros H. unfold effects, autoStopEffect.
  assert (wired (prepEffect i)) as H'.
  { unfold prepEffect. destruct (_ && _); [now apply wired_onState | exact H]. }
  revert H'. generalize (prepEffect i). intros j Hj.
  destruct (_ && _); [now apply wired_stopRecording | exact Hj].
Qed.

Lemma wired_startRecording (now : Z) (started : bool) (i : Instance) :
  wired i -> wired (startRecording now started i).
Proof.
  intros [H1 H2 H3 H4 H5 H6 H7 H8 H9]. open_instance i.
  unfold startRecording; simpl.
  destruct mr; [|close_wired]. destruct rc as [[|]|]; try close_wired.
  destruct started; close_wired.
Qed.

Lemma wired_ondataavailable (data : Blob) (i : Instance) :
  wired i -> wired (ondataavailable data i).
Proof.
  intros [H1 H2 H3 H4 H5 H6 H7 H8 H9]. open_instance i.
  unfold ondataavailable. destruct (bytes data); close_wired.
Qed.

Lemma wired_onstop (now : Z) (i : Instance) :
  wired i -> wired (onstop now (setStopRequested false i)).
Proof.
  intros [H1 H2 H3 H4 H5 H6 H7 H8 H9]. open_instance i.
  unfold onstop; simpl. destruct sr; simpl; [|close_wired].
  destruct s; close_wired.
Qed.

Lemma wired_setupStream_resume
    (tracks : list MediaStreamTrack) (o : setupOutcome) (i : Instance) :
  wired i -> acquiring i = true ->
  wired (setupStream_resume tracks o (setAcquiring false i)).
Proof.
  intros [H1 H2 H3 H4 H5 H6 H7 H8 H9] Haq. open_instance i. subst aq.
  destruct (H3 eq_refl) as (-> & -> & -> & -> & -> & -> & -> & ->).
  unfold setupStream_resume; simpl.
  destruct m; simpl.
  - destruct o; unfold buildAudioGraph, updateVolume; simpl; close_wired.
  - close_wired.
Qed.

Lemma wired_refused (i : Instance) :
  wired i -> acquiring i = true -> wired (setAcquiring false i).
Proof.
  intros [H1 H2 H3 H4 H5 H6 H7 H8 H9] Haq. open_instance i. subst aq.
  destruct (H3 eq_refl) as (-> & -> & -> & -> & -> & -> & -> & ->).
  close_wired.
Qed.

Lemma wired_frame (i : Instance) :
  wired i -> pendingFrame (browser i) <> None ->
  wired (updateVolume (onBrowser (setPendingFrame None) i)).
Proof.
  intros [H1 H2 H3 H4 H5 H6 H7 H8 H9] Hp. open_instance i.
  assert (aq = false) as ->.
  { destruct aq; [|reflexivity]. now destruct (H3 eq_refl) as (_ & _ & ? & _). }
  assert (m = true) as ->.
  { destruct m; [reflexivity|]. now destruct (H9 eq_refl) as (_ & _ & ?). }
  unfold updateVolume; simpl. destruct an; close_wired.
Qed.

(** The clean-up lets go of everything: each resource that is alive is
    reached through its ref. *)
Lemma cleanup_releases (i : Instance) :
  wired i -> isMounted i = true -> released (cleanup i).
Proof.
  intros [H1 H2 H3 H4 H5 H6 H7 H8 H9] Hm. open_instance i. subst m.
  specialize (H4 eq_refl).
  unfold released, tracksStopped, contextClosed, loopCancelled, cleanup,
    stopTracks, cancelAnimationFrame; simpl.
  destruct pf as [id|].
  - rewrite (H6 id eq_refl); simpl.
    destruct sr, ar; simpl; rewrite bool_decide_true by reflexivity; simpl.
    all: repeat split; try discriminate.
    all: try (destruct s; simpl; [apply Forall_stopped | exact I]).
    all: try (destruct s; [discriminate H4; discriminate | exact I]).
    all: try (intros E; discriminate (H5 E)).
  - destruct sr, ar, af; simpl; unfold cancelAnimationFrame; simpl.
    all: repeat split; try discriminate.
    all: try (destruct s; simpl; [apply Forall_stopped | exact I]).
    all: try (destruct s; [discriminate H4; discriminate | exact I]).
    all: try (intros E; discriminate (H5 E)).
Qed.

Lemma wired_cleanup (i : Instance) :
  wired i -> isMounted i = true -> wired (cleanup i).
Proof.
  intros Hw Hm. pose proof (cleanup_releases i Hw Hm) as Hrel.
  destruct Hw as [H1 H2 H3 H4 H5 H6 H7 H8 H9].
  constructor; try (intros _; exact Hrel).
  all: clear Hrel; open_instance i; subst m.
  all: unfold cleanup, stopTracks, cancelAnimationFrame; simpl.
  all: destruct sr, ar, af; simpl; try case_bool_decide; simpl; intros; auto;
    try discriminate.
  all: try (destruct (H3 ltac:(assumption)) as (? & ? & ? & ? & ? & ? & ? & ?);
            discriminate).
Qed.

Lemma step_wired (i : Instance) (e : event) : wired i -> wired (step i e).
Proof.
  intros H. destruct e; simpl.
  - destruct (acquiring i) eqn:Ha; [now apply wired_setupStream_resume | exact H].
  - destruct (acquiring i) eqn:Ha; [now apply wired_refused | exact H].
  - destruct (pendingFrame (browser i)) eqn:Hp; [|exact H].
    apply wired_frame; [exact H | congruence].
  - destruct (_ && _); [|exact H]. now apply wired_effects, wired_onState.
  - destruct (_ && _); [|exact H]. now apply wired_effects, wired_onState.
  - destruct (_ && _); [|exact H]. now apply wired_effects, wired_onState.
  - destruct (_ && _); [|exact H]. now apply wired_effects, wired_startRecording.
  - destruct (recorder (browser i)) as [[|]|]; try destruct (stopRequested i);
      try exact H; now apply wired_ondataavailable.
  - destruct (_ && _); [|exact H]. now apply wired_effects, wired_stopRecording.
  - destruct (stopRequested i); [now apply wired_onstop | exact H].
  - destruct (_ && _); [|exact H]. now apply wired_effects, wired_onState.
  - destruct (isMounted i) eqn:Hm; [now apply wired_cleanup | exact H].
Qed.

Lemma run_app (i : Instance) (es es' : list event) :
  run i (es ++ es') = run (run i es) es'.
Proof. apply fold_left_app. Qed.

Lemma run_wired (es : list event) : forall i, wired i -> wired (run i es).
Proof.
  induction es as [|e es IH]; intros i H; [exact H|].
  apply IH, step_wired, H.
Qed.

Lemma stopRecording_mounted (i : Instance) :
  isMounted (stopRecording i) = isMounted i.
Proof.
  unfold stopRecording. destruct (mediaRecorderRef _); [|reflexivity].
  destruct (recorder _) as [[|]|]; reflexivity.
Qed.

(** Once unmounted, always unmounted. *)
Lemma step_unmounted (i : Instance) (e : event) :
  isMounted i = false -> isMounted (step i e) = false.
Proof.
  intros Hm. destruct e; simpl; unfold onMainStage; rewrite ?Hm; simpl;
    try exact Hm.
  - destruct (acquiring i); [|exact Hm].
    unfold setupStream_resume; simpl. rewrite Hm. simpl. exact Hm.
  - destruct (acquiring i); exact Hm.
  - destruct (pendingFrame _); [|exact Hm].
    unfold updateVolume; simpl. destruct (analyserRef _); exact Hm.
  - destruct (recorder _) as [[|]|]; try destruct (stopRequested i); try exact Hm;
      unfold ondataavailable; destruct (bytes data); exact Hm.
  - destruct (stopRequested i); [|exact Hm].
    unfold onstop; simpl. destruct (streamRef _); exact Hm.
  - reflexivity.
Qed.

Lemma run_unmounted (es : list event) :
  forall i, isMounted i = false -> isMounted (run i es) = false.
Proof.
  induction es as [|e es IH]; intros i H; [exact H|].
  apply IH, step_unmounted, H.
Qed.

Lemma unmount_unmounts (i : Instance) : isMounted (step i Unmount) = false.
Proof.
  simpl. destruct (isMounted i) eqn:Hm; [|exact Hm].
  unfold cleanup; simpl.
  destruct (streamRef _), (audioContextRef _), (animationFrameRef _); reflexivity.
Qed.

(** C8, as the specification words it, fails: when a recording has been
    stopped and handed over, the hardware tracks are stopped, but the audio
    context is still running and an animation frame of the volume loop is
    still waiting. *)
Lemma stop_leaves_context_and_loop :
  let i := run (mount minuteTalk webmOnly) (oneTake ++ [RecorderStopped 13000]) in
  (exists d, delivered i = Some d /\ d == 12) /\
  tracksStopped i /\
  audioContext (browser i) = Some running /\
  pendingFrame (browser i) = Some 1%positive /\
  ~ contextClosed i /\
  ~ loopCancelled i.
Proof.
  cbv zeta.
  split; [eexists; split; [vm_compute; reflexivity | reflexivity]|]. split.
  - vm_compute. repeat constructor.
  - split; [vm_compute; reflexivity|]. split; [vm_compute; reflexivity|]. split.
    + intros H. apply H. vm_compute. reflexivity.
    + intros H. vm_compute in H. discriminate.
Qed.

(** C8 (amended).  Whatever happened on the stage before: when the
    recorder's stop event arrives after a stop was asked for, every
    hardware track of the acquired stream is stopped; and once the stage is
    unmounted, then and ever after (also when the media stream is only
    granted later), every hardware track is stopped, the audio context is
    not running, and no animation frame of the volume loop is waiting. *)
Theorem stage_releases_media
    (cfg : SessionConfig.t) (sup : jsstring -> bool) (before : list event) :
  (forall now,
      stopRequested (run (mount cfg sup) before) = true ->
      tracksStopped (run (mount cfg sup) (before ++ [RecorderStopped now]))) /\
  (forall after,
      let i := run (mount cfg sup) (before ++ Unmount :: after) in
      tracksStopped i /\ contextClosed i /\ loopCancelled i).
Proof.
  pose proof (run_wired before _ (mount_wired cfg sup)) as Hw.
  split.
  - intros now Hs. rewrite run_app. simpl. rewrite Hs.
    pose proof (stop_has_recorder _ Hw Hs) as Hr.
    pose proof (recorder_has_stream _ Hw Hr) as Hsr.
    unfold onstop, tracksStopped; simpl. rewrite Hsr. simpl.
    destruct (stream _); simpl; [apply Forall_stopped | exact I].
  - intros after i. subst i. rewrite run_app.
    change (run ?j (Unmount :: after)) with (run (step j Unmount) after).
    apply released_once_unmounted.
    + apply run_wired, step_wired, Hw.
    + apply run_unmounted, unmount_unmounts.
Qed.

Lemma stage_releases_media_witness :
  stopRequested (run (mount minuteTalk webmOnly) oneTake) = true /\
  tracksStopped (run (mount minuteTalk webmOnly) (oneTake ++ [RecorderStopped 13000])).
Proof.
  split; [vm_compute; reflexivity|].
  apply (proj1 (stage_releases_media minuteTalk webmOnly oneTake) 13000).
  vm_compute; reflexivity.
Defined.

(** *** The duration handed over *)

(** What [recorder.onstop] hands to [onFinish] on any stage a run can
    reach: the seconds on the clock since the start when that is positive,
    and 0 otherwise, because the [timeLeft] its closure reads is the one of
    the first render, which is the configured duration. *)
Lemma onstop_delivers (i : Instance) (now : Z) :
  wired i -> stopRequested i = true ->
  delivered (step i (RecorderStopped now))
  = Some (if Qlt_le_dec 0 (inject_Z (now - startTimeRef (refs i)) / 1000)
          then (inject_Z (now - startTimeRef (refs i)) / 1000)%Q
          else 0%Q).
Proof.
  intros Hw Hs. simpl. rewrite Hs. unfold onstop, delivered; simpl.
  rewrite (closure_config _ Hw), (closure_timeLeft _ Hw), Z.sub_diag.
  destruct (streamRef (refs i)); reflexivity.
Qed.

(** C6 at its failing input.  A recording of 60 s is started when the
    clock reads 1000 and stopped after ten ticks of the countdown, 50 s
    remaining.  If the clock then reads 11000 the duration handed over is
    the 10 s elapsed; if it reads 1000, so that the difference is not
    positive, the duration handed over is 0, not the 60 - 50 = 10 of the
    configured duration minus the remaining time. *)
Theorem fallback_duration_ignores_countdown :
  let i := run (mount minuteTalk webmOnly) tenSeconds in
  SessionConfig.durationSeconds (config i) = 60 /\
  timeLeft (state i) = 50 /\
  startTimeRef (refs i) = 1000 /\
  stopRequested i = true /\
  delivered (step i (RecorderStopped 1000)) = Some 0%Q /\
  inject_Z (SessionConfig.durationSeconds (config i) - timeLeft (state i)) == 10 /\
  (exists d, delivered (step i (RecorderStopped 11000)) = Some d /\ d == 10).
Proof.
  cbv zeta. split; [vm_compute; reflexivity|]. split; [vm_compute; reflexivity|].
  split; [vm_compute; reflexivity|]. split; [vm_compute; reflexivity|].
  split; [vm_compute; reflexivity|]. split; [vm_compute; reflexivity|].
  eexists; split; [vm_compute; reflexivity | reflexivity].
Qed.

(** *** Extending the time *)

Lemma click_addTime (i : Instance) :
  onMainStage i = true ->
  isRecording (state i) = true ->
  0 <= timeLeft (state i) ->
  step i ClickAddTime = addTime i.
Proof.
  intros Hm Hr Ht. simpl. rewrite Hm, Hr. simpl.
  unfold onMainStage in Hm. apply andb_true_iff in Hm as [_ Hp].
  apply negb_true_iff in Hp.
  unfold effects, prepEffect, autoStopEffect, addTime. simpl.
  rewrite Hp. simpl. rewrite Hp. simpl.
  replace (timeLeft (state i) + 15 =? 0) with false
    by (symmetry; apply Z.eqb_neq; lia).
  reflexivity.
Qed.

(** C7.  On a stage that is recording, [n] presses of the add-time button
    leave the remaining time [15 * n] seconds higher, and the stage still
    recording; no bound is ever hit, since any bound is exceeded by enough
    presses; and on a stage that is not recording (the button is disabled)
    or is in the prep overlay (the button is not there) a press changes
    nothing. *)
Theorem addTime_adds_15_each (i : Instance) (n : nat) :
  onMainStage i = true ->
  isRecording (state i) = true ->
  0 <= timeLeft (state i) ->
  (timeLeft (state (extend n i)) = timeLeft (state i) + 15 * Z.of_nat n /\
   isRecording (state (extend n i)) = true /\
   onMainStage (extend n i) = true) /\
  (forall bound, exists m, bound < timeLeft (state (extend m i))) /\
  (forall k, onMainStage k && isRecording (state k) = false ->
             step k ClickAddTime = k).
Proof.
  intros Hm Hr Ht.
  assert (forall m,
            timeLeft (state (extend m i)) = timeLeft (state i) + 15 * Z.of_nat m /\
            isRecording (state (extend m i)) = true /\
            onMainStage (extend m i) = true) as Hiter.
  { unfold extend. induction m as [|m IH].
    - simpl. split; [lia | auto].
    - destruct IH as (IH1 & IH2 & IH3).
      rewrite Nat.iter_succ. set (j := Nat.iter m _ i) in *.
      rewrite click_addTime by (try assumption; lia).
      split; [|split; [exact IH2 | exact IH3]].
      change (timeLeft (state (addTime j))) with (timeLeft (state j) + 15). lia. }
  split; [apply Hiter|]. split.
  - intros bound. exists (Z.to_nat (Z.max 0 (bound - timeLeft (state i)) + 1)).
    destruct (Hiter (Z.to_nat (Z.max 0 (bound - timeLeft (state i)) + 1))) as (-> & _).
    lia.
  - intros k Hk. simpl. now rewrite Hk.
Qed.

Lemma addTime_adds_15_each_witness :
  (onMainStage onAir = true /\ isRecording (state onAir) = true /\
   0 <= timeLeft (state onAir)) /\
  timeLeft (state (extend 3 onAir)) = timeLeft (state onAir) + 15 * 3.
Proof.
  split.
  - split; [vm_compute; reflexivity|]. split; [vm_compute; reflexivity|].
    vm_compute. discriminate.
  - apply (addTime_adds_15_each onAir 3); vm_compute;
      first [reflexivity | discriminate].
Defined.

End StageProofs.

(* ===================================================================== *)
(** * Further properties                                                  *)
(* ===================================================================== *)

(** ** Trimming, prefixes and pieces *)

Lemma trimStart_blank_app (ws s : jsstring) :
  blank ws -> trimStart (ws ++ s) = trimStart s.
Proof. induction 1 as [|c ws Hc _ IH]; simpl; [reflexivity|]. now rewrite Hc. Qed.

Lemma trimStart_solid (c : N) (s : jsstring) :
  isWhiteSpace c = false -> trimStart (c :: s) = c :: s.
Proof. intros H. simpl. now rewrite H. Qed.

Lemma trimEnd_blank (ws : jsstring) : blank ws -> trimEnd ws = [].
Proof. induction 1 as [|c ws Hc _ IH]; simpl; [reflexivity|]. now rewrite IH, Hc. Qed.

Lemma trimEnd_app_blank (s ws : jsstring) :
  blank ws -> trimEnd (s ++ ws) = trimEnd s.
Proof.
  intros H. induction s as [|a s IH]; simpl; [now apply trimEnd_blank|].
  now rewrite IH.
Qed.

Lemma trimEnd_solid (s : jsstring) (c : N) :
  isWhiteSpace c = false -> trimEnd (s ++ [c]) = s ++ [c].
Proof.
  intros H. induction s as [|a s IH]; simpl; [now rewrite H|].
  rewrite IH. destruct s; reflexivity.
Qed.

Lemma trimEnd_idem (s : jsstring) : trimEnd (trimEnd s) = trimEnd s.
Proof.
  induction s as [|a s IH]; [reflexivity|]. simpl.
  destruct (trimEnd s) as [|b r] eqn:E.
  - destruct (isWhiteSpace a) eqn:Ha; simpl; [reflexivity|]. now rewrite Ha.
  - simpl. simpl in IH. rewrite IH. destruct (match trimEnd r with [] => _ | _ => _ end) eqn:E2; [|reflexivity].
    destruct (trimEnd r); [destruct (isWhiteSpace b)|]; discriminate.
Qed.

Lemma trim_idem (s : jsstring) : trim (trim s) = trim s.
Proof.
  unfold trim. destruct (trimStart s) as [|c r] eqn:E; [reflexivity|].
  pose proof (trimStart_head s c r E) as Hc.
  destruct (trimEnd_cons c r Hc) as [r' Hr]. rewrite Hr.
  rewrite trimStart_solid by exact Hc. rewrite <- Hr. apply trimEnd_idem.
Qed.

Lemma startsWith_app (n s : jsstring) : startsWith n (n ++ s) = true.
Proof. induction n as [|a n IH]; simpl; [reflexivity|]. now rewrite N.eqb_refl. Qed.

Lemma endsWith_app (n s : jsstring) : endsWith n (s ++ n) = true.
Proof. unfold endsWith. rewrite rev_app_distr. apply startsWith_app. Qed.

Lemma replaceAtStart_app (n s : jsstring) : replaceAtStart n (n ++ s) = s.
Proof. unfold replaceAtStart. rewrite startsWith_app. apply drop_app_length. Qed.

Lemma replaceAtEnd_app (n s : jsstring) : replaceAtEnd n (s ++ n) = s.
Proof.
  unfold replaceAtEnd. rewrite endsWith_app, length_app.
  replace (length s + length n - length n)%nat with (length s) by lia.
  apply take_app_length.
Qed.

Lemma trim_solid_ends (ws ws' mid : jsstring) (c c' : N) :
  blank ws -> blank ws' ->
  isWhiteSpace c = false -> isWhiteSpace c' = false ->
  trim (ws ++ (c :: mid ++ [c']) ++ ws') = c :: mid ++ [c'].
Proof.
  intros Hw Hw' Hc Hc'. unfold trim.
  rewrite trimStart_blank_app by exact Hw.
  rewrite <- app_comm_cons, trimStart_solid by exact Hc.
  rewrite app_comm_cons, trimEnd_app_blank by exact Hw'.
  rewrite app_comm_cons. apply trimEnd_solid, Hc'.
Qed.

Lemma startsWith_longer (a b s : jsstring) :
  startsWith a s = false -> startsWith (a ++ b) s = false.
Proof.
  revert s. induction a as [|x a IH]; intros s H; [discriminate|].
  destruct s as [|y s]; [reflexivity|]. simpl in *.
  destruct (x =? y)%N; [|reflexivity]. simpl in *. now apply IH.
Qed.

Lemma startsWith_app_both (a b s : jsstring) :
  startsWith (a ++ b) (a ++ s) = startsWith b s.
Proof. induction a as [|x a IH]; simpl; [reflexivity|]. now rewrite N.eqb_refl. Qed.

Lemma startsWith_app_apart (n s t : jsstring) :
  (forall c, c ∈ n -> c ∉ t) ->
  startsWith n (s ++ t) = startsWith n s.
Proof.
  revert s. induction n as [|a n IH]; intros s H; [destruct s; reflexivity|].
  destruct s as [|x s].
  - destruct t as [|b t]; [reflexivity|]. simpl.
    destruct (N.eqb_spec a b) as [->|]; [|reflexivity].
    exfalso. apply (H b); constructor.
  - simpl. rewrite IH; [reflexivity|].
    intros c Hc. apply H. now constructor.
Qed.

Lemma split_unit_go_no_sep (sep : N) (cur s : jsstring) :
  sep ∉ s -> split_unit_go sep cur s = [cur ++ s].
Proof.
  revert cur. induction s as [|c s IH]; intros cur H; simpl.
  - now rewrite app_nil_r.
  - destruct (N.eqb_spec c sep) as [->|Hne].
    + exfalso. apply H. constructor.
    + rewrite IH; [now rewrite <- app_assoc|].
      intros Hin. apply H. now constructor.
Qed.

Lemma split_unit_go_first (sep : N) (cur s t : jsstring) :
  sep ∉ s -> split_unit_go sep cur (s ++ sep :: t) = (cur ++ s) :: split_unit_go sep [] t.
Proof.
  revert cur. induction s as [|c s IH]; intros cur H; simpl.
  - now rewrite N.eqb_refl, app_nil_r.
  - destruct (N.eqb_spec c sep) as [->|Hne].
    + exfalso. apply H. constructor.
    + rewrite IH; [now rewrite <- app_assoc|].
      intros Hin. apply H. now constructor.
Qed.

(** ** The text that comes back from the model *)

Section Replies.

Import GeminiService Samples.

Lemma trim_fenced (ws ws' opening body : jsstring) :
  blank ws -> blank ws' ->
  trim (ws ++ (fence ++ opening) ++ body ++ fence ++ ws')
  = (fence ++ opening) ++ body ++ fence.
Proof.
  intros Hw Hw'.
  assert (forall tail,
             (fence ++ opening) ++ body ++ fence ++ tail
             = (96%N :: ([96; 96]%N ++ opening ++ body ++ [96; 96]%N) ++ [96%N]) ++ tail) as E.
  { intros tail. unfold fence. cbn [app]. rewrite <- !app_assoc. reflexivity. }
  rewrite E. rewrite trim_solid_ends by (assumption || reflexivity).
  specialize (E []). rewrite !app_nil_r in E. symmetry. exact E.
Qed.

(** X9.  A reply that wraps its JSON in a Markdown fence, with or without
    the [json] tag and whatever white space surrounds it, is reduced to
    exactly what stands between the fences, and that is what is parsed;
    a reply that does not start with a fence is only trimmed. *)
Theorem sanitizeJson_strips_fences
    (JSON_parse : jsstring -> option Payload) (ws ws' body : jsstring) :
  blank ws -> blank ws' ->
  sanitizeJson (ws ++ fence_json ++ body ++ fence ++ ws') = body /\
  (startsWith (u16 "json") body = false ->
   sanitizeJson (ws ++ fence ++ body ++ fence ++ ws') = body) /\
  interpret JSON_parse (Replied (Some (ws ++ fence_json ++ body ++ fence ++ ws')))
  = match JSON_parse body with Some p => Parsed p | None => Malformed end /\
  (forall text, startsWith fence (trim text) = false ->
                sanitizeJson text = trim text).
Proof.
  intros Hw Hw'.
  assert (sanitizeJson (ws ++ fence_json ++ body ++ fence ++ ws') = body) as E1.
  { unfold sanitizeJson, fence_json.
    rewrite (trim_fenced ws ws' (u16 "json") body Hw Hw').
    rewrite startsWith_app, replaceAtStart_app, replaceAtEnd_app. reflexivity. }
  split; [exact E1|]. split; [|split].
  - intros Hb. unfold sanitizeJson.
    pose proof (trim_fenced ws ws' [] body Hw Hw') as E. rewrite !app_nil_r in E.
    rewrite E.
    assert (startsWith fence_json (fence ++ body ++ fence) = false) as ->.
    { unfold fence_json. rewrite startsWith_app_both, startsWith_app_apart; [exact Hb|].
      intros c Hc Hf. unfold fence in Hf.
      apply list_elem_of_In in Hc, Hf. cbn in Hc, Hf.
      intuition (subst; discriminate). }
    rewrite startsWith_app, replaceAtStart_app, replaceAtEnd_app. reflexivity.
  - unfold interpret. rewrite E1.
    assert (truthy (ws ++ fence_json ++ body ++ fence ++ ws') = true) as ->.
    { destruct ws; reflexivity. }
    reflexivity.
  - intros text H. unfold sanitizeJson, fence_json.
    rewrite startsWith_longer by exact H. rewrite H. reflexivity.
Qed.

Lemma sanitizeJson_strips_fences_witness :
  (blank [10%N] /\ blank [10%N]) /\
  sanitizeJson fencedReply = u16 "{}".
Proof.
  assert (blank [10%N]) as H by (repeat constructor).
  split; [split; exact H|].
  exact (proj1 (sanitizeJson_strips_fences (fun _ => None) [10%N] [10%N] (u16 "{}") H H)).
Defined.

Lemma generateTopic_trimmed (language : jsstring) (reply : Reply) :
  trim (generateTopic language reply) = generateTopic language reply.
Proof.
  destruct reply as [|[t|]]; simpl.
  - vm_compute. reflexivity.
  - destruct (truthy (trim t)) eqn:E; [apply trim_idem|].
    destruct (promptInChinese language); vm_compute; reflexivity.
  - destruct (promptInChinese language); vm_compute; reflexivity.
Qed.

Lemma generateTopic_nonempty (language : jsstring) (reply : Reply) :
  generateTopic language reply <> [].
Proof.
  destruct reply as [|[t|]]; simpl; try discriminate.
  - destruct (trim t) eqn:E; simpl; [|discriminate].
    destruct (promptInChinese language); discriminate.
  - destruct (promptInChinese language); discriminate.
Qed.

Lemma generateTopic_solid (language : jsstring) (reply : Reply) :
  trim (generateTopic language reply) <> [].
Proof. rewrite generateTopic_trimmed. apply generateTopic_nonempty. Qed.

(** X10.  Whatever the model answers, and also when the call fails,
    [generateTopic] resolves with a topic that is not empty and has no
    white space around it: the trimmed answer when that is not empty, a
    fixed topic otherwise. *)
Theorem generateTopic_never_blank (language : jsstring) (reply : Reply) :
  let topic := generateTopic language reply in
  topic <> [] /\ trim topic = topic /\ trim topic <> [] /\
  (forall t, reply = Replied (Some t) -> trim t <> [] -> topic = trim t) /\
  (reply = CallRejected ->
   topic = u16 "What is the most important lesson you have learned?").
Proof.
  cbn zeta. split; [apply generateTopic_nonempty|].
  split; [apply generateTopic_trimmed|]. split; [apply generateTopic_solid|].
  split.
  - intros t -> Ht. simpl. destruct (trim t); [now elim Ht|reflexivity].
  - intros ->. reflexivity.
Qed.

(** X11.  The prompt, and the fallback topic, are Chinese only for a
    language whose pace is counted in characters; the converse fails for
    Japanese alone, which is paced in characters and prompted in English.
    The six languages of the set-up view are listed. *)
Theorem prompt_language_and_pace_language (language : jsstring) :
  (promptInChinese language = true -> isChinese language = true) /\
  (isChinese language = true -> promptInChinese language = false ->
   includes (u16 "japanese") (toLowerCase language) = true) /\
  List.map (fun l => (promptInChinese (u16 l), isChinese (u16 l)))
    ["English"; "Cantonese"; "Mandarin"; "Spanish"; "French"; "Japanese"]%string
  = [(false, false); (true, true); (true, true); (false, false); (false, false);
     (false, true)].
Proof.
  unfold promptInChinese, isChinese.
  destruct (includes (u16 "cantonese") _), (includes (u16 "mandarin") _),
    (includes (u16 "chinese") _), (includes (u16 "japanese") _); simpl;
    repeat split; try discriminate; try reflexivity; try (intros; reflexivity);
    try (intros; discriminate).
  all: vm_compute; reflexivity.
Qed.

Lemma prompt_language_and_pace_language_witness :
  promptInChinese (u16 "Cantonese") = true /\ isChinese (u16 "Cantonese") = true.
Proof.
  split; [vm_compute; reflexivity|].
  apply (prompt_language_and_pace_language (u16 "Cantonese")).
  vm_compute. reflexivity.
Defined.

(** X12.  [blobToBase64] resolves with the payload of the data URL: with
    no comma in the header (the media type and the [base64] marker), the
    piece after the first comma is the payload, up to the next comma if
    there is one; a text without a comma gives [undefined]. *)
Theorem blobToBase64_takes_the_payload (header payload : jsstring) :
  44%N ∉ header ->
  (44%N ∉ payload ->
   blobToBase64 (header ++ u16 "," ++ payload) = Some payload) /\
  (forall rest, 44%N ∉ payload ->
     blobToBase64 (header ++ u16 "," ++ payload ++ u16 "," ++ rest) = Some payload) /\
  blobToBase64 header = None.
Proof.
  intros Hh. unfold blobToBase64, split_unit. repeat split.
  - intros Hp. change (u16 "," ++ payload) with (44%N :: payload).
    rewrite split_unit_go_first by exact Hh. rewrite split_unit_go_no_sep by exact Hp.
    reflexivity.
  - intros rest Hp. change (u16 "," ++ payload ++ u16 "," ++ rest) with (44%N :: (payload ++ 44%N :: rest)).
    rewrite split_unit_go_first by exact Hh. rewrite split_unit_go_first by exact Hp.
    reflexivity.
  - rewrite split_unit_go_no_sep by exact Hh. reflexivity.
Qed.

Lemma blobToBase64_takes_the_payload_witness :
  (44%N ∉ u16 "data:audio/webm;base64") /\
  blobToBase64 (u16 "data:audio/webm;base64,GkXfo59C") = Some (u16 "GkXfo59C").
Proof.
  assert (forall s : string, existsb (N.eqb 44) (u16 s) = false -> 44%N ∉ u16 s) as K.
  { intros s H Hin. apply list_elem_of_In in Hin.
    assert (existsb (N.eqb 44) (u16 s) = true) as E
      by (apply existsb_exists; exists 44%N; split; [exact Hin|reflexivity]).
    congruence. }
  assert (44%N ∉ u16 "data:audio/webm;base64") as Hh by (apply K; vm_compute; reflexivity).
  split; [exact Hh|].
  apply (blobToBase64_takes_the_payload (u16 "data:audio/webm;base64") (u16 "GkXfo59C") Hh).
  apply K. vm_compute. reflexivity.
Defined.

End Replies.

(** ** Bounds on the pace *)

Section PaceBounds.

Import GeminiService Samples.

Lemma contentCount_nonneg (language : jsstring) (transcript : option jsstring) :
  0 <= contentCount language transcript.
Proof.
  unfold contentCount. destruct transcript as [t|]; [|lia].
  destruct (truthy t); [|lia]. destruct (isChinese language); lia.
Qed.

Lemma Math_round_le (x y : Q) : (x <= y)%Q -> Math_round x <= Math_round y.
Proof.
  intros H. unfold Math_round. apply Qfloor_resp_le.
  apply Qplus_le_compat; [exact H | apply Qle_refl].
Qed.

Lemma safeDuration_ge_1 (d : Q) : (1 <= safeDuration d)%Q.
Proof. unfold safeDuration, Math_max. apply Q.le_max_r. Qed.

Lemma safeDuration_le (d d' : Q) :
  (d <= d')%Q -> (safeDuration d <= safeDuration d')%Q.
Proof.
  intros H. unfold safeDuration, Math_max. apply Q.max_le_compat_r. exact H.
Qed.

Lemma quotient_antitone (c : Z) (m m' : Q) :
  0 <= c -> (1 <= m)%Q -> (m <= m')%Q ->
  (inject_Z c / (m' / 60) <= inject_Z c / (m / 60))%Q.
Proof.
  intros Hc Hm Hmm.
  assert (0 < m)%Q as Hpos by (eapply Qlt_le_trans; [|exact Hm]; reflexivity).
  assert (0 < m')%Q as Hpos' by (eapply Qlt_le_trans; [exact Hpos|exact Hmm]).
  assert (~ m == 0)%Q as Hne by (intros E; rewrite E in Hpos; discriminate).
  assert (~ m' == 0)%Q as Hne' by (intros E; rewrite E in Hpos'; discriminate).
  assert (0 <= inject_Z c)%Q as HA by (change 0%Q with (inject_Z 0); rewrite <- Zle_Qle; exact Hc).
  assert (0 <= inject_Z c / (m / 60))%Q as HB.
  { apply Qle_shift_div_l.
    - apply Qlt_shift_div_l; [reflexivity|]. rewrite Qmult_0_l. exact Hpos.
    - rewrite Qmult_0_l. exact HA. }
  apply Qle_shift_div_r.
  - apply Qlt_shift_div_l; [reflexivity|]. rewrite Qmult_0_l. exact Hpos'.
  - assert (inject_Z c == (m / 60) * (inject_Z c / (m / 60)))%Q as E by (field; exact Hne).
    rewrite E at 1. rewrite (Qmult_comm (inject_Z c / (m / 60))).
    apply Qmult_le_compat_r; [|exact HB].
    apply Qle_shift_div_l; [reflexivity|].
    assert (m / 60 * 60 == m)%Q as -> by field. exact Hmm.
Qed.

(** X13.  The pace is never negative and never more than 60 times the
    content count, whatever the duration; a longer recording of the same
    transcript never gets a higher pace; and an empty count gives pace 0. *)
Theorem pace_is_bounded_and_antitone
    (language : jsstring) (transcript : option jsstring) (d d' : Q) :
  0 <= calculatedPace language transcript d
    <= 60 * contentCount language transcript /\
  ((d <= d')%Q ->
   calculatedPace language transcript d'
   <= calculatedPace language transcript d) /\
  (contentCount language transcript = 0 ->
   calculatedPace language transcript d = 0).
Proof.
  pose proof (contentCount_nonneg language transcript) as Hc.
  unfold calculatedPace.
  split; [split|split].
  - rewrite <- (Math_round_integer 0). apply Math_round_le.
    apply Qle_shift_div_l.
    + apply Qlt_shift_div_l; [reflexivity|]. rewrite Qmult_0_l.
      eapply Qlt_le_trans; [|apply safeDuration_ge_1]. reflexivity.
    + rewrite Qmult_0_l. change 0%Q with (inject_Z 0). rewrite <- Zle_Qle. exact Hc.
  - rewrite <- (Math_round_integer (60 * _)). apply Math_round_le.
    apply (Qle_trans _ (inject_Z (contentCount language transcript) / (1 / 60))%Q).
    + apply quotient_antitone; [exact Hc|apply Qle_refl|apply safeDuration_ge_1].
    + rewrite inject_Z_mult. apply Qle_lteq. right. field.
  - intros Hd. apply Math_round_le, quotient_antitone;
      [exact Hc | apply safeDuration_ge_1 | apply safeDuration_le, Hd].
  - intros ->. rewrite <- (Math_round_integer 0) at 2.
    apply Math_round_comp. unfold Qdiv. apply Qmult_0_l.
Qed.

Lemma pace_is_bounded_and_antitone_witness :
  (10 <= 20)%Q /\
  calculatedPace (u16 "English") (Some fox) 20
  <= calculatedPace (u16 "English") (Some fox) 10.
Proof.
  split; [discriminate|].
  apply (pace_is_bounded_and_antitone (u16 "English") (Some fox) 10 20).
  discriminate.
Defined.

Lemma blank_no_tokens (b : bool) (text : jsstring) :
  blank text -> Spec.count_tokens b text = 0%nat.
Proof.
  intros H. revert b. induction H as [|c l Hc _ IH]; intros b; simpl; [reflexivity|].
  rewrite Hc. apply IH.
Qed.

(** X14.  A transcript that consists of white space only is not empty, so
    it is counted: for a language paced in words, [trim] leaves the empty
    text, which [split] turns into one empty piece, and the content count
    is 1 where the transcript has no word; at a duration of up to one
    second that is a pace of 60.  The empty and the missing transcript
    count 0. *)
Theorem blank_transcript_counts_one_word (language text : jsstring) (d : Q) :
  isChinese language = false ->
  text <> [] ->
  blank text ->
  Spec.word_count text = 0%nat /\
  contentCount language (Some text) = 1 /\
  ((d <= 1)%Q -> calculatedPace language (Some text) d = 60) /\
  contentCount language (Some []) = 0 /\
  contentCount language None = 0.
Proof.
  intros Hl Hne Hb.
  assert (Spec.word_count text = 0%nat) as Hw by (now apply blank_no_tokens).
  assert (contentCount language (Some text) = 1) as Hc.
  { unfold contentCount. rewrite Hl. destruct text; [now elim Hne|].
    cbn [truthy]. now rewrite split_trim_blank. }
  split; [exact Hw|]. split; [exact Hc|]. split.
  - intros Hd. rewrite pace_when_short by exact Hd. rewrite Hc. reflexivity.
  - split; reflexivity.
Qed.
Lemma blank_transcript_counts_one_word_witness :
  (isChinese (u16 "English") = false /\ u16 "  " <> [] /\ blank (u16 "  ")) /\
  contentCount (u16 "English") (Some (u16 "  ")) = 1.
Proof.
  assert (isChinese (u16 "English") = false) as H1 by (vm_compute; reflexivity).
  assert (u16 "  " <> []) as H2 by discriminate.
  assert (blank (u16 "  ")) as H3 by (repeat constructor).
  split; [auto|].
  apply (blank_transcript_counts_one_word (u16 "English") (u16 "  ") 1 H1 H2 H3).
Defined.

End PaceBounds.

(** ** More on the history store *)

Section HistoryMore.

Import HistoryService Samples.

Lemma after_save_frame (item : HistoryItem.t) (st : Storage) (key : jsstring) :
  key <> STORAGE_KEY ->
  items (after_save item st) !! key = items st !! key.
Proof.
  intros Hk. unfold after_save, saveHistoryItem, setItem.
  destruct (getHistory st) as [|[l|]]; simpl; auto.
  destruct (denied st || exhausted st); simpl; auto.
  apply lookup_insert_ne. congruence.
Qed.

(** X15.  Saving history items writes under the history key and nowhere
    else: whatever the storage held and however many items are saved,
    every other entry is as it was. *)
Theorem saving_touches_only_the_history_key
    (xs : list HistoryItem.t) (st : Storage) (key : jsstring) :
  key <> STORAGE_KEY ->
  items (appendAll xs st) !! key = items st !! key.
Proof.
  intros Hk. revert st. induction xs as [|x xs IH]; intros st; [auto|].
  change (appendAll (x :: xs) st) with (appendAll xs (after_save x st)).
  rewrite (IH (after_save x st)).
  now apply after_save_frame.
Qed.

Lemma saving_touches_only_the_history_key_witness :
  (u16 "theme" <> STORAGE_KEY) /\
  items (appendAll [item 1; item 2] emptyStorage) !! u16 "theme"
  = items emptyStorage !! u16 "theme".
Proof.
  assert (u16 "theme" <> STORAGE_KEY) as H by (vm_compute; discriminate).
  split; [exact H|].
  apply (saving_touches_only_the_history_key [item 1; item 2] emptyStorage (u16 "theme") H).
Defined.

(** X16.  When the text under the history key is JSON for something that
    is not an array ([null], a number, an object), [getHistory] hands that
    value to its caller as it is, and no item is ever saved again: the
    spread in [saveHistoryItem] throws, the catch swallows it, and the
    storage stays as it was. *)
Theorem non_array_history_is_stuck (st : Storage) (xs : list HistoryItem.t) :
  denied st = false ->
  items st !! STORAGE_KEY = Some NotIterable ->
  getHistory st = Return Opaque /\
  listed st = None /\
  (forall item, saveHistoryItem item st = Return st) /\
  appendAll xs st = st /\
  listed (appendAll xs st) = None.
Proof.
  intros Hd Hk.
  assert (getHistory st = Return Opaque) as Hg.
  { unfold getHistory, getItem. rewrite Hd. simpl. rewrite Hk. reflexivity. }
  assert (forall item, saveHistoryItem item st = Return st) as Hs.
  { intros item. unfold saveHistoryItem. rewrite Hg. reflexivity. }
  assert (appendAll xs st = st) as Ha.
  { induction xs as [|x xs IH]; [reflexivity|].
    change (appendAll (x :: xs) st) with (appendAll xs (after_save x st)).
    unfold after_save. rewrite Hs. exact IH. }
  repeat split; auto.
  - unfold listed. now rewrite Hg.
  - rewrite Ha. unfold listed. now rewrite Hg.
Qed.

Lemma non_array_history_is_stuck_witness :
  (denied nullStorage = false /\
   items nullStorage !! STORAGE_KEY = Some NotIterable) /\
  appendAll [item 1; item 2] nullStorage = nullStorage.
Proof.
  assert (denied nullStorage = false) as H1 by reflexivity.
  assert (items nullStorage !! STORAGE_KEY = Some NotIterable) as H2
    by apply lookup_singleton_eq.
  split; [auto|].
  apply (non_array_history_is_stuck nullStorage [item 1; item 2] H1 H2).
Defined.

(** X17.  On a storage that can be read and written, and whose log has at
    most 20 entries, any number of saves leaves the saved items in front of
    the old log, the latest first, cut to 20: the length is the smaller of
    20 and the number of entries, and the first entries are the items
    saved last. *)
Theorem history_is_newest_first_and_capped
    (xs : list HistoryItem.t) (st : Storage) (log : list HistoryItem.t) :
  usable st ->
  listed st = Some log ->
  (length log <= 20)%nat ->
  listed (appendAll xs st) = Some (take 20 (rev xs ++ log)) /\
  length (take 20 (rev xs ++ log)) = Nat.min 20 (length xs + length log) /\
  take (length xs) (take 20 (rev xs ++ log)) = take 20 (rev xs).
Proof.
  intros Hu Hl Hlen. split; [|split].
  - destruct xs as [|x xs].
    + simpl. rewrite Hl. f_equal. symmetry. apply take_ge. exact Hlen.
    + apply (appendAll_listed (x :: xs) st log Hu Hl). discriminate.
  - rewrite length_take, length_app, length_rev. reflexivity.
  - rewrite take_take, take_app.
    rewrite length_rev.
    destruct (le_lt_dec (length xs) 20) as [H|H].
    + rewrite Nat.min_l by exact H.
      replace (length xs - length xs)%nat with 0%nat by lia.
      rewrite take_0, app_nil_r.
      rewrite !take_ge by (rewrite length_rev; lia). reflexivity.
    + rewrite Nat.min_r by lia.
      replace (20 - length xs)%nat with 0%nat by lia.
      rewrite take_0, app_nil_r. reflexivity.
Qed.

Lemma history_is_newest_first_and_capped_witness :
  (usable emptyStorage /\ listed emptyStorage = Some [] /\ (length (@nil HistoryItem.t) <= 20)%nat) /\
  listed (appendAll [item 1; item 2; item 3] emptyStorage)
  = Some (take 20 (rev [item 1; item 2; item 3] ++ [])).
Proof.
  assert (usable emptyStorage) as H1 by (split; reflexivity).
  assert (listed emptyStorage = Some []) as H2 by reflexivity.
  assert (length (@nil HistoryItem.t) <= 20)%nat as H3 by (simpl; lia).
  split; [auto|].
  apply (history_is_newest_first_and_capped [item 1; item 2; item 3] emptyStorage [] H1 H2 H3).
Defined.

End HistoryMore.

(** ** What the application shows *)

Section Views.

Import HistoryService GeminiService App Samples.

Lemma react_presentable (w : World) (e : event) :
  (step (app w) = ANALYSIS -> analysisResult (app w) <> None) ->
  step (app (react w e)) = ANALYSIS -> analysisResult (app (react w e)) <> None.
Proof.
  unfold react. intros H.
  destruct e, (step (app w)) eqn:Hs; simpl; rewrite ?Hs; try exact H;
    try discriminate; try (intros _; discriminate).
  unfold handleSessionFinish.
  destruct (analyzeSpeech _ _ _); simpl; [discriminate | intros _; discriminate].
Qed.

Lemma occur_presentable (x : Live) (o : occurrence) :
  presentable x -> presentable (occur x o).
Proof.
  unfold presentable. intros H. destruct o; simpl.
  - destruct (step (app (world x))) eqn:Hs; simpl; rewrite ?Hs; try exact H;
      discriminate.
  - destruct (effectsDue x); [|exact H]. simpl.
    unfold loadTips, startProgress.
    destruct (isAnalyzing (app (world x))) eqn:Ha; simpl; rewrite ?Ha; simpl; exact H.
  - destruct (effectsDue x); [exact H|]. simpl. unfold rotateTip.
    destruct (_ && _); simpl; exact H.
  - destruct (effectsDue x); [exact H|]. simpl. unfold progressTick.
    destruct (isAnalyzing _); simpl; exact H.
  - destruct (awaited x !! k); [|exact H]. simpl.
    destruct (analyzeSpeech _ _ _); simpl; [discriminate | intros _; discriminate].
  - destruct e; cbn [occur world]; try exact H; apply react_presentable; exact H.
Qed.

Lemma happen_presentable (os : list occurrence) :
  forall x, presentable x -> presentable (happen x os).
Proof.
  induction os as [|o os IH]; intros x H; [exact H|].
  apply IH, occur_presentable, H.
Qed.

(** With no other call awaited, and nothing in between, the two halves
    make up [handleSessionFinish] as [react] takes it. *)
Lemma Handed_then_Settled (x : Live) (audioBlob : Blob) (duration : Q)
    (response : Response) (now : Z) (iso : jsstring) :
  awaited x = [] ->
  world (happen x [Handed audioBlob duration; Settled 0 response now iso])
  = react (world x) (SessionFinish audioBlob duration response now iso).
Proof.
  intros Ha. unfold happen, react. simpl.
  destruct (step (app (world x))) eqn:Hs; simpl; rewrite ?Ha; simpl;
    reflexivity.
Qed.

(** X18.  Whatever happens to the running application, recordings handed
    over while an analysis is awaited and calls that settle in any order
    among it, one of the four views is on screen: the analysis view is
    never selected without a result to show, and what it is given is the
    result and the recording of the state.  The converse does not hold:
    when two takes overlap and the later call fails after the earlier one
    succeeded, the set-up view is on screen with a result attached. *)
Theorem some_view_is_always_shown (st : Storage) (os : list occurrence) :
  let s := app (world (happen (live st) os)) in
  view s <> NothingShown /\
  (step s = ANALYSIS -> analysisResult s <> None) /\
  (forall result blob d t l m,
      view s = AnalysisView result blob d t l m ->
      analysisResult s = Some result /\ blob = currentAudioBlob s) /\
  (let z := app (world (happen (live emptyStorage) overlap)) in
   step z = SETUP /\ analysisResult z <> None /\ view z = SetupView).
Proof.
  intros s.
  assert (presentable (happen (live st) os)) as H.
  { apply happen_presentable. unfold presentable. simpl. discriminate. }
  unfold presentable in H. fold s in H. split; [|split; [exact H|split]].
  - unfold view. destruct (step s) eqn:E; try discriminate.
    destruct (analysisResult s) eqn:Er; [discriminate|].
    now elim (H eq_refl).
  - intros result blob d t l m. unfold view.
    destruct (step s); try discriminate.
    destruct (analysisResult s); [|discriminate].
    intros [= <- <- _ _ _ _]. auto.
  - vm_compute. repeat split; discriminate.
Qed.

(** X19.  A recording whose analysis succeeds, on a storage that can be
    read and written: the analysis view shows the result with the
    recording and its duration, the overlay is off, the result carries the
    assessment and the transcript of the reply, and the history now starts
    with an item that holds this very result, its pace and score, and the
    topic and mode of the session. *)
Theorem finished_session_is_shown_and_stored
    (w : World) (audioBlob : Blob) (duration : Q) (p : Payload) (now : Z)
    (iso : jsstring) (log : list HistoryItem.t) :
  step (app w) = STAGE ->
  usable (storage w) ->
  listed (storage w) = Some log ->
  let config := sessionConfig (app w) in
  let w' := react w (SessionFinish audioBlob duration (Parsed p) now iso) in
  exists result item,
    view (app w')
    = AnalysisView result (Some audioBlob) duration (SessionConfig.topic config)
        (SessionConfig.language config) (SessionConfig.mode config) /\
    isAnalyzing (app w') = false /\
    AnalysisResult.assessment result = p_assessment p /\
    AnalysisResult.transcript result = p_transcript p /\
    listed (storage w') = Some (take 20 (item :: log)) /\
    HistoryItem.fullResult item = result /\
    HistoryItem.wpm item = AnalysisResult.wpm result /\
    HistoryItem.score item = overallScore (p_assessment p) /\
    HistoryItem.topic item = SessionConfig.topic config /\
    HistoryItem.mode item = SessionConfig.mode config /\
    HistoryItem.date item = iso.
Proof.
  intros Hs Hu Hl. cbn zeta. unfold react. rewrite Hs.
  unfold handleSessionFinish, handleSessionFinish_resume. cbn [analyzeSpeech].
  eexists _, _. cbn [app storage].
  split; [reflexivity|]. split; [reflexivity|].
  split; [reflexivity|]. split; [reflexivity|].
  split; [apply after_save_listed; assumption|].
  repeat split; reflexivity.
Qed.

Lemma finished_session_is_shown_and_stored_witness :
  (step (app onStage) = STAGE /\ usable (storage onStage) /\
   listed (storage onStage) = Some []) /\
  exists result item,
    view (app (react onStage
                 (SessionFinish take1 12 (Parsed (payload fox None)) 1714557600000
                    (u16 "2024-05-01T10:00:00.000Z"))))
    = AnalysisView result (Some take1) 12 (u16 "Leadership in crisis")
        (u16 "English") SPEECH /\
    HistoryItem.fullResult item = result /\
    HistoryItem.wpm item = AnalysisResult.wpm result.
Proof.
  assert (step (app onStage) = STAGE) as H1 by reflexivity.
  assert (usable (storage onStage)) as H2 by (split; reflexivity).
  assert (listed (storage onStage) = Some []) as H3 by reflexivity.
  split; [auto|].
  destruct (finished_session_is_shown_and_stored onStage take1 12
              (payload fox None) 1714557600000 (u16 "2024-05-01T10:00:00.000Z")
              [] H1 H2 H3)
    as (result & item & Hv & _ & _ & _ & _ & Hf & Hi & _).
  exists result, item. split; [exact Hv|]. split; [exact Hf | exact Hi].
Defined.

(** X20.  The session just stored can be reviewed from the history: after
    a restart, loading the item that heads the stored log shows the same
    result with the topic and the mode of the session, without a
    recording and with duration 0, and writes nothing.  The language is
    not kept in the item: the review runs in English, so the pace is
    labelled WPM and the coach listens for en-US whatever the language of
    the session was. *)
Theorem stored_session_is_reviewed_in_English
    (w : World) (audioBlob : Blob) (duration : Q) (p : Payload) (now : Z)
    (iso : jsstring) (log : list HistoryItem.t) :
  step (app w) = STAGE ->
  usable (storage w) ->
  listed (storage w) = Some log ->
  let config := sessionConfig (app w) in
  let w' := react w (SessionFinish audioBlob duration (Parsed p) now iso) in
  exists result item rest,
    analysisResult (app w') = Some result /\
    listed (storage w') = Some (item :: rest) /\
    let back := run w' [Restart; LoadHistory item] in
    view (app back)
    = AnalysisView result None 0 (SessionConfig.topic config) (u16 "English")
        (SessionConfig.mode config) /\
    Analysis.paceUnit (SessionConfig.language (sessionConfig (app back))) = u16 "WPM" /\
    VirtualCoach.langTag (SessionConfig.language (sessionConfig (app back)))
    = u16 "en-US" /\
    storage back = storage w'.
Proof.
  intros Hs Hu Hl. cbn zeta. unfold react. rewrite Hs.
  unfold handleSessionFinish, handleSessionFinish_resume. cbn [analyzeSpeech].
  eexists _, _, _. cbn [app storage].
  split; [reflexivity|].
  split.
  - match goal with |- listed (after_save ?it _) = _ =>
      destruct (after_save_listed it (storage w) log Hu Hl) as [_ ->] end.
    cbn [take]. reflexivity.
  - cbn zeta. split; [reflexivity|]. split; [vm_compute; reflexivity|].
    split; [vm_compute; reflexivity|reflexivity].
Qed.

Lemma stored_session_is_reviewed_in_English_witness :
  (step (app onStage) = STAGE /\ usable (storage onStage) /\
   listed (storage onStage) = Some []) /\
  exists result item rest,
    listed (storage (react onStage
                       (SessionFinish take1 12 (Parsed (payload fox None))
                          1714557600000 (u16 "2024-05-01T10:00:00.000Z"))))
    = Some (item :: rest) /\
    view (app (run (react onStage
                      (SessionFinish take1 12 (Parsed (payload fox None))
                         1714557600000 (u16 "2024-05-01T10:00:00.000Z")))
                 [Restart; LoadHistory item]))
    = AnalysisView result None 0 (u16 "Leadership in crisis") (u16 "English") SPEECH.
Proof.
  assert (step (app onStage) = STAGE) as H1 by reflexivity.
  assert (usable (storage onStage)) as H2 by (split; reflexivity).
  assert (listed (storage onStage) = Some []) as H3 by reflexivity.
  split; [auto|].
  destruct (stored_session_is_reviewed_in_English onStage take1 12
              (payload fox None) 1714557600000 (u16 "2024-05-01T10:00:00.000Z")
              [] H1 H2 H3)
    as (result & item & rest & _ & Hl & Hv & _).
  exists result, item, rest. split; [exact Hl | exact Hv].
Defined.

Lemma progress_binary64_held (n : nat) :
  (447 <= n)%nat -> progress_binary64 n = 99%float.
Proof.
  induction 1 as [|n Hn IH].
  - vm_compute. reflexivity.
  - unfold progress_binary64 in *. rewrite Nat.iter_succ, IH. vm_compute. reflexivity.
Qed.

Lemma overlay_checked : forallb overlay_ok (seq 0 448) = true.
Proof. vm_compute. reflexivity. Qed.

Lemma overlay_ok_always (n : nat) : overlay_ok n = true.
Proof.
  destruct (le_lt_dec 448 n) as [H|H].
  - unfold overlay_ok. rewrite !progress_binary64_held by lia.
    replace (n <? 440)%nat with false by (symmetry; apply Nat.ltb_ge; lia).
    vm_compute. reflexivity.
  - pose proof overlay_checked as K. rewrite forallb_forall in K.
    apply K. apply in_seq. lia.
Qed.

(** X21.  The two numbers under the progress bar, computed in binary64
    as the browser does, at every firing of the 100 ms interval for as long
    as the analysis runs: the percentage starts at 0, never goes down and
    never exceeds 99; the estimate of the seconds remaining starts at 45,
    never goes up, never falls below 1, and is 1 from the 440th firing on;
    from the 447th firing on the progress is 99. *)
Theorem overlay_numbers_binary64 (n : nat) :
  let p := progress_binary64 n in
  let p' := progress_binary64 (S n) in
  progress_binary64 0 = 0%float /\
  shownPercent_binary64 (progress_binary64 0) = 0 /\
  estimatedRemaining_binary64 (progress_binary64 0) = 45 /\
  0 <= shownPercent_binary64 p <= shownPercent_binary64 p' /\
  shownPercent_binary64 p' <= 99 /\
  1 <= estimatedRemaining_binary64 p' <= estimatedRemaining_binary64 p /\
  estimatedRemaining_binary64 p <= 45 /\
  ((440 <= n)%nat -> estimatedRemaining_binary64 p = 1) /\
  ((447 <= n)%nat -> p = 99%float /\ shownPercent_binary64 p = 99).
Proof.
  cbn zeta. pose proof (overlay_ok_always n) as H. unfold overlay_ok in H.
  cbn zeta in H. rewrite !andb_true_iff, orb_true_iff in H.
  destruct H as ((((((H1 & H2) & H3) & H4) & H5) & H6) & H7).
  apply Z.leb_le in H1, H2, H3, H4, H5, H6.
  split; [reflexivity|]. split; [vm_compute; reflexivity|].
  split; [vm_compute; reflexivity|].
  split; [lia|]. split; [lia|]. split; [lia|]. split; [lia|]. split.
  - intros Hn. destruct H7 as [H7|H7].
    + apply Nat.ltb_lt in H7. lia.
    + now apply Z.eqb_eq in H7.
  - intros Hn. rewrite progress_binary64_held by exact Hn.
    split; [reflexivity|vm_compute; reflexivity].
Qed.

Lemma overlay_numbers_binary64_witness :
  (440 <= 445)%nat /\ estimatedRemaining_binary64 (progress_binary64 445) = 1.
Proof.
  assert (440 <= 445)%nat as H by lia.
  split; [exact H|].
  apply (overlay_numbers_binary64 445). exact H.
Defined.

End Views.

(** ** The onboarding view *)

Section OnboardingProofs.

Import Onboarding Samples.

Lemma toggleInterest_selected (x : jsstring) (s : State) :
  x ∈ selectedInterests s ->
  selectedInterests (toggleInterest x s)
  = filter (fun i => i <> x) (selectedInterests s).
Proof. intros H. unfold toggleInterest. now rewrite bool_decide_eq_true_2. Qed.

Lemma toggleInterest_unselected (x : jsstring) (s : State) :
  x ∉ selectedInterests s ->
  selectedInterests (toggleInterest x s) = selectedInterests s ++ [x].
Proof. intros H. unfold toggleInterest. now rewrite bool_decide_eq_false_2. Qed.

Lemma toggleInterest_member (x i : jsstring) (s : State) :
  bool_decide (i ∈ selectedInterests (toggleInterest x s))
  = xorb (bool_decide (i ∈ selectedInterests s)) (bool_decide (x = i)).
Proof.
  destruct (decide (x ∈ selectedInterests s)) as [Hx|Hx].
  - rewrite toggleInterest_selected by exact Hx.
    destruct (decide (x = i)) as [->|Hne].
    + rewrite (bool_decide_eq_true_2 (i = i)) by reflexivity.
      rewrite (bool_decide_eq_true_2 _ Hx). simpl.
      apply bool_decide_eq_false_2. rewrite list_elem_of_filter. tauto.
    + rewrite (bool_decide_eq_false_2 (x = i)) by exact Hne.
      rewrite xorb_false_r. apply bool_decide_ext.
      rewrite list_elem_of_filter. split; [tauto|]. intros H. split; congruence.
  - rewrite toggleInterest_unselected by exact Hx.
    destruct (decide (x = i)) as [->|Hne].
    + rewrite (bool_decide_eq_true_2 (i = i)) by reflexivity.
      rewrite (bool_decide_eq_false_2 _ Hx). simpl.
      apply bool_decide_eq_true_2.
      rewrite elem_of_app, list_elem_of_singleton. now right.
    + rewrite (bool_decide_eq_false_2 (x = i)) by exact Hne.
      rewrite xorb_false_r. apply bool_decide_ext.
      rewrite elem_of_app, list_elem_of_singleton.
      split; [intros [H|H]; [exact H|congruence] | now left].
Qed.

Lemma toggleInterest_NoDup (x : jsstring) (s : State) :
  NoDup (selectedInterests s) -> NoDup (selectedInterests (toggleInterest x s)).
Proof.
  intros H. destruct (decide (x ∈ selectedInterests s)) as [Hx|Hx].
  - rewrite toggleInterest_selected by exact Hx. now apply NoDup_filter.
  - rewrite toggleInterest_unselected by exact Hx.
    apply NoDup_app. split; [exact H|]. split; [|apply NoDup_singleton].
    intros y Hy Hy'. apply list_elem_of_singleton in Hy'. congruence.
Qed.

Lemma run_member (es : list event) :
  forall (s : State) (i : jsstring),
    bool_decide (i ∈ selectedInterests (run s es))
    = xorb (bool_decide (i ∈ selectedInterests s)) (Nat.odd (clicks i es)).
Proof.
  induction es as [|e es IH]; intros s i.
  - simpl. now rewrite xorb_false_r.
  - cbn [run fold_left]. fold (run (step s e) es). rewrite IH.
    destruct e as [x|m]; cbn [step].
    + rewrite toggleInterest_member. unfold clicks. cbn [List.filter].
      destruct (bool_decide (x = i)); cbn [length].
      * rewrite Nat.odd_succ, <- Nat.negb_odd.
        destruct (bool_decide _), (Nat.odd _); reflexivity.
      * now rewrite xorb_false_r.
    + reflexivity.
Qed.

Lemma run_NoDup (es : list event) :
  forall s, NoDup (selectedInterests s) -> NoDup (selectedInterests (run s es)).
Proof.
  induction es as [|e es IH]; intros s H; [exact H|].
  apply IH. destruct e; [now apply toggleInterest_NoDup | exact H].
Qed.

Lemma run_mode (es : list event) :
  forall s acc,
    selectedMode s = default SPEECH acc ->
    selectedMode (run s es)
    = default SPEECH
        (fold_left (fun acc e => match e with ClickMode m => Some m | _ => acc end) es acc).
Proof.
  induction es as [|e es IH]; intros s acc H; [exact H|].
  cbn [run fold_left]. apply IH. destruct e as [x|m]; simpl; [|reflexivity].
  unfold toggleInterest. destruct (bool_decide _); exact H.
Qed.

(** X22.  After any clicks on the onboarding view no interest is selected
    twice, an interest is selected exactly when its chip was clicked an odd
    number of times, and the mode is the one of the card clicked last
    (speech practice if none was).  What is handed on never has an empty
    list of topics: the selection, or the single topic General; and the
    application then is on the set-up view with these preferences and with
    the selected mode in its session configuration. *)
Theorem onboarding_selection (es : list event) :
  let s := run initial es in
  NoDup (selectedInterests s) /\
  (forall i, i ∈ selectedInterests s <-> Nat.odd (clicks i es) = true) /\
  selectedMode s = default SPEECH (lastMode es) /\
  topics (handleNext s) <> [] /\
  (selectedInterests s <> [] -> topics (handleNext s) = selectedInterests s) /\
  (selectedInterests s = [] -> topics (handleNext s) = [u16 "General"]) /\
  (forall a : App.State,
      App.step a = ONBOARDING ->
      let a' := App.handleOnboardingComplete (handleNext s) a in
      App.step a' = SETUP /\
      topics (App.userPrefs a') <> [] /\
      SessionConfig.mode (App.sessionConfig a') = default SPEECH (lastMode es)).
Proof.
  intros s.
  assert (selectedMode s = default SPEECH (lastMode es)) as Hm.
  { apply (run_mode es initial None). reflexivity. }
  assert (topics (handleNext s) <> []) as Ht.
  { unfold handleNext. simpl. destruct (selectedInterests s); simpl; discriminate. }
  split; [apply run_NoDup; constructor|].
  split.
  { intros i. pose proof (run_member es initial i) as H. fold s in H.
    simpl in H. rewrite <- H. symmetry. apply bool_decide_eq_true. }
  split; [exact Hm|]. split; [exact Ht|].
  split; [|split].
  - intros H. unfold handleNext. simpl. destruct (selectedInterests s); [now elim H|reflexivity].
  - intros H. unfold handleNext. simpl. now rewrite H.
  - intros a Ha. cbn zeta. split; [reflexivity|]. split; [exact Ht|].
    simpl. exact Hm.
Qed.

Lemma onboarding_selection_witness :
  selectedInterests (run initial chosen) <> [] /\
  topics (handleNext (run initial chosen)) = selectedInterests (run initial chosen) /\
  selectedInterests (run initial chosen) = [u16 "Humor"] /\
  selectedMode (run initial chosen) = DEBATE.
Proof.
  assert (selectedInterests (run initial chosen) = [u16 "Humor"]) as E
    by (vm_compute; reflexivity).
  assert (selectedInterests (run initial chosen) <> []) as H
    by (rewrite E; discriminate).
  split; [exact H|]. split; [|split; [exact E|]].
  - apply (onboarding_selection chosen). exact H.
  - vm_compute. reflexivity.
Defined.

End OnboardingProofs.

(** ** The set-up view *)

Section SetupProofs.

Import GeminiService SessionSetup Samples.

Lemma initial_settled : settled initial.
Proof.
  constructor.
  - left. reflexivity.
  - discriminate.
  - vm_compute. discriminate.
  - unfold DURATIONS. simpl. rewrite !elem_of_cons. tauto.
  - unfold PREP_TIMES. simpl. rewrite !elem_of_cons. tauto.
  - unfold LANGUAGES. simpl. rewrite !elem_of_cons. tauto.
Qed.

Lemma fetchTopic_settled (s : State) : settled s -> settled (fetchTopic s).
Proof.
  intros H. unfold fetchTopic.
  destruct (isCustomTopic s) eqn:E; [exact H|].
  destruct H as [H1 H2 H3 H4 H5 H6].
  constructor; simpl; auto. discriminate.
Qed.

Lemma topicEffect_settled (s : State) : settled s -> settled (topicEffect s).
Proof.
  intros H. unfold topicEffect. destruct (_ =? _); [now apply fetchTopic_settled|exact H].
Qed.

Lemma handleRegenerateTips_settled (s : State) :
  settled s -> settled (handleRegenerateTips s).
Proof.
  intros H. unfold handleRegenerateTips.
  destruct (negb _); [exact H|].
  destruct H as [H1 H2 H3 H4 H5 H6]. constructor; simpl; auto.
Qed.

Lemma handleGenerateMindmap_settled (s : State) :
  settled s -> settled (handleGenerateMindmap s).
Proof.
  intros H. unfold handleGenerateMindmap.
  destruct (negb _); [exact H|].
  assert (settled (setShowMindmap true s)) as K
    by (destruct H as [H1 H2 H3 H4 H5 H6]; constructor; simpl; auto).
  destruct (outline s); [exact K|]. now apply handleRegenerateTips_settled.
Qed.

Lemma step_settled (prefs : UserPreferences) (s : State) (e : event) :
  settled s -> settled (step prefs s e).
Proof.
  intros H. pose proof H as [H1 H2 H3 H4 H5 H6].
  assert (forall s', settled s' -> settled (topicEffect s')) as K
    by exact topicEffect_settled.
  destruct e; simpl;
    repeat match goal with
           | |- settled (if ?b then _ else _) => destruct b eqn:?; [|exact H]
           end;
    rewrite ?andb_true_iff in *;
    repeat match goal with
           | Hc : _ /\ _ |- _ => destruct Hc
           | Hc : bool_decide _ = true |- _ => apply bool_decide_eq_true in Hc
           | Hc : (_ =? _) = true |- _ => apply Z.eqb_eq in Hc
           | Hc : negb _ = true |- _ => apply negb_true_iff in Hc
           end.
  - apply K. constructor; simpl; auto.
  - apply K. constructor; simpl; auto.
  - unfold topicEffect, fetchTopic. simpl.
    destruct (isCustomTopic s) eqn:Ec; constructor; simpl; auto; try discriminate.
    intros _ Hc. congruence.
  - apply K. constructor; simpl; auto; intros; lia.
  - constructor; simpl; auto.
  - constructor; simpl; auto.
  - unfold topicEffect, fetchTopic. simpl.
    replace (setupStep s =? 2) with true by (symmetry; now apply Z.eqb_eq).
    constructor; simpl; auto; discriminate.
  - unfold topicEffect, fetchTopic. simpl.
    replace (setupStep s =? 2) with true by (symmetry; now apply Z.eqb_eq).
    constructor; simpl; auto; discriminate.
  - constructor; simpl; auto.
  - apply K. constructor; simpl; auto.
  - now apply fetchTopic_settled.
  - unfold fetchTopic_resume. destruct (pending s !! k); [|exact H].
    constructor; simpl; auto; [eauto | apply generateTopic_solid].
  - now apply handleGenerateMindmap_settled.
  - now apply handleRegenerateTips_settled.
  - constructor; simpl; auto.
  - unfold tips_resume. destruct (pendingOutlines s !! k); [|exact H].
    constructor; simpl; auto.
Qed.

Lemma run_settled (prefs : UserPreferences) (es : list event) :
  forall s, settled s -> settled (run prefs s es).
Proof.
  induction es as [|e es IH]; intros s H; [exact H|].
  apply IH, step_settled, H.
Qed.

(** X23.  Whatever was done on the set-up view, and whichever calls of
    [generateTopic] have settled or not, a click on the start button that
    is not disabled hands over a session whose topic is not blank: the
    text the user typed, or what some call of [generateTopic] resolved
    with.  Its duration and
    preparation time are among the values offered, so the duration is
    positive, its language is one of the six, its mode is the one chosen at
    onboarding; the stage mounted with it starts with the full duration on
    the clock, in preparation exactly when a preparation time was
    chosen. *)
Theorem started_session_is_well_formed
    (prefs : UserPreferences) (es : list event) (config : SessionConfig.t) :
  let s := run prefs initial es in
  start prefs s = Some config ->
  trim (SessionConfig.topic config) <> [] /\
  (if isCustomTopic s then SessionConfig.topic config = customTopic s
   else exists asked reply, SessionConfig.topic config = generateTopic asked reply) /\
  SessionConfig.durationSeconds config ∈ DURATIONS /\
  0 < SessionConfig.durationSeconds config /\
  SessionConfig.prepTimeSeconds config ∈ PREP_TIMES /\
  0 <= SessionConfig.prepTimeSeconds config /\
  SessionConfig.language config ∈ LANGUAGES /\
  SessionConfig.mode config = preferredMode prefs /\
  (forall supported,
      let i := Stage.mount config supported in
      Stage.timeLeft (Stage.state i) = duration s /\
      Stage.isPrep (Stage.state i) = negb (prepTime s =? 0)).
Proof.
  intros s. pose proof (run_settled prefs es initial initial_settled) as H.
  fold s in H. destruct H as [H1 H2 H3 H4 H5 H6].
  unfold start, canStart.
  destruct (setupStep s =? 2) eqn:E2; [|discriminate]. apply Z.eqb_eq in E2.
  destruct (loading s) eqn:El; [discriminate|]. cbn [orb andb].
  assert (0 < duration s) as Hd.
  { revert H4. unfold DURATIONS. rewrite !elem_of_cons.
    intros [->|[->|[->|[->|Hn]]]]; try lia. now apply not_elem_of_nil in Hn. }
  assert (0 <= prepTime s) as Hp.
  { revert H5. unfold PREP_TIMES. rewrite !elem_of_cons.
    intros [->|[->|[->|[->|[->|Hn]]]]]; try lia. now apply not_elem_of_nil in Hn. }
  assert (Stage.isPrep (Stage.state (Stage.mount (handleStart prefs s) (fun _ => true)))
          = negb (prepTime s =? 0)) as Hprep.
  { simpl. destruct (prepTime s =? 0) eqn:E0.
    - apply Z.eqb_eq in E0. rewrite E0. reflexivity.
    - apply Z.eqb_neq in E0. simpl. apply Z.ltb_lt. lia. }
  destruct (isCustomTopic s) eqn:Ec; cbn [andb negb].
  - destruct (truthy (trim (customTopic s))) eqn:Et; [|discriminate].
    intros [= <-]. unfold handleStart. rewrite Ec. simpl.
    repeat split; auto.
    destruct (trim (customTopic s)); discriminate.
  - intros [= <-]. unfold handleStart. rewrite Ec. simpl.
    repeat split; auto.
Qed.

Lemma started_session_is_well_formed_witness :
  start speaker (run speaker initial topicReady)
  = Some (handleStart speaker (run speaker initial topicReady)) /\
  SessionConfig.topic (handleStart speaker (run speaker initial topicReady))
  = u16 "Describe your first day at work." /\
  0 < SessionConfig.durationSeconds (handleStart speaker (run speaker initial topicReady)).
Proof.
  assert (start speaker (run speaker initial topicReady)
          = Some (handleStart speaker (run speaker initial topicReady))) as H
    by (vm_compute; reflexivity).
  split; [exact H|]. split; [vm_compute; reflexivity|].
  apply (started_session_is_well_formed speaker topicReady _ H).
Defined.

Lemma step_cached prefs o s e :
  e <> ClickRegenerate -> e <> ChooseGenerated ->
  cached o s -> cached o (step prefs s e).
Proof.
  intros Hr Hg [H1 H2 H3 H4].
  destruct e; try congruence; simpl;
    unfold topicEffect, fetchTopic, fetchTopic_resume, handleGenerateMindmap,
      tips_resume; simpl; rewrite ?H1, ?H2, ?H4; simpl;
    repeat match goal with
           | |- cached _ (if ?b then _ else _) => destruct b
           | |- cached _ (match ?x with _ => _ end) => destruct x
           end;
    constructor; simpl; auto; try discriminate.
Qed.

Lemma run_cached prefs o es :
  forall s, ClickRegenerate ∉ es -> ChooseGenerated ∉ es ->
  cached o s -> cached o (run prefs s es).
Proof.
  induction es as [|e es IH]; intros s Hr Hg Hs; [exact Hs|].
  simpl. apply IH.
  - intros Hin. apply Hr. now apply list_elem_of_further.
  - intros Hin. apply Hg. now apply list_elem_of_further.
  - apply step_cached; [| |exact Hs].
    + intros ->. apply Hr. apply list_elem_of_here.
    + intros ->. apply Hg. apply list_elem_of_here.
Qed.

(** X26.  The tips do not follow a topic that is typed.  Once an outline
    is there, no call of [generateTopicOutline] is awaited and the user
    writes a topic of their own, then whatever they do short of the
    regenerate button and of going back to a generated topic, and whatever
    they type, the outline stays the one it was: the overlay never shows
    another, the button for tips asks for nothing, and where it is enabled
    it brings up that outline again. *)
Theorem typed_topic_keeps_the_old_tips
    (prefs : UserPreferences) (s : State) (o : TopicOutline) (es : list event) :
  isCustomTopic s = true ->
  outline s = Some o ->
  loadingOutline s = false ->
  pendingOutlines s = [] ->
  ClickRegenerate ∉ es ->
  ChooseGenerated ∉ es ->
  let s' := run prefs s es in
  outline s' = Some o /\
  pendingOutlines (step prefs s' ClickTips) = [] /\
  (forall shown, tips s' = Some shown -> shown = TipsOf o) /\
  (forall shown, tips (step prefs s' ClickTips) = Some shown -> shown = TipsOf o) /\
  (setupStep s' = 2 -> loading s' = false -> customTopic s' <> [] ->
   tips (step prefs s' ClickTips) = Some (TipsOf o)).
Proof.
  intros H1 H2 H3 H4 Hr Hg s'.
  assert (cached o s') as Hs by (apply run_cached; [| |constructor]; assumption).
  clearbody s'.
  assert (cached o (step prefs s' ClickTips)) as Hc
    by (apply step_cached; [discriminate|discriminate|exact Hs]).
  assert (forall t shown, cached o t -> tips t = Some shown -> shown = TipsOf o) as K.
  { intros t shown [K1 K2 K3 K4]. unfold tips. rewrite K2, K3.
    destruct (_ && _); congruence. }
  destruct Hs as [K1 K2 K3 K4].
  split; [exact K2|]. split; [apply Hc|].
  split; [intros shown; apply K; constructor; assumption|].
  split; [intros shown; apply K; exact Hc|].
  intros E2 El Ht. simpl. unfold handleGenerateMindmap, currentTopic, tips.
  rewrite E2, El, K1, K2.
  destruct (customTopic s') eqn:Ec; [congruence|]. simpl.
  rewrite ?E2, ?K3, ?K2. reflexivity.
Qed.

Lemma typed_topic_keeps_the_old_tips_witness :
  let s := run speaker initial tipsTaken in
  let s' := run speaker s ownTopic in
  currentTopic s' = u16 "My garden" /\
  tips s' =
  Some (TipsOf {| centralIdea := u16 "Describe your first day at work.";
                  points := List.map u16 ["Key Point 1"; "Key Point 2"; "Key Point 3"]%string |}).
Proof.
  intros s s'. split; [vm_compute; reflexivity|].
  assert (ClickRegenerate ∉ [TypeCustomTopic (u16 "My garden")]) as Hr
    by (intros Hin; apply list_elem_of_singleton in Hin; discriminate).
  assert (ChooseGenerated ∉ [TypeCustomTopic (u16 "My garden")]) as Hg
    by (intros Hin; apply list_elem_of_singleton in Hin; discriminate).
  apply (typed_topic_keeps_the_old_tips speaker s
           (generateTopicOutline (u16 "Describe your first day at work.") OutlineNoText)
           [TypeCustomTopic (u16 "My garden")]
           eq_refl eq_refl eq_refl eq_refl Hr Hg);
    vm_compute; [reflexivity|reflexivity|discriminate].
Defined.

End SetupProofs.

(** ** The audio player of the analysis view *)

Section PlayerProofs.

Import Analysis.

Lemma toggleSpeed_cycle (k : nat) :
  (k < 4)%nat ->
  toggleSpeed {| speed := nth k speeds 0%Q; playbackRate := Some (nth k speeds 0%Q) |}
  = {| speed := nth (S k mod 4) speeds 0%Q;
       playbackRate := Some (nth (S k mod 4) speeds 0%Q) |}.
Proof.
  intros H. destruct k as [|[|[|[|k]]]]; try lia; vm_compute; reflexivity.
Qed.

(** X24.  The speed button takes the player through 1, 1.25, 1.5, 2 and
    back to 1: after [n] presses the speed shown is the entry [n mod 4] of
    the list, the playback rate of the audio element is the speed shown,
    and four more presses change nothing. *)
Theorem speed_button_cycles (n : nat) :
  let p := Nat.iter n toggleSpeed mounted in
  speed p = nth (n mod 4) speeds 0%Q /\
  playbackRate p = Some (speed p) /\
  In (speed p) speeds /\
  Nat.iter 4 toggleSpeed p = p.
Proof.
  cbn zeta.
  assert (Nat.iter n toggleSpeed mounted
          = {| speed := nth (n mod 4) speeds 0%Q;
               playbackRate := Some (nth (n mod 4) speeds 0%Q) |}) as E.
  { induction n as [|n IH]; [reflexivity|].
    rewrite Nat.iter_succ, IH, toggleSpeed_cycle by (apply Nat.mod_upper_bound; lia).
    replace (S (n mod 4) mod 4)%nat with (S n mod 4)%nat; [reflexivity|].
    change (S n) with (1 + n)%nat. rewrite <- Nat.Div0.add_mod_idemp_r.
    reflexivity. }
  rewrite E. cbn [speed playbackRate].
  assert (n mod 4 < 4)%nat as Hlt by (apply Nat.mod_upper_bound; lia).
  split; [reflexivity|]. split; [reflexivity|]. split.
  - apply nth_In. simpl. exact Hlt.
  - destruct (n mod 4)%nat as [|[|[|[|k]]]]; try lia; vm_compute; reflexivity.
Qed.

End PlayerProofs.

(** ** The conversation with the coach *)

Section CoachProofs.
Import GeminiService VirtualCoach.

Lemma orElse_solid a b : b <> [] -> orElse a b <> [].
Proof.
  intros Hb. unfold orElse. destruct a as [[|c t]|]; simpl; congruence.
Qed.

Lemma alternate_snoc l m :
  alternate l ->
  (forall p, last l = Some p -> role p <> role m) ->
  alternate (l ++ [m]).
Proof.
  induction l as [|a [|b l] IH]; simpl; intros Hl Hp.
  - exact I.
  - split; [apply Hp; reflexivity | exact I].
  - destruct Hl as [Hab Hl]. split; [exact Hab|].
    apply IH; [exact Hl|]. intros p Hlast. apply Hp. exact Hlast.
Qed.

Lemma mounted_conversing : conversing mounted.
Proof.
  constructor; simpl.
  - lia.
  - split; congruence.
  - reflexivity.
  - exact I.
  - split; [discriminate | intros (m & Hm & _); discriminate].
  - intros m Hm. apply not_elem_of_nil in Hm. contradiction.
  - intros m Hm. apply not_elem_of_nil in Hm. contradiction.
Qed.

Lemma last_snoc_msg (l : list Message) m : last (l ++ [m]) = Some m.
Proof. apply last_snoc. Qed.

Lemma setInput_conversing v s : conversing s -> conversing (setInput v s).
Proof. intros [H1 H2 H3 H4 H5 H6 H7]. constructor; assumption. Qed.

Lemma handleSend_conversing manualText s :
  conversing s -> conversing (handleSend manualText s).
Proof.
  intros Hs. unfold handleSend.
  destruct (truthy (trim (orElse manualText (input s)))) eqn:Ht; simpl;
    [|exact Hs].
  destruct (isLoading s) eqn:Hl; simpl; [exact Hs|].
  destruct Hs as [H1 H2 H3 H4 H5 H6 H7].
  assert (awaited s = []) as Ha.
  { destruct (awaited s) as [|c l]; [reflexivity|].
    assert (isLoading s = true) as Ht' by (apply H2; discriminate).
    congruence. }
  constructor; simpl; rewrite ?Ha; simpl.
  - lia.
  - split; congruence.
  - discriminate.
  - apply alternate_snoc; [exact H4|].
    intros p Hp. simpl. destruct (role p) eqn:Hr; [|discriminate].
    assert (awaited s = [Send]) as Hc by (apply H5; eauto).
    rewrite Ha in Hc. discriminate.
  - split; [|reflexivity]. intros _. eexists. rewrite last_snoc_msg.
    split; reflexivity.
  - intros m Hm Hr. apply elem_of_app in Hm. destruct Hm as [Hm|Hm].
    + apply H6; assumption.
    + apply list_elem_of_singleton in Hm. subst m. simpl.
      destruct (trim (orElse manualText (input s))); [discriminate|congruence].
  - intros m Hm Hr. apply elem_of_app in Hm. destruct Hm as [Hm|Hm].
    + apply H7; assumption.
    + apply list_elem_of_singleton in Hm. subst m. discriminate.
Qed.

Lemma resume_conversing k reply s : conversing s -> conversing (resume k reply s).
Proof.
  intros Hs. unfold resume.
  destruct (awaited s !! k) as [c|] eqn:Hk; [|exact Hs].
  destruct Hs as [H1 H2 H3 H4 H5 H6 H7].
  assert (awaited s = [c] /\ k = 0%nat) as [Ha ->].
  { destruct (awaited s) as [|c0 [|c1 l]]; simpl in *; [discriminate| |lia].
    destruct k; simpl in Hk; [split; congruence|discriminate]. }
  rewrite Ha in *. simpl.
  destruct c.
  - specialize (H3 eq_refl).
    constructor; simpl; rewrite ?H3.
    + lia.
    + split; [discriminate|congruence].
    + discriminate.
    + destruct reply; exact I.
    + split; [discriminate|]. intros (m & Hm & Hr).
      destruct reply; simpl in Hm; [discriminate|].
      injection Hm as <-. discriminate.
    + intros m Hm Hr. destruct reply.
      * apply not_elem_of_nil in Hm. contradiction.
      * apply list_elem_of_singleton in Hm. subst m. discriminate.
    + intros m Hm Hr. destruct reply.
      * apply not_elem_of_nil in Hm. contradiction.
      * apply list_elem_of_singleton in Hm. subst m. simpl.
        apply orElse_solid. discriminate.
  - destruct (proj1 H5 eq_refl) as (p & Hp & Hr).
    constructor; simpl.
    + lia.
    + split; [discriminate|congruence].
    + discriminate.
    + apply alternate_snoc; [exact H4|].
      intros q Hq. rewrite Hp in Hq. injection Hq as <-. rewrite Hr. discriminate.
    + split; [discriminate|]. intros (m & Hm & Hrm).
      rewrite last_snoc_msg in Hm. injection Hm as <-. discriminate.
    + intros m Hm Hrm. apply elem_of_app in Hm. destruct Hm as [Hm|Hm].
      * apply H6; assumption.
      * apply list_elem_of_singleton in Hm. subst m. discriminate.
    + intros m Hm Hrm. apply elem_of_app in Hm. destruct Hm as [Hm|Hm].
      * apply H7; assumption.
      * apply list_elem_of_singleton in Hm. subst m. simpl.
        destruct reply; [discriminate|]. apply orElse_solid. discriminate.
Qed.

Lemma step_conversing s e : conversing s -> conversing (step s e).
Proof.
  intros Hs. destruct e; simpl.
  - apply setInput_conversing, Hs.
  - apply setInput_conversing, Hs.
  - apply handleSend_conversing, Hs.
  - destruct (isLoading s || negb (truthy (trim (input s)))); [exact Hs|].
    apply handleSend_conversing, Hs.
  - destruct (length (messages s) <? 3)%nat; [|exact Hs].
    destruct (suggestions !! i); [|exact Hs].
    apply handleSend_conversing, Hs.
  - apply resume_conversing, Hs.
Qed.

Lemma run_conversing es : forall s, conversing s -> conversing (run s es).
Proof.
  induction es as [|e es IH]; intros s Hs; simpl; [exact Hs|].
  apply IH, step_conversing, Hs.
Qed.

(** Nothing that has been said is ever taken back. *)
Lemma step_keeps s e : conversing s -> messages s `prefix_of` messages (step s e).
Proof.
  intros Hs.
  assert (forall t, messages s `prefix_of` messages (handleSend t s)) as Hsend.
  { intros t. unfold handleSend.
    destruct (negb _ || _); simpl; [reflexivity|]. apply prefix_app_r. reflexivity. }
  destruct e; simpl; try reflexivity; try apply Hsend.
  - destruct (_ || _); [reflexivity|apply Hsend].
  - destruct (_ <? _)%nat; [|reflexivity].
    destruct (suggestions !! i); [apply Hsend|reflexivity].
  - unfold resume. destruct (awaited s !! k) as [[]|] eqn:Hk; simpl;
      try reflexivity.
    + destruct reply; [reflexivity|].
      destruct Hs as [H1 _ H3 _ _ _ _].
      assert (awaited s = [Greeting]) as Ha.
      { destruct (awaited s) as [|c0 [|c1 l]]; simpl in *; [discriminate| |lia].
        destruct k; simpl in Hk; [congruence|discriminate]. }
      rewrite (H3 Ha). apply prefix_nil.
    + apply prefix_app_r. reflexivity.
Qed.

Lemma run_snoc s es e : run s (es ++ [e]) = step (run s es) e.
Proof. unfold run. rewrite fold_left_app. reflexivity. Qed.

(** X25.  The conversation with the coach takes turns.  After anything the
    user, the speech recogniser and the network do from the moment the
    coach is mounted: at most one call of [sendMessage] is awaited, and the
    loading indicator is up exactly while one is; no two neighbouring
    messages come from the same side; the last message is the user's
    exactly while it awaits its answer; no message of the user is blank
    and no message of the coach is empty; and whatever happens next, the
    messages on screen stay, in their order: the greeting, which replaces
    the list, never arrives on top of a message. *)
Theorem coach_conversation_takes_turns (es : list event) :
  let s := run mounted es in
  (length (awaited s) <= 1)%nat /\
  (isLoading s = true <-> awaited s <> []) /\
  alternate (messages s) /\
  (awaited s = [Send] <->
   exists m, last (messages s) = Some m /\ role m = user) /\
  (forall m, m ∈ messages s ->
     match role m with
     | user => trim (text m) <> []
     | model => text m <> []
     end) /\
  (forall e, messages s `prefix_of` messages (run mounted (es ++ [e]))).
Proof.
  intros s.
  assert (conversing s) as Hs by apply run_conversing, mounted_conversing.
  destruct Hs as [H1 H2 H3 H4 H5 H6 H7].
  repeat split; try assumption; try apply H2; try apply H5.
  - intros m Hm. destruct (role m) eqn:Hr; [apply H6|apply H7]; assumption.
  - intros e. rewrite run_snoc. apply step_keeps.
    apply run_conversing, mounted_conversing.
Qed.

End CoachProofs.

(** ** The recording discipline of the stage *)

Section Discipline.

Import Stage Samples.

Ltac open_stage i :=
  destruct i as [cfg sup [ip pt tl ir rd] [mr ch sr st ar an af] [s ac rc pf nf]
                 m aq sq [sc stl mt] fin];
  simpl in *.

Lemma mount_disciplined cfg sup : disciplined (mount cfg sup).
Proof.
  constructor; simpl; try discriminate; try tauto.
  - intros H. apply Z.ltb_lt in H. exact H.
  - split; [intros H; now elim H | discriminate].
Qed.


Ltac finish_disciplined :=
  solve [ constructor; simpl in *; try case_bool_decide; simpl in *; intros; subst;
          first [ discriminate | congruence | lia
                | intuition (try discriminate; try congruence; try lia) ] ].

Lemma step_disciplined (i : Instance) (e : event) :
  wired i -> disciplined i -> disciplined (step i e).
Proof.
  intros Hw HD.
  pose proof (nothing_before_grant i Hw) as Hn.
  destruct HD as [D1 D2 D3 D4 D5 D6 D7 D8].
  open_stage i.
  destruct e; simpl.
  - (* StreamGranted *)
    destruct aq; simpl; [|finish_disciplined].
    destruct Hn as (-> & -> & -> & -> & -> & -> & -> & ->); [reflexivity|].
    assert (rc = None) as ->.
    { destruct rc; [|reflexivity]. destruct D5 as [D5 _]. discriminate D5. discriminate. }
    assert (ir = false) as ->.
    { destruct ir; [|reflexivity]. destruct D3 as [D3 _]; [reflexivity|discriminate]. }
    unfold setupStream_resume; simpl. destruct m; simpl.
    + destruct o; simpl; unfold buildAudioGraph, updateVolume; simpl; finish_disciplined.
    + unfold stopTracks; simpl. finish_disciplined.
  - destruct aq; simpl; finish_disciplined.
  - destruct pf; [|finish_disciplined]. unfold updateVolume; simpl.
    destruct an; simpl; finish_disciplined.
  - (* PrepTick *)
    destruct (m && ip && (0 <? pt)) eqn:E; [|finish_disciplined].
    apply andb_prop in E as [E E3]. apply andb_prop in E as [-> ->].
    apply Z.ltb_lt in E3.
    unfold effects, prepEffect, autoStopEffect; simpl.
    destruct (pt - 1 =? 0) eqn:E0; simpl.
    + destruct D2 as [-> ->]; [reflexivity|]. rewrite andb_false_r. simpl.
      apply Z.eqb_eq in E0. finish_disciplined.
    + apply Z.eqb_neq in E0. finish_disciplined.
  - (* RecordingTick *)
    unfold onMainStage; simpl.
    destruct (m && negb ip && ir && (0 <? tl)) eqn:E; [|finish_disciplined].
    apply andb_prop in E as [E E3]. apply andb_prop in E as [E ->].
    apply andb_prop in E as [-> E]. apply negb_true_iff in E as ->.
    apply Z.ltb_lt in E3.
    destruct D3 as [-> D3]; [reflexivity|].
    assert (mr = true) as -> by (apply D5; discriminate).
    unfold effects, prepEffect, autoStopEffect, stopRecording; simpl.
    destruct (Z.max 0 (tl - 1) =? 0) eqn:E0; simpl.
    + finish_disciplined.
    + apply Z.eqb_neq in E0. finish_disciplined.
  - (* ClickSkipPrep *)
    destruct (m && ip) eqn:E; [|finish_disciplined].
    apply andb_prop in E as [-> ->].
    destruct D2 as [-> ->]; [reflexivity|].
    unfold effects, prepEffect, autoStopEffect, skipPrep; simpl.
    rewrite andb_false_r. finish_disciplined.
  - (* ClickStart *)
    unfold onMainStage; simpl.
    destruct (m && negb ip && negb ir && rd) eqn:E; [|finish_disciplined].
    apply andb_prop in E as [E ->]. apply andb_prop in E as [E E2].
    apply andb_prop in E as [-> E]. apply negb_true_iff in E as ->.
    apply negb_true_iff in E2 as ->.
    assert (mr = true) as -> by (apply D7; reflexivity).
    unfold effects, prepEffect, autoStopEffect, startRecording, stopRecording; simpl.
    destruct rc as [[|]|]; simpl; try rewrite andb_false_r; try finish_disciplined.
    destruct started; simpl; [|rewrite andb_false_r; finish_disciplined].
    destruct (tl =? 0) eqn:E0; simpl.
    + finish_disciplined.
    + apply Z.eqb_neq in E0. finish_disciplined.
  - (* DataAvailable *)
    unfold ondataavailable.
    destruct rc as [[|]|]; try destruct sq; simpl; destruct (bytes data); simpl;
      finish_disciplined.
  - (* ClickStop *)
    unfold onMainStage; simpl.
    destruct (m && negb ip && ir) eqn:E; [|finish_disciplined].
    apply andb_prop in E as [E ->].
    apply andb_prop in E as [-> E]. apply negb_true_iff in E as ->.
    destruct D3 as [-> D3]; [reflexivity|].
    assert (mr = true) as -> by (apply D5; discriminate).
    unfold effects, prepEffect, autoStopEffect, stopRecording; simpl.
    rewrite andb_false_r. finish_disciplined.
  - (* RecorderStopped *)
    destruct sq; [|finish_disciplined].
    unfold onstop, stopTracks; simpl. destruct sr; simpl; finish_disciplined.
  - (* ClickAddTime *)
    unfold onMainStage; simpl.
    destruct (m && negb ip && ir) eqn:E; [|finish_disciplined].
    apply andb_prop in E as [E ->].
    apply andb_prop in E as [-> E]. apply negb_true_iff in E as ->.
    destruct D3 as [-> D3]; [reflexivity|].
    assert (mr = true) as -> by (apply D5; discriminate).
    unfold effects, prepEffect, autoStopEffect, stopRecording, addTime; simpl.
    destruct (tl + 15 =? 0) eqn:E0; simpl.
    + finish_disciplined.
    + apply Z.eqb_neq in E0. finish_disciplined.
  - (* Unmount *)
    destruct m; [|finish_disciplined].
    unfold cleanup, stopTracks, cancelAnimationFrame; simpl.
    destruct sr, ar, af; simpl; finish_disciplined.
Qed.

Lemma run_disciplined (es : list event) :
  forall i, wired i -> disciplined i -> disciplined (run i es).
Proof.
  induction es as [|e es IH]; intros i Hw Hd; [exact Hd|].
  simpl. apply IH; [apply step_wired, Hw | apply step_disciplined; assumption].
Qed.

Lemma reachable_disciplined cfg sup es : disciplined (run (mount cfg sup) es).
Proof. apply run_disciplined; [apply mount_wired | apply mount_disciplined]. Qed.

Ltac split_step :=
  repeat (simpl;
          match goal with
          | |- context [if ?b then _ else _] => is_var b; destruct b
          | |- context [match ?x with _ => _ end] => is_var x; destruct x
          | |- context [if ?b then _ else _] => destruct b eqn:?
          | |- context [match ?x with _ => _ end] => destruct x eqn:?
          end); simpl.

Lemma step_props (i : Instance) (e : event) :
  config (step i e) = config i /\ isTypeSupported (step i e) = isTypeSupported i.
Proof.
  destruct e; unfold step, effects, prepEffect, autoStopEffect, stopRecording,
    startRecording, skipPrep, addTime, ondataavailable, onstop, cleanup,
    setupStream_resume, buildAudioGraph, updateVolume, stopTracks, onMainStage;
    split_step; auto.
Qed.

Lemma run_props (es : list event) :
  forall i, config (run i es) = config i /\ isTypeSupported (run i es) = isTypeSupported i.
Proof.
  induction es as [|e es IH]; intros i; [auto|].
  simpl. destruct (IH (step i e)) as [-> ->]. apply step_props.
Qed.

Ltac unfold_step :=
  unfold step, effects, prepEffect, autoStopEffect, stopRecording,
    startRecording, skipPrep, addTime, ondataavailable, onstop, cleanup,
    setupStream_resume, buildAudioGraph, updateVolume, stopTracks, onMainStage,
    cancelAnimationFrame.

Lemma step_timeLeft (i : Instance) (e : event) :
  0 <= timeLeft (state i) -> 0 <= timeLeft (state (step i e)).
Proof. intros H. destruct e; unfold_step; split_step; lia. Qed.

Lemma step_prepTimeLeft (i : Instance) (e : event) :
  prepTimeLeft (state (step i e)) <= prepTimeLeft (state i).
Proof. destruct e; unfold_step; split_step; lia. Qed.

Lemma step_isPrep (i : Instance) (e : event) :
  isPrep (state i) = false -> isPrep (state (step i e)) = false.
Proof. intros H. destruct e; unfold_step; split_step; congruence. Qed.

Lemma run_isPrep (es : list event) :
  forall i, isPrep (state i) = false -> isPrep (state (run i es)) = false.
Proof.
  induction es as [|e es IH]; intros i H; [exact H|]. apply IH, step_isPrep, H.
Qed.

Lemma run_timeLeft (es : list event) :
  forall i, 0 <= timeLeft (state i) -> 0 <= timeLeft (state (run i es)).
Proof.
  induction es as [|e es IH]; intros i H; [exact H|]. apply IH, step_timeLeft, H.
Qed.

Lemma run_prepTimeLeft (es : list event) :
  forall i, prepTimeLeft (state (run i es)) <= prepTimeLeft (state i).
Proof.
  induction es as [|e es IH]; intros i; [simpl; lia|].
  simpl. etransitivity; [apply IH | apply step_prepTimeLeft].
Qed.

(** *** The renders in between *)

(** On a stage whose effects have run they have nothing left to do. *)
Lemma effects_settled (i : Instance) : disciplined i -> effects i = i.
Proof.
  intros [D1 _ D3 _ _ _ _ _]. unfold effects, prepEffect, autoStopEffect.
  destruct (isPrep (state i)) eqn:Ep; simpl.
  - specialize (D1 eq_refl).
    replace (prepTimeLeft (state i) =? 0) with false
      by (symmetry; apply Z.eqb_neq; lia).
    simpl. rewrite Ep. reflexivity.
  - rewrite Ep. simpl. destruct (isRecording (state i)) eqn:Er.
    + destruct (D3 eq_refl) as [_ Hne].
      replace (timeLeft (state i) =? 0) with false
        by (symmetry; apply Z.eqb_neq; exact Hne).
      reflexivity.
    + now rewrite andb_false_r.
Qed.

Lemma step_handle (i : Instance) (e : event) :
  wired i -> disciplined i -> step i e = effects (handle i e).
Proof.
  intros Hw Hd.
  assert (effects (step i e) = step i e) as K
    by (apply effects_settled, step_disciplined; assumption).
  pose proof (effects_settled i Hd) as Ki.
  destruct e; try (symmetry; exact K); simpl;
    match goal with
    | |- (if ?b then _ else _) = _ => destruct b; [reflexivity | symmetry; exact Ki]
    end.
Qed.


Lemma handle_props (i : Instance) (e : event) :
  config (handle i e) = config i.
Proof.
  destruct e; try apply step_props; simpl;
    unfold startRecording, stopRecording, skipPrep, addTime;
    repeat match goal with
           | |- context [if ?b then _ else _] => destruct b
           | |- context [match ?x with _ => _ end] => destruct x
           end; reflexivity.
Qed.

(** A render that shows the preparation overlay. *)
Lemma handle_prep (i : Instance) (e : event) :
  wired i -> disciplined i ->
  isPrep (state (handle i e)) = true ->
  timeLeft (state (handle i e)) = SessionConfig.durationSeconds (config i) /\
  isRecording (state (handle i e)) = false /\
  recorder (browser (handle i e)) <> Some recording /\
  stopRequested (handle i e) = false /\
  finished (handle i e) = [] /\
  0 <= prepTimeLeft (state (handle i e)) <= prepTimeLeft (state i) /\
  (prepTimeLeft (state (handle i e)) = 0 -> e = PrepTick).
Proof.
  intros Hw Hd.
  assert (forall j, disciplined j -> isPrep (state j) = true ->
            timeLeft (state j) = SessionConfig.durationSeconds (config j) /\
            isRecording (state j) = false /\
            recorder (browser j) <> Some recording /\
            stopRequested j = false /\ finished j = [] /\
            0 < prepTimeLeft (state j)) as K.
  { intros j Dj Hp. destruct (prep_freezes j Dj Hp) as [Ht Hr].
    destruct (prep_quiet j Dj Hp) as [Hs Hf].
    repeat split; auto.
    - intros Hrec. apply (recorder_shown j Dj) in Hrec. congruence.
    - apply (prep_pending j Dj Hp). }
  assert (forall j, disciplined j -> config j = config i ->
            prepTimeLeft (state j) <= prepTimeLeft (state i) ->
            isPrep (state j) = true ->
            timeLeft (state j) = SessionConfig.durationSeconds (config i) /\
            isRecording (state j) = false /\
            recorder (browser j) <> Some recording /\
            stopRequested j = false /\ finished j = [] /\
            0 <= prepTimeLeft (state j) <= prepTimeLeft (state i) /\
            (prepTimeLeft (state j) = 0 -> e = PrepTick)) as K'.
  { intros j Dj Hc Hle Hp. destruct (K j Dj Hp) as (H1 & H2 & H3 & H4 & H5 & H6).
    rewrite Hc in H1. repeat split; auto; lia. }
  assert (disciplined (step i e)) as Ds by (apply step_disciplined; assumption).
  pose proof (proj1 (step_props i e)) as Hcs.
  pose proof (step_prepTimeLeft i e) as Hps.
  assert (prepTimeLeft (state i) <= prepTimeLeft (state i)) as Hrefl by lia.
  destruct e; try (apply (K' _ Ds Hcs Hps)); simpl.
  - (* PrepTick *)
    destruct (isMounted i && isPrep (state i) && (0 <? prepTimeLeft (state i))) eqn:E;
      [|apply (K' i Hd eq_refl Hrefl)].
    apply andb_prop in E as [E E3]. apply andb_prop in E as [_ Ep].
    apply Z.ltb_lt in E3. intros _.
    destruct (K i Hd Ep) as (H1 & H2 & H3 & H4 & H5 & H6).
    simpl. repeat split; auto; lia.
  - (* RecordingTick *)
    destruct (onMainStage i && isRecording (state i) && (0 <? timeLeft (state i))) eqn:E;
      [|apply (K' i Hd eq_refl Hrefl)].
    apply andb_prop in E as [E _]. apply andb_prop in E as [E _].
    unfold onMainStage in E. apply andb_prop in E as [_ E].
    apply negb_true_iff in E. simpl. congruence.
  - (* ClickSkipPrep *)
    destruct (isMounted i && isPrep (state i)); [|apply (K' i Hd eq_refl Hrefl)].
    simpl. discriminate.
  - (* ClickStart *)
    destruct (onMainStage i && negb (isRecording (state i)) && isReady (state i)) eqn:E;
      [|apply (K' i Hd eq_refl Hrefl)].
    apply andb_prop in E as [E _]. apply andb_prop in E as [E _].
    unfold onMainStage in E. apply andb_prop in E as [_ E].
    apply negb_true_iff in E. unfold startRecording.
    destruct (mediaRecorderRef (refs i)), (recorder (browser i)) as [[|]|];
      try destruct started; simpl; congruence.
  - (* ClickStop *)
    destruct (onMainStage i && isRecording (state i)) eqn:E;
      [|apply (K' i Hd eq_refl Hrefl)].
    apply andb_prop in E as [E _].
    unfold onMainStage in E. apply andb_prop in E as [_ E].
    apply negb_true_iff in E. unfold stopRecording.
    destruct (mediaRecorderRef (refs i)), (recorder (browser i)) as [[|]|];
      simpl; congruence.
  - (* ClickAddTime *)
    destruct (onMainStage i && isRecording (state i)) eqn:E;
      [|apply (K' i Hd eq_refl Hrefl)].
    apply andb_prop in E as [E _].
    unfold onMainStage in E. apply andb_prop in E as [_ E].
    apply negb_true_iff in E. simpl. congruence.
Qed.

Lemma handle_isPrep (i : Instance) (e : event) :
  isPrep (state i) = false -> isPrep (state (handle i e)) = false.
Proof.
  intros H. destruct e; try (apply step_isPrep; exact H); simpl;
    unfold startRecording, stopRecording, skipPrep, addTime;
    repeat match goal with
           | |- context [if ?b then _ else _] => destruct b
           | |- context [match ?x with _ => _ end] => destruct x
           end; simpl; auto.
Qed.

(** A render that shows a recording under way. *)
Lemma handle_recording (i : Instance) (e : event) :
  wired i -> disciplined i ->
  isRecording (state (handle i e)) = true ->
  isPrep (state (handle i e)) = false /\
  recorder (browser (handle i e)) = Some recording /\
  mediaRecorderRef (refs (handle i e)) = true.
Proof.
  intros Hw Hd.
  assert (forall j, disciplined j -> isRecording (state j) = true ->
            isPrep (state j) = false /\
            recorder (browser j) = Some recording /\
            mediaRecorderRef (refs j) = true) as K.
  { intros j Dj Hr. destruct (recording_runs j Dj Hr) as [Hrec _].
    split; [|split; [exact Hrec|]].
    - destruct (isPrep (state j)) eqn:Ep; [|reflexivity].
      destruct (prep_freezes j Dj Ep) as [_ Hn]. congruence.
    - apply (recorder_referenced j Dj). rewrite Hrec. discriminate. }
  assert (disciplined (step i e)) as Ds by (apply step_disciplined; assumption).
  destruct e; try (apply (K _ Ds)); simpl.
  - destruct (isMounted i && isPrep (state i) && (0 <? prepTimeLeft (state i)));
      [|apply (K i Hd)].
    simpl. apply (K i Hd).
  - destruct (onMainStage i && isRecording (state i) && (0 <? timeLeft (state i)));
      [|apply (K i Hd)].
    simpl. apply (K i Hd).
  - destruct (isMounted i && isPrep (state i)) eqn:E; [|apply (K i Hd)].
    apply andb_prop in E as [_ Ep]. simpl. intros Hr.
    destruct (prep_freezes i Hd Ep) as [_ Hn]. congruence.
  - destruct (onMainStage i && negb (isRecording (state i)) && isReady (state i)) eqn:E;
      [|apply (K i Hd)].
    apply andb_prop in E as [E _]. apply andb_prop in E as [E Er].
    unfold onMainStage in E. apply andb_prop in E as [_ E].
    apply negb_true_iff in E. apply negb_true_iff in Er. unfold startRecording.
    destruct (mediaRecorderRef (refs i)) eqn:Em, (recorder (browser i)) as [[|]|];
      try destruct started; simpl; try congruence. auto.
  - destruct (onMainStage i && isRecording (state i)); [|apply (K i Hd)].
    unfold stopRecording.
    destruct (mediaRecorderRef (refs i)) eqn:Em, (recorder (browser i)) as [[|]|] eqn:Erc;
      simpl; try discriminate; intros Hr; destruct (K i Hd Hr) as (H1 & H2 & H3);
      repeat split; congruence.
  - destruct (onMainStage i && isRecording (state i)); [|apply (K i Hd)].
    simpl. apply (K i Hd).
Qed.

(** The auto-stop effect takes a recording shown at zero off the air. *)
Lemma handle_at_zero (i : Instance) (e : event) :
  wired i -> disciplined i ->
  isRecording (state (handle i e)) = true ->
  timeLeft (state (handle i e)) = 0 ->
  isRecording (state (step i e)) = false /\ stopRequested (step i e) = true.
Proof.
  intros Hw Hd Hr Hz.
  destruct (handle_recording i e Hw Hd Hr) as (Hp & Hrec & Hm).
  rewrite (step_handle i e Hw Hd).
  unfold effects, prepEffect. rewrite Hp. simpl.
  unfold autoStopEffect. rewrite Hp, Hz, Hr. simpl.
  unfold stopRecording. rewrite Hm, Hrec. auto.
Qed.

Lemma reachable_wired cfg sup es : wired (run (mount cfg sup) es).
Proof. apply run_wired, mount_wired. Qed.

(** X1.  The preparation is quiet on every render of every stage a run
    can reach, the render an event commits before its effects run
    included: while the overlay is up the speaking time stands at the
    configured duration, nothing is being recorded, no stop is under way,
    nothing has been handed over, and the preparation time left is between
    0 and the configured one.  It is 0 only on the render that the last
    tick of the preparation commits, and the effect of that render takes
    the overlay down; once the effects have run the time left under the
    overlay is positive.  Once the overlay is down it never comes back,
    and a session without preparation time never shows it.  A session
    with a minute of preparation does show the overlay at 0, on the render
    of its 60th tick. *)
Theorem preparation_is_quiet (cfg : SessionConfig.t) (sup : jsstring -> bool)
    (es : list event) (e : event) :
  let i := run (mount cfg sup) es in
  let f := handle i e in
  (isPrep (state f) = true ->
   timeLeft (state f) = SessionConfig.durationSeconds cfg /\
   isRecording (state f) = false /\
   recorder (browser f) <> Some recording /\
   stopRequested f = false /\
   finished f = [] /\
   0 <= prepTimeLeft (state f) <= SessionConfig.prepTimeSeconds cfg) /\
  (isPrep (state f) = true -> prepTimeLeft (state f) = 0 ->
   e = PrepTick /\ isPrep (state (step i e)) = false) /\
  (isPrep (state i) = true -> 0 < prepTimeLeft (state i)) /\
  (isPrep (state i) = false ->
   forall es' e',
     isPrep (state (run i es')) = false /\
     isPrep (state (handle (run i es') e')) = false) /\
  (SessionConfig.prepTimeSeconds cfg <= 0 ->
   isPrep (state i) = false /\ isPrep (state f) = false) /\
  (let j := run (mount rehearsed webmOnly) (granted ++ repeat PrepTick 59) in
   isPrep (state (handle j PrepTick)) = true /\
   prepTimeLeft (state (handle j PrepTick)) = 0).
Proof.
  intros i f.
  pose proof (reachable_disciplined cfg sup es) as D. fold i in D.
  pose proof (reachable_wired cfg sup es) as W. fold i in W.
  assert (config i = cfg) as Hc by apply (run_props es (mount cfg sup)).
  assert (prepTimeLeft (state i) <= SessionConfig.prepTimeSeconds cfg) as Hle
    by apply (run_prepTimeLeft es (mount cfg sup)).
  assert (SessionConfig.prepTimeSeconds cfg <= 0 -> isPrep (state i) = false) as Hno.
  { intros H. apply run_isPrep. simpl. apply Z.ltb_ge. exact H. }
  split; [|split; [|split; [|split; [|split]]]].
  - intros Hp. destruct (handle_prep i e W D Hp) as (H1 & H2 & H3 & H4 & H5 & H6 & _).
    rewrite Hc in H1. fold f in H1, H2, H3, H4, H5, H6. repeat split; auto; lia.
  - intros Hp Hz. destruct (handle_prep i e W D Hp) as (_ & H2 & _ & _ & _ & _ & H7).
    split; [exact (H7 Hz)|].
    rewrite (step_handle i e W D). fold f. fold f in H2.
    unfold effects, prepEffect. rewrite Hp, Hz. simpl.
    unfold autoStopEffect. simpl. rewrite H2, andb_false_r. reflexivity.
  - apply (prep_pending i D).
  - intros Hp es' e'. split; [now apply run_isPrep|].
    apply handle_isPrep. now apply run_isPrep.
  - intros H. split; [exact (Hno H)|]. apply handle_isPrep. exact (Hno H).
  - vm_compute. split; reflexivity.
Qed.

Lemma preparation_is_quiet_witness :
  isPrep (state (handle (run (mount rehearsed webmOnly) (granted ++ [PrepTick]))
                   (ClickStart 1000 true))) = true /\
  isRecording (state (handle (run (mount rehearsed webmOnly) (granted ++ [PrepTick]))
                        (ClickStart 1000 true))) = false /\
  timeLeft (state (handle (run (mount rehearsed webmOnly) (granted ++ [PrepTick]))
                     (ClickStart 1000 true))) = 60.
Proof.
  assert (isPrep (state (handle (run (mount rehearsed webmOnly) (granted ++ [PrepTick]))
                           (ClickStart 1000 true))) = true) as H
    by (vm_compute; reflexivity).
  split; [exact H|].
  destruct (preparation_is_quiet rehearsed webmOnly (granted ++ [PrepTick])
              (ClickStart 1000 true)) as [K _].
  destruct (K H) as (Ht & Hr & _). split; [exact Hr | exact Ht].
Defined.

Lemma prep_ticks (k : nat) :
  forall i,
    isMounted i = true -> isPrep (state i) = true ->
    isRecording (state i) = false ->
    Z.of_nat k < prepTimeLeft (state i) ->
    let j := run i (repeat PrepTick k) in
    isMounted j = true /\ isPrep (state j) = true /\
    isRecording (state j) = false /\
    prepTimeLeft (state j) = prepTimeLeft (state i) - Z.of_nat k /\
    timeLeft (state j) = timeLeft (state i).
Proof.
  induction k as [|k IH]; intros i Hm Hp Hr Hk.
  - simpl. repeat split; auto; lia.
  - change (repeat PrepTick (S k)) with (PrepTick :: repeat PrepTick k).
    cbn [run fold_left]. fold (run (step i PrepTick) (repeat PrepTick k)).
    assert (step i PrepTick
            = onState (setPrepTimeLeft (fun prev => prev - 1)) i) as E.
    { open_stage i. subst. unfold effects, prepEffect, autoStopEffect; simpl.
      replace (0 <? pt) with true by (symmetry; apply Z.ltb_lt; lia).
      simpl. replace (pt - 1 =? 0) with false by (symmetry; apply Z.eqb_neq; lia).
      simpl. reflexivity. }
    rewrite E.
    destruct (IH (onState (setPrepTimeLeft (fun prev => prev - 1)) i))
      as (H1 & H2 & H3 & H4 & H5); simpl; auto; [lia|].
    repeat split; auto. rewrite H4. simpl. lia.
Qed.

Lemma last_prep_tick (i : Instance) :
  isMounted i = true -> isPrep (state i) = true ->
  isRecording (state i) = false -> prepTimeLeft (state i) = 1 ->
  isPrep (state (step i PrepTick)) = false /\
  timeLeft (state (step i PrepTick)) = timeLeft (state i) /\
  isRecording (state (step i PrepTick)) = false.
Proof.
  intros Hm Hp Hr H1. open_stage i. subst.
  unfold effects, prepEffect, autoStopEffect; simpl.
  rewrite andb_false_r. simpl. auto.
Qed.

Lemma skip_ends_prep (i : Instance) :
  isMounted i = true -> isPrep (state i) = true ->
  isRecording (state i) = false ->
  isPrep (state (step i ClickSkipPrep)) = false /\
  isRecording (state (step i ClickSkipPrep)) = false /\
  timeLeft (state (step i ClickSkipPrep)) = timeLeft (state i).
Proof.
  intros Hm Hp Hr. open_stage i. subst.
  unfold effects, prepEffect, autoStopEffect, skipPrep; simpl.
  rewrite andb_false_r. simpl. auto.
Qed.

(** X2.  The preparation ends by itself: on a mounted stage that shows
    the overlay, each tick of the one-second timer takes one second off the
    preparation time, and the tick that brings it to 0 takes the overlay
    down; the skip button does so at once.  Either way nothing is being
    recorded and the full configured duration is on the clock. *)
Theorem preparation_ends (cfg : SessionConfig.t) (sup : jsstring -> bool)
    (es : list event) :
  let i := run (mount cfg sup) es in
  isMounted i = true ->
  isPrep (state i) = true ->
  (forall k, Z.of_nat k < prepTimeLeft (state i) ->
     let j := run i (repeat PrepTick k) in
     isPrep (state j) = true /\
     prepTimeLeft (state j) = prepTimeLeft (state i) - Z.of_nat k) /\
  (let j := run i (repeat PrepTick (Z.to_nat (prepTimeLeft (state i)))) in
   isPrep (state j) = false /\
   isRecording (state j) = false /\
   timeLeft (state j) = SessionConfig.durationSeconds cfg) /\
  (let j := step i ClickSkipPrep in
   isPrep (state j) = false /\
   isRecording (state j) = false /\
   timeLeft (state j) = SessionConfig.durationSeconds cfg).
Proof.
  intros i Hm Hp. pose proof (reachable_disciplined cfg sup es) as D. fold i in D.
  assert (config i = cfg) as Hc by apply (run_props es (mount cfg sup)).
  destruct (prep_freezes i D Hp) as [Ht Hr]. rewrite Hc in Ht.
  pose proof (prep_pending i D Hp) as Hpos.
  split; [|split].
  - intros k Hk. destruct (prep_ticks k i Hm Hp Hr Hk) as (_ & H2 & _ & H4 & _).
    split; assumption.
  - remember (Z.to_nat (prepTimeLeft (state i))) as n eqn:En.
    destruct n as [|n]; [lia|].
    replace (repeat PrepTick (S n)) with (repeat PrepTick n ++ [PrepTick])
      by (rewrite <- repeat_cons; reflexivity).
    rewrite run_app.
    destruct (prep_ticks n i Hm Hp Hr ltac:(lia)) as (H1 & H2 & H3 & H4 & H5).
    destruct (last_prep_tick (run i (repeat PrepTick n)) H1 H2 H3 ltac:(lia))
      as (L1 & L2 & L3).
    cbn [run fold_left]. cbn zeta. repeat split; auto. congruence.
  - cbn zeta. destruct (skip_ends_prep i Hm Hp Hr) as (S1 & S2 & S3).
    repeat split; auto. congruence.
Qed.

Lemma preparation_ends_witness :
  (isMounted (run (mount rehearsed webmOnly) granted) = true /\
   isPrep (state (run (mount rehearsed webmOnly) granted)) = true) /\
  isPrep (state (run (run (mount rehearsed webmOnly) granted)
                   (repeat PrepTick
                      (Z.to_nat (prepTimeLeft
                                   (state (run (mount rehearsed webmOnly) granted)))))))
  = false.
Proof.
  assert (isMounted (run (mount rehearsed webmOnly) granted) = true) as H1
    by (vm_compute; reflexivity).
  assert (isPrep (state (run (mount rehearsed webmOnly) granted)) = true) as H2
    by (vm_compute; reflexivity).
  split; [auto|].
  apply (preparation_ends rehearsed webmOnly granted H1 H2).
Defined.

Lemma recording_ticks (k : nat) :
  forall i,
    isMounted i = true -> isPrep (state i) = false ->
    isRecording (state i) = true ->
    Z.of_nat k < timeLeft (state i) ->
    let j := run i (repeat RecordingTick k) in
    isMounted j = true /\ isPrep (state j) = false /\
    isRecording (state j) = true /\
    timeLeft (state j) = timeLeft (state i) - Z.of_nat k /\
    refs j = refs i /\ browser j = browser i /\
    stopRequested j = stopRequested i /\ finished j = finished i /\
    setup j = setup i.
Proof.
  induction k as [|k IH]; intros i Hm Hp Hr Hk.
  - simpl. repeat split; auto; lia.
  - change (repeat RecordingTick (S k)) with (RecordingTick :: repeat RecordingTick k).
    cbn [run fold_left]. fold (run (step i RecordingTick) (repeat RecordingTick k)).
    assert (step i RecordingTick
            = onState (setTimeLeft (fun prev => Z.max 0 (prev - 1))) i) as E.
    { open_stage i. subst. unfold onMainStage, effects, prepEffect, autoStopEffect; simpl.
      replace (0 <? tl) with true by (symmetry; apply Z.ltb_lt; lia).
      simpl. replace (Z.max 0 (tl - 1) =? 0) with false by (symmetry; apply Z.eqb_neq; lia).
      simpl. reflexivity. }
    rewrite E.
    destruct (IH (onState (setTimeLeft (fun prev => Z.max 0 (prev - 1))) i))
      as (H1 & H2 & H3 & H4 & H5 & H6 & H7 & H8 & H9); simpl; auto; [lia|].
    repeat split; auto. rewrite H4. simpl. lia.
Qed.

Lemma last_recording_tick (i : Instance) :
  isMounted i = true -> isPrep (state i) = false ->
  isRecording (state i) = true -> timeLeft (state i) = 1 ->
  mediaRecorderRef (refs i) = true -> recorder (browser i) = Some recording ->
  let j := step i RecordingTick in
  isRecording (state j) = false /\ timeLeft (state j) = 0 /\
  recorder (browser j) = Some inactive /\ stopRequested j = true /\
  finished j = finished i.
Proof.
  intros Hm Hp Hr H1 Hmr Hrc. open_stage i. subst.
  unfold onMainStage, effects, prepEffect, autoStopEffect, stopRecording; simpl.
  auto.
Qed.

Lemma onstop_finishes (i : Instance) (now : Z) :
  stopRequested i = true ->
  exists blob duration,
    finished (step i (RecorderStopped now)) = (blob, duration) :: finished i.
Proof.
  intros Hs. simpl. rewrite Hs. unfold onstop, stopTracks. simpl.
  destruct (streamRef (refs i)); simpl; eauto.
Qed.

(** X3.  A recording stops by itself when the time is up: on a mounted
    stage that is recording, with a duration that is not negative, the
    time left is positive; each tick of the one-second timer takes one
    second off and hands nothing over; the tick that brings the clock to 0
    stops the recorder, and the stop event that follows hands over one
    recording. *)
Theorem recording_stops_at_zero (cfg : SessionConfig.t) (sup : jsstring -> bool)
    (es : list event) :
  let i := run (mount cfg sup) es in
  0 <= SessionConfig.durationSeconds cfg ->
  isMounted i = true ->
  isRecording (state i) = true ->
  0 < timeLeft (state i) /\
  (forall k, Z.of_nat k < timeLeft (state i) ->
     let j := run i (repeat RecordingTick k) in
     isRecording (state j) = true /\
     timeLeft (state j) = timeLeft (state i) - Z.of_nat k /\
     finished j = finished i) /\
  (let j := run i (repeat RecordingTick (Z.to_nat (timeLeft (state i)))) in
   isRecording (state j) = false /\
   timeLeft (state j) = 0 /\
   recorder (browser j) = Some inactive /\
   stopRequested j = true /\
   forall now, exists blob duration,
     finished (step j (RecorderStopped now)) = (blob, duration) :: finished i).
Proof.
  intros i Hd Hm Hr. pose proof (reachable_disciplined cfg sup es) as D. fold i in D.
  destruct (recording_runs i D Hr) as [Hrc Hne].
  assert (mediaRecorderRef (refs i) = true) as Hmr.
  { apply (recorder_referenced i D). congruence. }
  assert (isPrep (state i) = false) as Hp.
  { destruct (isPrep (state i)) eqn:E; [|reflexivity].
    destruct (prep_freezes i D E) as [_ H]. congruence. }
  assert (0 <= timeLeft (state i)) as Hge.
  { apply (run_timeLeft es (mount cfg sup)). exact Hd. }
  split; [lia|]. split.
  - intros k Hk.
    destruct (recording_ticks k i Hm Hp Hr Hk) as (_ & _ & H3 & H4 & _ & _ & _ & H8 & _).
    auto.
  - remember (Z.to_nat (timeLeft (state i))) as n eqn:En.
    destruct n as [|n]; [lia|].
    replace (repeat RecordingTick (S n)) with (repeat RecordingTick n ++ [RecordingTick])
      by (rewrite <- repeat_cons; reflexivity).
    rewrite run_app.
    destruct (recording_ticks n i Hm Hp Hr ltac:(lia))
      as (H1 & H2 & H3 & H4 & H5 & H6 & H7 & H8 & H9).
    destruct (last_recording_tick (run i (repeat RecordingTick n)) H1 H2 H3
                ltac:(lia) ltac:(congruence) ltac:(congruence))
      as (L1 & L2 & L3 & L4 & L5).
    cbn [run fold_left]. cbn zeta. repeat split; auto.
    intros now.
    destruct (onstop_finishes (step (run i (repeat RecordingTick n)) RecordingTick)
                now L4) as (blob & duration & Hf).
    exists blob, duration. rewrite Hf, L5, H8. reflexivity.
Qed.

Lemma recording_stops_at_zero_witness :
  (0 <= SessionConfig.durationSeconds minuteTalk /\
   isMounted (run (mount minuteTalk webmOnly) (granted ++ [ClickStart 1000 true])) = true /\
   isRecording (state (run (mount minuteTalk webmOnly)
                         (granted ++ [ClickStart 1000 true]))) = true) /\
  0 < timeLeft (state (run (mount minuteTalk webmOnly)
                         (granted ++ [ClickStart 1000 true]))).
Proof.
  assert (0 <= SessionConfig.durationSeconds minuteTalk) as H0 by (simpl; lia).
  assert (isMounted (run (mount minuteTalk webmOnly)
                       (granted ++ [ClickStart 1000 true])) = true) as H1
    by (vm_compute; reflexivity).
  assert (isRecording (state (run (mount minuteTalk webmOnly)
                                (granted ++ [ClickStart 1000 true]))) = true) as H2
    by (vm_compute; reflexivity).
  split; [auto|].
  apply (recording_stops_at_zero minuteTalk webmOnly
           (granted ++ [ClickStart 1000 true]) H0 H1 H2).
Defined.

Lemma step_inFlight (i : Instance) (e : event) :
  (length (finished (step i e)) + inFlight (step i e)
   <= length (finished i) + inFlight i + (if isStart e then 1 else 0))%nat.
Proof.
  unfold inFlight.
  open_stage i.
  destruct e; try destruct started; unfold_step; split_step; simpl; lia.
Qed.

Lemma run_inFlight (es : list event) :
  forall i,
    (length (finished (run i es)) + inFlight (run i es)
     <= length (finished i) + inFlight i + length (List.filter isStart es))%nat.
Proof.
  induction es as [|e es IH]; intros i; [simpl; lia|].
  cbn [run fold_left]. fold (run (step i e) es).
  specialize (IH (step i e)). pose proof (step_inFlight i e).
  cbn [List.filter]. destruct (isStart e); simpl; lia.
Qed.

(** X5.  [onFinish] is called at most once for every press of the start
    button after which the recorder started: whatever happens on the
    stage, the recordings handed over are no more than those presses. *)
Theorem one_delivery_per_start (cfg : SessionConfig.t) (sup : jsstring -> bool)
    (es : list event) :
  (length (finished (run (mount cfg sup) es)) <= length (List.filter isStart es))%nat.
Proof.
  pose proof (run_inFlight es (mount cfg sup)) as H.
  unfold inFlight in H at 2. simpl in H. lia.
Qed.

Lemma step_timeLeft_upper (i : Instance) (e : event) :
  timeLeft (state (step i e))
  <= timeLeft (state i) + (if isAddTime e then 15 else 0).
Proof.
  destruct e; unfold_step; split_step; simpl; try lia.
  all: match goal with H : (_ <? _) = true |- _ => apply Z.ltb_lt in H end; lia.
Qed.

Lemma run_timeLeft_upper (es : list event) :
  forall i,
    timeLeft (state (run i es))
    <= timeLeft (state i) + 15 * Z.of_nat (length (List.filter isAddTime es)).
Proof.
  induction es as [|e es IH]; intros i; [simpl; lia|].
  cbn [run fold_left]. fold (run (step i e) es).
  specialize (IH (step i e)). pose proof (step_timeLeft_upper i e).
  cbn [List.filter]. destruct (isAddTime e); simpl length; lia.
Qed.

Lemma handle_timeLeft (i : Instance) (e : event) :
  0 <= timeLeft (state i) ->
  0 <= timeLeft (state (handle i e))
    <= timeLeft (state i) + (if isAddTime e then 15 else 0).
Proof.
  intros H.
  destruct e; try (split; [apply step_timeLeft; exact H | apply (step_timeLeft_upper i)]);
    simpl; unfold startRecording, stopRecording, skipPrep, addTime;
    repeat match goal with
           | |- context [if ?b then _ else _] => destruct b eqn:?
           | |- context [match ?x with _ => _ end] => destruct x
           end; simpl; try lia.
Qed.

(** X4.  With a duration that is not negative the time on the clock is
    never negative, and never more than the configured duration plus 15
    seconds for every press of the add-time button, on every render, the
    one an event commits before its effects run included.  Once the
    effects have run, a stage that shows that it is recording has time
    left.  The render in between can show a recording at 0: then the
    auto-stop effect of that render stops the recorder and takes the
    recording sign down.  A session of one minute does show it, on the
    render of the 60th tick. *)
Theorem countdown_in_range (cfg : SessionConfig.t) (sup : jsstring -> bool)
    (es : list event) (e : event) :
  0 <= SessionConfig.durationSeconds cfg ->
  let i := run (mount cfg sup) es in
  let f := handle i e in
  0 <= timeLeft (state i)
    <= SessionConfig.durationSeconds cfg
       + 15 * Z.of_nat (length (List.filter isAddTime es)) /\
  0 <= timeLeft (state f)
    <= SessionConfig.durationSeconds cfg
       + 15 * Z.of_nat (length (List.filter isAddTime (es ++ [e]))) /\
  (isRecording (state i) = true -> 0 < timeLeft (state i)) /\
  (isRecording (state f) = true -> timeLeft (state f) = 0 ->
   isRecording (state (step i e)) = false /\ stopRequested (step i e) = true) /\
  (let j := run onAir (repeat RecordingTick 59) in
   isRecording (state (handle j RecordingTick)) = true /\
   timeLeft (state (handle j RecordingTick)) = 0).
Proof.
  intros Hd i f.
  pose proof (reachable_disciplined cfg sup es) as D. fold i in D.
  pose proof (reachable_wired cfg sup es) as W. fold i in W.
  assert (0 <= timeLeft (state i)) as Hge.
  { apply (run_timeLeft es (mount cfg sup)). exact Hd. }
  pose proof (run_timeLeft_upper es (mount cfg sup)) as Hup. fold i in Hup.
  simpl in Hup.
  split; [split; [exact Hge|exact Hup]|].
  split; [|split; [|split]].
  - pose proof (handle_timeLeft i e Hge) as Hf. fold f in Hf.
    rewrite List.filter_app, length_app. cbn [List.filter].
    destruct (isAddTime e); simpl length; lia.
  - intros Hr. destruct (recording_runs i D Hr) as [_ Hne]. lia.
  - intros Hr Hz. now apply handle_at_zero.
  - vm_compute. split; reflexivity.
Qed.

Lemma countdown_in_range_witness :
  0 <= SessionConfig.durationSeconds minuteTalk /\
  0 <= timeLeft (state (run (mount minuteTalk webmOnly) tenSeconds))
    <= SessionConfig.durationSeconds minuteTalk
       + 15 * Z.of_nat (length (List.filter isAddTime tenSeconds)).
Proof.
  assert (0 <= SessionConfig.durationSeconds minuteTalk) as H0 by (simpl; lia).
  split; [exact H0|].
  exact (proj1 (countdown_in_range minuteTalk webmOnly tenSeconds ClickStop H0)).
Defined.

Lemma getSupportedMimeType_first (sup : jsstring -> bool) :
  getSupportedMimeType sup
  = match List.find sup audioTypes with Some t => t | None => [] end.
Proof.
  unfold getSupportedMimeType, audioTypes. simpl.
  repeat match goal with |- context [sup ?t] => destruct (sup t) eqn:? end;
    reflexivity.
Qed.



Lemma run_data (ds : list Blob) :
  forall i,
    recorder (browser i) = Some recording \/ stopRequested i = true ->
    run i (List.map DataAvailable ds)
    = withChunks (chunksRef (refs i) ++ List.filter hasData ds) i.
Proof.
  induction ds as [|d ds IH]; intros i H.
  - simpl. rewrite app_nil_r. open_stage i. reflexivity.
  - cbn [List.map run fold_left]. fold (run (step i (DataAvailable d)) (List.map DataAvailable ds)).
    assert (step i (DataAvailable d) = ondataavailable d i) as E.
    { simpl. destruct H as [-> | ->]; [reflexivity|].
      destruct (recorder (browser i)) as [[|]|]; reflexivity. }
    rewrite E. unfold ondataavailable, hasData. cbn [List.filter].
    destruct (bytes d) eqn:Eb.
    + apply IH, H.
    + rewrite IH by (open_stage i; exact H).
      open_stage i. unfold withChunks. simpl. rewrite <- app_assoc. reflexivity.
Qed.

Lemma concat_hasData (ds : list Blob) :
  List.concat (List.map bytes (List.filter hasData ds))
  = List.concat (List.map bytes ds).
Proof.
  induction ds as [|d ds IH]; [reflexivity|].
  cbn [List.filter List.map List.concat]. unfold hasData at 1.
  destruct (bytes d) eqn:E; simpl; rewrite ?E, IH; reflexivity.
Qed.


Lemma run_cons (i : Instance) (e : event) (es : list event) :
  run i (e :: es) = run (step i e) es.
Proof. reflexivity. Qed.



Lemma start_accepting (i : Instance) (now : Z) :
  isMounted i = true -> isPrep (state i) = false ->
  isReady (state i) = true -> isRecording (state i) = false ->
  mediaRecorderRef (refs i) = true -> recorder (browser i) = Some inactive ->
  let j := step i (ClickStart now true) in
  accepting j /\ chunksRef (refs j) = [] /\
  finished j = finished i /\ setup j = setup i.
Proof.
  intros Hm Hp Hrd Hr Hmr Hrc. open_stage i. subst.
  unfold accepting, onMainStage, effects, prepEffect, autoStopEffect,
    startRecording, stopRecording. simpl.
  destruct (tl =? 0); simpl; tauto.
Qed.

Lemma data_accepting (ds : list Blob) (i : Instance) :
  accepting i ->
  let j := run i (List.map DataAvailable ds) in
  accepting j /\
  chunksRef (refs j) = chunksRef (refs i) ++ List.filter hasData ds /\
  finished j = finished i /\ setup j = setup i.
Proof.
  intros (Hm & Hp & Hmr & H). cbn zeta. rewrite run_data by tauto.
  unfold accepting, withChunks. simpl. tauto.
Qed.

Lemma stop_accepting (i : Instance) :
  accepting i ->
  let j := step i ClickStop in
  accepting j /\ stopRequested j = true /\
  chunksRef (refs j) = chunksRef (refs i) /\
  finished j = finished i /\ setup j = setup i.
Proof.
  intros (Hm & Hp & Hmr & H). open_stage i. subst.
  unfold accepting, onMainStage, effects, prepEffect, autoStopEffect, stopRecording.
  simpl. destruct H as [[-> ->] | [-> ->]]; simpl.
  - rewrite andb_false_r. simpl. tauto.
  - tauto.
Qed.

Lemma onstop_blob (i : Instance) (now : Z) :
  stopRequested i = true ->
  exists duration,
    finished (step i (RecorderStopped now)) = (recordedBlob i, duration) :: finished i.
Proof.
  intros Hs. simpl. rewrite Hs. unfold onstop, stopTracks, recordedBlob. simpl.
  destruct (streamRef (refs i)); simpl; eexists; reflexivity.
Qed.

Lemma take_chunks (i : Instance) (now now' : Z) (before after : list Blob) :
  isMounted i = true -> isPrep (state i) = false ->
  isReady (state i) = true -> isRecording (state i) = false ->
  mediaRecorderRef (refs i) = true -> recorder (browser i) = Some inactive ->
  exists duration,
    finished (run i (ClickStart now true :: List.map DataAvailable before
                     ++ ClickStop :: List.map DataAvailable after
                     ++ [RecorderStopped now']))
    = ({| bytes := List.concat (List.map bytes (before ++ after));
          type := if truthy (mimeType (setup i)) then mimeType (setup i)
                  else u16 "audio/webm" |}, duration) :: finished i.
Proof.
  intros Hm Hp Hrd Hr Hmr Hrc.
  rewrite run_cons, run_app, run_cons, run_app.
  assert (forall k, run k [RecorderStopped now'] = step k (RecorderStopped now'))
    as -> by reflexivity.
  destruct (start_accepting i now Hm Hp Hrd Hr Hmr Hrc) as (A1 & C1 & F1 & S1).
  set (i1 := step i (ClickStart now true)) in *.
  destruct (data_accepting before i1 A1) as (A2 & C2 & F2 & S2).
  set (i2 := run i1 (List.map DataAvailable before)) in *.
  destruct (stop_accepting i2 A2) as (A3 & R3 & C3 & F3 & S3).
  set (i3 := step i2 ClickStop) in *.
  destruct (data_accepting after i3 A3) as (A4 & C4 & F4 & S4).
  set (i4 := run i3 (List.map DataAvailable after)) in *.
  assert (stopRequested i4 = true) as R4.
  { unfold i4. rewrite run_data by (right; exact R3). exact R3. }
  destruct (onstop_blob i4 now' R4) as [d Hd].
  exists d. rewrite Hd. unfold recordedBlob.
  rewrite C4, C3, C2, C1, S4, S3, S2, S1, F4, F3, F2, F1. cbn [app].
  rewrite <- List.filter_app, concat_hasData. reflexivity.
Qed.

(** X6.  A take delivers its own audio, all of it: when the start button
    is enabled, a start, the data events that come before the stop is
    pressed, the stop, the data events that still come, and the stop event
    hand over one more recording; its bytes are those of all these data
    events in their order, with nothing of an earlier take, and its type
    is the first of the container types the browser supports, or
    audio/webm when it supports none, never the empty type. *)
Theorem take_delivers_its_chunks
    (cfg : SessionConfig.t) (sup : jsstring -> bool) (es : list event)
    (now now' : Z) (before after : list Blob) :
  let i := run (mount cfg sup) es in
  onMainStage i = true ->
  isReady (state i) = true ->
  isRecording (state i) = false ->
  let j := run i (ClickStart now true :: List.map DataAvailable before
                  ++ ClickStop :: List.map DataAvailable after
                  ++ [RecorderStopped now']) in
  exists blob duration,
    finished j = (blob, duration) :: finished i /\
    bytes blob = List.concat (List.map bytes (before ++ after)) /\
    type blob = match List.find sup audioTypes with
                | Some t => t
                | None => u16 "audio/webm"
                end /\
    type blob <> [].
Proof.
  intros i Hs Hrd Hr. pose proof (reachable_disciplined cfg sup es) as D. fold i in D.
  assert (isTypeSupported i = sup) as Hsup by apply (run_props es (mount cfg sup)).
  pose proof (ready_has_recorder i D Hrd) as Hmr.
  pose proof (recorder_type i D Hmr) as Hmt. rewrite Hsup in Hmt.
  assert (recorder (browser i) = Some inactive) as Hrc.
  { destruct (recorder (browser i)) as [[|]|] eqn:E; [reflexivity| |].
    - apply (recorder_shown i D) in E. congruence.
    - apply (recorder_referenced i D) in Hmr. congruence. }
  unfold onMainStage in Hs. apply andb_prop in Hs as [Hm Hp].
  apply negb_true_iff in Hp.
  destruct (take_chunks i now now' before after Hm Hp Hrd Hr Hmr Hrc) as [d Hd].
  cbn zeta. rewrite Hd. eexists _, d. split; [reflexivity|]. cbn [bytes type].
  split; [reflexivity|]. rewrite Hmt, getSupportedMimeType_first.
  unfold audioTypes. cbn [List.find].
  repeat match goal with |- context [sup ?t] => destruct (sup t) eqn:? end;
    split; solve [reflexivity | discriminate].
Qed.

Lemma take_delivers_its_chunks_witness :
  (onMainStage (run (mount minuteTalk webmOnly) granted) = true /\
   isReady (state (run (mount minuteTalk webmOnly) granted)) = true /\
   isRecording (state (run (mount minuteTalk webmOnly) granted)) = false) /\
  exists blob duration,
    finished (run (run (mount minuteTalk webmOnly) granted)
                (ClickStart 1000 true :: List.map DataAvailable [chunk1; noData]
                 ++ ClickStop :: List.map DataAvailable [chunk2]
                 ++ [RecorderStopped 13000]))
    = (blob, duration) :: finished (run (mount minuteTalk webmOnly) granted) /\
    bytes blob = List.concat (List.map bytes ([chunk1; noData] ++ [chunk2])).
Proof.
  assert (onMainStage (run (mount minuteTalk webmOnly) granted) = true) as H1
    by (vm_compute; reflexivity).
  assert (isReady (state (run (mount minuteTalk webmOnly) granted)) = true) as H2
    by (vm_compute; reflexivity).
  assert (isRecording (state (run (mount minuteTalk webmOnly) granted)) = false) as H3
    by (vm_compute; reflexivity).
  split; [auto|].
  destruct (take_delivers_its_chunks minuteTalk webmOnly granted 1000 13000
              [chunk1; noData] [chunk2] H1 H2 H3)
    as (blob & duration & Hf & Hb & _).
  exists blob, duration. split; [exact Hf | exact Hb].
Defined.

Lemma recordedType_offered (sup : jsstring -> bool) :
  (if truthy (getSupportedMimeType sup) then getSupportedMimeType sup
   else u16 "audio/webm") ∈ audioTypes.
Proof.
  rewrite getSupportedMimeType_first. unfold audioTypes. cbn [List.find].
  repeat match goal with |- context [sup ?t] => destruct (sup t) eqn:? end;
    cbn [truthy]; rewrite !elem_of_cons; tauto.
Qed.

Lemma step_finished (i : Instance) (e : event) :
  finished (step i e) = finished i \/
  exists now, e = RecorderStopped now /\ stopRequested i = true /\
              step i e = onstop now (setStopRequested false i).
Proof.
  destruct e; try (left; open_stage i; unfold_step; split_step; reflexivity).
  simpl. destruct (stopRequested i) eqn:E; [right; eauto | left; reflexivity].
Qed.

Lemma onstop_handedOver (i : Instance) (now : Z) :
  wired i -> disciplined i -> stopRequested i = true ->
  handedOver i -> handedOver (onstop now (setStopRequested false i)).
Proof.
  intros Hw Hd Hs H. pose proof (closure_config i Hw) as Hc.
  pose proof (closure_timeLeft i Hw) as Ht.
  pose proof (recorder_type i Hd (stop_has_recorder i Hw Hs)) as Hm.
  pose proof (recordedType_offered (isTypeSupported i)) as Hty.
  unfold handedOver, onstop, stopTracks in *. open_stage i. subst.
  destruct sr; simpl; constructor; auto; simpl; (split; [exact Hty|]).
  all: destruct (Qlt_le_dec 0 _) as [Hpos|Hneg];
    [apply Qlt_le_weak, Hpos | rewrite Z.sub_diag; apply Qle_refl].
Qed.

Lemma run_handedOver (es : list event) :
  forall i, wired i -> disciplined i -> handedOver i -> handedOver (run i es).
Proof.
  induction es as [|e es IH]; intros i Hw Hd H; [exact H|].
  cbn [run fold_left]. apply IH;
    [apply step_wired, Hw | apply step_disciplined; assumption |].
  destruct (step_finished i e) as [E | (now & -> & Hs & E)].
  - unfold handedOver. rewrite E. exact H.
  - rewrite E. now apply onstop_handedOver.
Qed.

(** X7.  Everything a stage ever hands to [onFinish], on any run: a blob
    whose type is one of the four container types, never the empty type,
    and a duration that is not negative. *)
Theorem recordings_handed_over_are_well_formed
    (cfg : SessionConfig.t) (sup : jsstring -> bool) (es : list event)
    (blob : Blob) (duration : Q) :
  (blob, duration) ∈ finished (run (mount cfg sup) es) ->
  type blob ∈ audioTypes /\
  type blob <> [] /\
  (0 <= duration)%Q.
Proof.
  intros Hin.
  assert (handedOver (run (mount cfg sup) es)) as H.
  { apply run_handedOver; [apply mount_wired | apply mount_disciplined | constructor]. }
  unfold handedOver in H. rewrite Forall_forall in H.
  destruct (H _ Hin) as [Ht Hd]. simpl in Ht, Hd.
  split; [exact Ht|]. split.
  - intros E. rewrite E in Ht. unfold audioTypes in Ht.
    rewrite !elem_of_cons in Ht.
    destruct Ht as [Ht|[Ht|[Ht|[Ht|Ht]]]]; try discriminate.
    now apply not_elem_of_nil in Ht.
  - exact Hd.
Qed.

Lemma recordings_handed_over_are_well_formed_witness :
  (noData, 12000 # 1000)
    ∈ finished (run (mount minuteTalk webmOnly) (oneTake ++ [RecorderStopped 13000])) /\
  (0 <= 12000 # 1000)%Q.
Proof.
  assert ((noData, 12000 # 1000)
            ∈ finished (run (mount minuteTalk webmOnly)
                          (oneTake ++ [RecorderStopped 13000]))) as H.
  { assert (finished (run (mount minuteTalk webmOnly)
                        (oneTake ++ [RecorderStopped 13000]))
            = [(noData, 12000 # 1000)]) as -> by (vm_compute; reflexivity).
    constructor. }
  split; [exact H|].
  apply (recordings_handed_over_are_well_formed minuteTalk webmOnly
           (oneTake ++ [RecorderStopped 13000]) noData (12000 # 1000) H).
Defined.

Lemma sum_bounds (dataArray : list Z) :
  Forall (fun b => 0 <= b <= 255) dataArray ->
  forall acc, acc <= fold_left Z.add dataArray acc
              <= acc + 255 * Z.of_nat (length dataArray).
Proof.
  induction 1 as [|b l Hb _ IH]; intros acc; simpl fold_left.
  - simpl. lia.
  - specialize (IH (acc + b)). rewrite length_cons, Nat2Z.inj_succ. lia.
Qed.

(** X8.  The level of the volume meter, computed from the bytes of the
    analyser, is between 0 and 100, so that the ring around the microphone
    is scaled by 1 to 1.5 and its opacity is between 0.5 and 1; the meter
    is at 100 exactly when the bytes average 40 or more. *)
Theorem volume_stays_on_the_meter (dataArray : list Z) :
  dataArray <> [] ->
  Forall (fun b => 0 <= b <= 255) dataArray ->
  let volume := volumeLevel dataArray in
  (0 <= volume <= 100)%Q /\
  (1 <= ringScale volume <= 3 # 2)%Q /\
  (1 # 2 <= ringOpacity volume <= 1)%Q /\
  ((volume == 100)%Q <->
   40 * Z.of_nat (length dataArray) <= fold_left Z.add dataArray 0).
Proof.
  intros Hne Hb. cbn zeta.
  pose proof (sum_bounds dataArray Hb 0) as [Hlo _].
  assert (0 < Z.of_nat (length dataArray)) as Hlen.
  { destruct dataArray; [now elim Hne|]. rewrite length_cons. lia. }
  unfold volumeLevel. set (sum := fold_left Z.add dataArray 0) in *.
  set (n := Z.of_nat (length dataArray)) in *.
  assert (0 < inject_Z n)%Q as Hn by (change 0%Q with (inject_Z 0); now rewrite <- Zlt_Qlt).
  assert (0 <= inject_Z sum / inject_Z n * (5 # 2))%Q as Havg.
  { apply Qmult_le_0_compat; [|discriminate].
    apply Qle_shift_div_l; [exact Hn|]. rewrite Qmult_0_l.
    change 0%Q with (inject_Z 0). now rewrite <- Zle_Qle. }
  assert (0 <= Math_min 100 (inject_Z sum / inject_Z n * (5 # 2)) <= 100)%Q as Hv.
  { unfold Math_min. split; [|apply Q.le_min_l].
    apply Q.min_glb; [discriminate|exact Havg]. }
  split; [exact Hv|]. destruct Hv as [Hv0 Hv1].
  set (v := Math_min 100 (inject_Z sum / inject_Z n * (5 # 2))) in *.
  assert (0 <= v / 200 <= 1 # 2)%Q as [Hd0 Hd1].
  { split.
    - apply Qle_shift_div_l; [reflexivity|]. rewrite Qmult_0_l. exact Hv0.
    - apply Qle_shift_div_r; [reflexivity|].
      assert ((1 # 2) * 200 == 100)%Q as -> by reflexivity. exact Hv1. }
  split; [|split].
  - unfold ringScale. split.
    + rewrite <- (Qplus_0_r 1) at 1. apply Qplus_le_compat; [apply Qle_refl|exact Hd0].
    + apply (Qle_trans _ (1 + (1 # 2))); [|discriminate].
      apply Qplus_le_compat; [apply Qle_refl|exact Hd1].
  - unfold ringOpacity. split.
    + rewrite <- (Qplus_0_r (1 # 2)) at 1. apply Qplus_le_compat; [apply Qle_refl|exact Hd0].
    + apply (Qle_trans _ ((1 # 2) + (1 # 2))); [|discriminate].
      apply Qplus_le_compat; [apply Qle_refl|exact Hd1].
  - assert ((100 <= inject_Z sum / inject_Z n * (5 # 2))%Q <-> 40 * n <= sum) as K.
    { assert (inject_Z sum / inject_Z n * (5 # 2) == inject_Z (5 * sum) / inject_Z (2 * n))%Q
        as ->.
      { rewrite !inject_Z_mult. field. intros E. rewrite E in Hn. discriminate. }
      assert (0 < inject_Z (2 * n))%Q as Hn2
        by (change 0%Q with (inject_Z 0); rewrite <- Zlt_Qlt; lia).
      split.
      - intros H. apply (Qmult_le_r _ _ (inject_Z (2 * n))) in H; [|exact Hn2].
        assert (inject_Z (5 * sum) / inject_Z (2 * n) * inject_Z (2 * n)
                == inject_Z (5 * sum))%Q as E
          by (field; intros E; rewrite E in Hn2; discriminate).
        rewrite E in H. change 100%Q with (inject_Z 100) in H.
        rewrite <- inject_Z_mult, <- Zle_Qle in H. lia.
      - intros H. apply Qle_shift_div_l; [exact Hn2|].
        change 100%Q with (inject_Z 100).
        rewrite <- inject_Z_mult, <- Zle_Qle. lia. }
    rewrite <- K. unfold v, Math_min. split.
    + intros E. rewrite <- E. apply Q.le_min_r.
    + intros H. apply Q.min_l. exact H.
Qed.

Lemma volume_stays_on_the_meter_witness :
  ([0; 128; 255] <> [] /\ Forall (fun b => 0 <= b <= 255) [0; 128; 255]) /\
  (0 <= volumeLevel [0; 128; 255]%Z <= 100)%Q.
Proof.
  assert ([0; 128; 255] <> []) as H1 by discriminate.
  assert (Forall (fun b => 0 <= b <= 255) [0; 128; 255]) as H2
    by (repeat constructor; lia).
  split; [auto|].
  apply (volume_stays_on_the_meter [0; 128; 255] H1 H2).
Defined.

End Discipline.
